(** * Profile & Test API: the CRUD services and routes over the table store

    The development follows the layering of the application:
    - Python values and dictionaries ([value], [row]);
    - the storage client ([from_], [select], [insert_], [update_], [eq_],
      [order], [range], [execute]) over an in-memory table store;
    - the request models of [app/models.py] and their [model_dump], and
      the e-mail validator of [UserRegister] over a model of the patterns
      of [re] that it uses;
    - the three services ([profile_service], [test_service],
      [question_service]);
    - the route handlers ([routes_profile], [routes_test],
      [routes_question]);
    - the properties of the services and routes.

    The storage client is a library outside the repository.  Its model is
    the store the services are written against: a select returns the rows
    that satisfy all its [eq] filters, a write stores what it is given and
    hands the stored rows back, no constraint rejects a write and no
    trigger changes a column behind it.  The coding variant of question
    creation and the coding-details update serialize their test cases
    with [json.dumps], and the auth routes call a service and a password
    module that are not part of the sources; they are left out. *)

From stdpp Require Import base option list gmap strings pretty sorting.
From Stdlib Require Import ZArith Lia Ascii.

Local Open Scope string_scope.
Local Open Scope Z_scope.
Local Open Scope list_scope.

(** ** Python values *)

(** The objects that occur as dictionary values in the services: the JSON
    scalars the store returns, and the Python objects that pydantic's
    [model_dump] leaves in a dumped model (enum members, dates, datetimes
    and UUIDs).  An enum member carries its [str()] text ([Class.MEMBER])
    and its [.value]; a date carries its ISO text; a datetime carries its
    date and time texts, so that [isoformat()] joins them with [T] and
    [str()] with a space.  A UUID is represented by its canonical text. *)
Inductive value : Type :=
  | VNull
  | VBool (b : bool)
  | VInt (z : Z)
  | VStr (s : string)
  | VStrs (l : list string)
  | VEnum (name : string) (val : string)
  | VDate (iso : string)
  | VDatetime (d : string) (t : string)
  | VUuid (u : string).

#[global] Instance value_eq_dec : EqDecision value.
Proof. solve_decision. Defined.

(** A dictionary with string keys: a table row, a dumped model, a payload. *)
Abbreviation row := (gmap string value).

Abbreviation UUID := string (only parsing).

(** [str(v)].  The text of a list of strings is its elements in single
    quotes (exact for elements without quotes, backslashes and control
    characters; no service applies [str] to a list). *)
Definition py_str (v : value) : string :=
  match v with
  | VNull => "None"
  | VBool true => "True"
  | VBool false => "False"
  | VInt z => pretty z
  | VStr s => s
  | VStrs l =>
      "[" +:+ String.concat ", " ((λ s, "'" +:+ s +:+ "'") <$> l) +:+ "]"
  | VEnum name _ => name
  | VDate iso => iso
  | VDatetime d t => d +:+ " " +:+ t
  | VUuid u => u
  end.

(** Truth value of an object in a condition. *)
Definition truthy (v : value) : bool :=
  match v with
  | VNull => false
  | VBool b => b
  | VInt z => negb (z =? 0)
  | VStr s => negb (String.eqb s "")
  | VStrs l => negb (bool_decide (l = []))
  | VEnum _ val => negb (String.eqb val "")
  | VDate _ | VDatetime _ _ | VUuid _ => true
  end.

(** Truth value of an [Optional[str]] argument ([if role:]). *)
Definition truthy_str (o : option string) : bool :=
  match o with
  | Some s => negb (String.eqb s "")
  | None => false
  end.

(** Truth value of an [Optional[dict]] ([if not existing:] is its
    negation): [None] and the empty dictionary are false. *)
Definition truthy_dict (o : option row) : bool :=
  match o with
  | Some r => negb (bool_decide (r = ∅))
  | None => false
  end.

(** [hasattr(v, "value")]: of the objects above only enum members have it. *)
Definition hasattr_value (v : value) : bool :=
  match v with VEnum _ _ => true | _ => false end.

(** [d.get(key)]: [None] when the key is absent. *)
Definition dict_get (key : string) (d : row) : value :=
  default VNull (d !! key).

(** ** Exceptions and the service monad *)

Inductive exn : Type :=
  | HTTPException (status_code : Z) (detail : string)
  | Exception (msg : string)
  | KeyError (key : string)
  | AttributeError (attr : string)
  | TypeError (msg : string).

Inductive outcome (A : Type) : Type :=
  | Ok (a : A)
  | Raise (e : exn).
Arguments Ok {A} a.
Arguments Raise {A} e.

(** ** The table store *)

(** The contents of the store are its tables, each the list of its rows in
    insertion order.  [generated] stands for the schema: the columns the
    store fills in on insert (the primary key, [created_at], column
    defaults such as [is_active]), given the table and its current rows. *)
Record store : Type := Store {
  tables : gmap string (list row);
  generated : string → list row → row;
}.

Definition table (s : store) (name : string) : list row :=
  default [] (tables s !! name).

Definition set_table (s : store) (name : string) (rows : list row) : store :=
  {| tables := <[name := rows]> (tables s); generated := generated s |}.

(** A computation against the store that may raise.  Writes made before an
    exception stay: nothing rolls them back. *)
Definition M (A : Type) : Type := store → outcome A * store.

Definition ret {A} (a : A) : M A := λ s, (Ok a, s).
Definition raise {A} (e : exn) : M A := λ s, (Raise e, s).
Definition bind {A B} (m : M A) (k : A → M B) : M B :=
  λ s, match m s with
       | (Ok a, s') => k a s'
       | (Raise e, s') => (Raise e, s')
       end.

Notation "x <- m ;; k" := (bind m (λ x, k))
  (at level 100, m at next level, right associativity,
   format "'[v' x  <-  m  ;;  '/' k ']'").

(** ** The storage client: a query builder and [execute] *)

Inductive operation : Type :=
  | Select (columns : list string) (count_exact : bool)
  | Insert (data : row)
  | Update (data : row).

Record query : Type := Query {
  q_table : string;
  q_op : operation;
  q_filters : list (string * value);
  q_order : option (string * bool);
  q_range : option (Z * Z);
}.

Record response : Type := Response {
  data : list row;
  count : option nat;
}.

Definition from_ (name : string) : string := name.

Definition select (columns : list string) (count_exact : bool)
    (name : string) : query :=
  Query name (Select columns count_exact) [] None None.

Definition insert_ (d : row) (name : string) : query :=
  Query name (Insert d) [] None None.

Definition update_ (d : row) (name : string) : query :=
  Query name (Update d) [] None None.

Definition eq_ (column : string) (v : value) (q : query) : query :=
  Query (q_table q) (q_op q) (q_filters q ++ [(column, v)])
        (q_order q) (q_range q).

Definition order (column : string) (desc : bool) (q : query) : query :=
  Query (q_table q) (q_op q) (q_filters q) (Some (column, desc)) (q_range q).

Definition range (a b : Z) (q : query) : query :=
  Query (q_table q) (q_op q) (q_filters q) (q_order q) (Some (a, b)).

(** Method chaining: [c |> f |> g] reads as [c.f(...).g(...)]. *)
Notation "x |> f" := (f x) (at level 45, left associativity, only parsing).

(** One [eq] filter: the column holds exactly this value; a comparison with
    null is never true. *)
Definition holds (r : row) (f : string * value) : bool :=
  match f.2 with
  | VNull => false
  | v => bool_decide (r !! f.1 = Some v)
  end.

(** All filters of the query, ANDed. *)
Definition matches (fs : list (string * value)) (r : row) : bool :=
  forallb (holds r) fs.

(** Order of two column values, ascending, nulls last. *)
Definition value_leb (a b : value) : bool :=
  match a, b with
  | _, VNull => true
  | VNull, _ => false
  | VInt x, VInt y => x <=? y
  | VStr x, VStr y => String.leb x y
  | VBool x, VBool y => implb x y
  | _, _ => true
  end.

Definition row_le (column : string) (desc : bool) (r1 r2 : row) : Prop :=
  if desc
  then value_leb (dict_get column r2) (dict_get column r1) = true
  else value_leb (dict_get column r1) (dict_get column r2) = true.

#[global] Instance row_le_dec column desc r1 r2 :
  Decision (row_le column desc r1 r2).
Proof. unfold row_le; destruct desc; apply _. Defined.

Definition ordered (o : option (string * bool)) (rows : list row) : list row :=
  match o with
  | Some (column, desc) => merge_sort (row_le column desc) rows
  | None => rows
  end.

(** [range(a, b)]: the rows at positions [a] to [b], both included
    (positions from 0; the services call it with [0 <= a]). *)
Definition ranged (o : option (Z * Z)) (rows : list row) : list row :=
  match o with
  | Some (a, b) => take (Z.to_nat (b - a + 1)) (drop (Z.to_nat a) rows)
  | None => rows
  end.

(** The selected columns of a row; ["*"] selects all. *)
Definition project (columns : list string) (r : row) : row :=
  if bool_decide ("*" ∈ columns) then r
  else filter (λ kv, kv.1 ∈ columns) r.

(** The JSON body of a write: enum members go out as their value (they
    are strings); dates, datetimes and UUID objects are not serializable. *)
Definition json_value (v : value) : option value :=
  match v with
  | VEnum _ val => Some (VStr val)
  | VDate _ | VDatetime _ _ | VUuid _ => None
  | v => Some v
  end.

Definition json_encode (d : row) : option row :=
  if bool_decide (map_Forall (λ _ v, is_Some (json_value v)) d)
  then Some (omap json_value d)
  else None.

(** [execute()].  A select returns the matching rows, ordered, cut to the
    range and projected, with the exact count of all matching rows when
    asked for.  An insert stores the body completed with the generated
    columns and returns the stored row.  An update overwrites the columns
    of the body in every matching row and returns the updated rows. *)
Definition execute (q : query) : M response :=
  λ s,
    let rows := table s (q_table q) in
    match q_op q with
    | Select columns count_exact =>
        let hit := filter (λ r, matches (q_filters q) r = true) rows in
        let page := ranged (q_range q) (ordered (q_order q) hit) in
        (Ok (Response (project columns <$> page)
                      (if count_exact then Some (length hit) else None)), s)
    | Insert d =>
        match json_encode d with
        | Some body =>
            let new := body ∪ generated s (q_table q) rows in
            (Ok (Response [new] None), set_table s (q_table q) (rows ++ [new]))
        | None => (Raise (TypeError "Object is not JSON serializable"), s)
        end
    | Update d =>
        match json_encode d with
        | Some body =>
            let upd := λ r : row,
              if matches (q_filters q) r then body ∪ r else r in
            (Ok (Response
                   ((λ r, body ∪ r) <$>
                      filter (λ r, matches (q_filters q) r = true) rows)
                   None),
             set_table s (q_table q) (upd <$> rows))
        | None => (Raise (TypeError "Object is not JSON serializable"), s)
        end
    end.

(** [res.data[0] if res.data else None] *)
Definition first_or_none (res : response) : option row := head (data res).

(** [x if x else d] for a count. *)
Definition count_or (c : option nat) (d : nat) : nat :=
  match c with
  | Some (S n) => S n
  | _ => d
  end.

(** [d[key]]: raises [KeyError] when the key is absent. *)
Definition subscript (key : string) (d : row) : M value :=
  match d !! key with
  | Some v => ret v
  | None => raise (KeyError key)
  end.

(** The class of an enum member, from its [str()] text [Class.MEMBER]. *)
Fixpoint class_name (name : string) : string :=
  match name with
  | EmptyString => EmptyString
  | String c rest =>
      if Ascii.eqb c "."%char then EmptyString
      else String c (class_name rest)
  end.

(** The name of the type of [v], as an error message prints it. *)
Definition type_name (v : value) : string :=
  match v with
  | VNull => "NoneType"
  | VBool _ => "bool"
  | VInt _ => "int"
  | VStr _ => "str"
  | VStrs _ => "list"
  | VEnum name _ => class_name name
  | VDate _ => "datetime.date"
  | VDatetime _ _ => "datetime.datetime"
  | VUuid _ => "UUID"
  end.

(** [acc + v] for an integer accumulator, as [sum] computes it: integers
    add, a boolean counts as 0 or 1, anything else is a [TypeError]. *)
Definition py_add (acc : Z) (v : value) : M Z :=
  match v with
  | VInt z => ret (acc + z)
  | VBool b => ret (acc + Z.b2z b)
  | _ => raise (TypeError ("unsupported operand type(s) for +: 'int' and '"
                           +:+ type_name v +:+ "'"))
  end.

(** ** Request models ([app/models.py]) *)

(** A [str]-valued [Enum] class: every member has a name and a value. *)
Class PyEnum (A : Type) := {
  enum_name : A → string;
  enum_value : A → string;
}.

Definition member `{PyEnum A} (a : A) : value :=
  VEnum (enum_name a) (enum_value a).

Inductive RoleEnum := USER | INSTITUTION.
Inductive CountryEnum := INDIA.
Inductive StateEnum := MADHYA_PRADESH.
Inductive CityEnum := BHOPAL | INDORE.
Inductive GenderEnum := MALE | FEMALE.
Inductive DifficultyEnum := EASY | MEDIUM | HARD.
Inductive CorrectOptionEnum := A | B | C | D.

#[global] Instance RoleEnum_enum : PyEnum RoleEnum := {|
  enum_name r := match r with
                 | USER => "RoleEnum.USER"
                 | INSTITUTION => "RoleEnum.INSTITUTION" end;
  enum_value r := match r with USER => "user" | INSTITUTION => "institution" end;
|}.
#[global] Instance CountryEnum_enum : PyEnum CountryEnum := {|
  enum_name _ := "CountryEnum.INDIA";
  enum_value _ := "India";
|}.
#[global] Instance StateEnum_enum : PyEnum StateEnum := {|
  enum_name _ := "StateEnum.MADHYA_PRADESH";
  enum_value _ := "Madhya Pradesh";
|}.
#[global] Instance CityEnum_enum : PyEnum CityEnum := {|
  enum_name c := match c with
                 | BHOPAL => "CityEnum.BHOPAL" | INDORE => "CityEnum.INDORE" end;
  enum_value c := match c with BHOPAL => "Bhopal" | INDORE => "Indore" end;
|}.
#[global] Instance GenderEnum_enum : PyEnum GenderEnum := {|
  enum_name g := match g with
                 | MALE => "GenderEnum.MALE" | FEMALE => "GenderEnum.FEMALE" end;
  enum_value g := match g with MALE => "Male" | FEMALE => "Female" end;
|}.
#[global] Instance DifficultyEnum_enum : PyEnum DifficultyEnum := {|
  enum_name d := match d with
                 | EASY => "DifficultyEnum.EASY"
                 | MEDIUM => "DifficultyEnum.MEDIUM"
                 | HARD => "DifficultyEnum.HARD" end;
  enum_value d := match d with
                  | EASY => "easy" | MEDIUM => "medium" | HARD => "hard" end;
|}.
#[global] Instance CorrectOptionEnum_enum : PyEnum CorrectOptionEnum := {|
  enum_name o := match o with
                 | A => "CorrectOptionEnum.A" | B => "CorrectOptionEnum.B"
                 | C => "CorrectOptionEnum.C" | D => "CorrectOptionEnum.D" end;
  enum_value o := match o with A => "a" | B => "b" | C => "c" | D => "d" end;
|}.

(** [datetime.date] and [datetime.datetime] objects, by their ISO texts. *)
Record date := { date_iso : string }.
Record datetime := { dt_date : string; dt_time : string }.

Definition vdate (d : date) : value := VDate (date_iso d).
Definition vdatetime (t : datetime) : value := VDatetime (dt_date t) (dt_time t).

(** [model.model_dump(exclude_none=True)] over the fields of a model in
    declaration order: the fields that are [None] are left out. *)
Fixpoint model_dump (fields : list (string * option value)) : row :=
  match fields with
  | [] => ∅
  | (k, Some v) :: rest => <[k := v]> (model_dump rest)
  | (_, None) :: rest => model_dump rest
  end.

Record ProfileCreate := {
  pc_user_id : UUID;
  pc_full_name : string;
  pc_email : string;
  pc_phone : option string;
  pc_bio : option string;
  pc_date_of_birth : date;
  pc_avatar_url : option string;
  pc_gender : option GenderEnum;
  pc_city : option CityEnum;
  pc_state : StateEnum;
  pc_country : CountryEnum;
  pc_role : RoleEnum;
}.

Definition ProfileCreate_fields (p : ProfileCreate) :
    list (string * option value) :=
  [ ("user_id", Some (VUuid (pc_user_id p)));
    ("full_name", Some (VStr (pc_full_name p)));
    ("email", Some (VStr (pc_email p)));
    ("phone", VStr <$> pc_phone p);
    ("bio", VStr <$> pc_bio p);
    ("date_of_birth", Some (vdate (pc_date_of_birth p)));
    ("avatar_url", VStr <$> pc_avatar_url p);
    ("gender", member <$> pc_gender p);
    ("city", member <$> pc_city p);
    ("state", Some (member (pc_state p)));
    ("country", Some (member (pc_country p)));
    ("role", Some (member (pc_role p))) ].

Record ProfileUpdate := {
  pu_full_name : option string;
  pu_phone : option string;
  pu_bio : option string;
  pu_avatar_url : option string;
  pu_date_of_birth : option date;
  pu_gender : option GenderEnum;
  pu_address : option string;
  pu_city : option CityEnum;
  pu_state : option StateEnum;
  pu_country : option CountryEnum;
  pu_is_active : option bool;
  pu_role : option RoleEnum;
}.

Definition ProfileUpdate_fields (u : ProfileUpdate) :
    list (string * option value) :=
  [ ("full_name", VStr <$> pu_full_name u);
    ("phone", VStr <$> pu_phone u);
    ("bio", VStr <$> pu_bio u);
    ("avatar_url", VStr <$> pu_avatar_url u);
    ("date_of_birth", vdate <$> pu_date_of_birth u);
    ("gender", member <$> pu_gender u);
    ("address", VStr <$> pu_address u);
    ("city", member <$> pu_city u);
    ("state", member <$> pu_state u);
    ("country", member <$> pu_country u);
    ("is_active", VBool <$> pu_is_active u);
    ("role", member <$> pu_role u) ].

Record TestCreate := {
  tc_title : string;
  tc_description : option string;
  tc_difficulty : DifficultyEnum;
  tc_duration_minutes : Z;
  tc_total_marks : Z;
  tc_passing_marks : Z;
  tc_start_time : option datetime;
  tc_end_time : option datetime;
}.

Definition TestCreate_fields (t : TestCreate) : list (string * option value) :=
  [ ("title", Some (VStr (tc_title t)));
    ("description", VStr <$> tc_description t);
    ("difficulty", Some (member (tc_difficulty t)));
    ("duration_minutes", Some (VInt (tc_duration_minutes t)));
    ("total_marks", Some (VInt (tc_total_marks t)));
    ("passing_marks", Some (VInt (tc_passing_marks t)));
    ("start_time", vdatetime <$> tc_start_time t);
    ("end_time", vdatetime <$> tc_end_time t) ].

Record TestUpdate := {
  tu_title : option string;
  tu_description : option string;
  tu_difficulty : option DifficultyEnum;
  tu_duration_minutes : option Z;
  tu_total_marks : option Z;
  tu_passing_marks : option Z;
  tu_is_active : option bool;
  tu_is_published : option bool;
  tu_start_time : option datetime;
  tu_end_time : option datetime;
}.

Definition TestUpdate_fields (u : TestUpdate) : list (string * option value) :=
  [ ("title", VStr <$> tu_title u);
    ("description", VStr <$> tu_description u);
    ("difficulty", member <$> tu_difficulty u);
    ("duration_minutes", VInt <$> tu_duration_minutes u);
    ("total_marks", VInt <$> tu_total_marks u);
    ("passing_marks", VInt <$> tu_passing_marks u);
    ("is_active", VBool <$> tu_is_active u);
    ("is_published", VBool <$> tu_is_published u);
    ("start_time", vdatetime <$> tu_start_time u);
    ("end_time", vdatetime <$> tu_end_time u) ].

Record MCQOptionCreate := {
  option_a : string;
  option_b : string;
  option_c : string;
  option_d : string;
  correct_option : CorrectOptionEnum;
  explanation : option string;
}.

Record MCQQuestionCreate := {
  mq_test_id : UUID;
  mq_question_text : string;
  mq_marks : Z;
  mq_order_no : Z;
  mq_options : MCQOptionCreate;
}.

Record MCQOptionUpdate := {
  mu_option_a : option string;
  mu_option_b : option string;
  mu_option_c : option string;
  mu_option_d : option string;
  mu_correct_option : option CorrectOptionEnum;
  mu_explanation : option string;
}.

Definition MCQOptionUpdate_fields (u : MCQOptionUpdate) :
    list (string * option value) :=
  [ ("option_a", VStr <$> mu_option_a u);
    ("option_b", VStr <$> mu_option_b u);
    ("option_c", VStr <$> mu_option_c u);
    ("option_d", VStr <$> mu_option_d u);
    ("correct_option", member <$> mu_correct_option u);
    ("explanation", VStr <$> mu_explanation u) ].

Record TheoryDetailsUpdate := {
  td_word_limit : option Z;
  td_sample_answer : option string;
  td_keywords : option (list string);
}.

Definition TheoryDetailsUpdate_fields (u : TheoryDetailsUpdate) :
    list (string * option value) :=
  [ ("word_limit", VInt <$> td_word_limit u);
    ("sample_answer", VStr <$> td_sample_answer u);
    ("keywords", VStrs <$> td_keywords u) ].

Record QuestionUpdate := {
  qu_question_text : option string;
  qu_marks : option Z;
  qu_order_no : option Z;
  qu_is_active : option bool;
}.

Definition QuestionUpdate_fields (u : QuestionUpdate) :
    list (string * option value) :=
  [ ("question_text", VStr <$> qu_question_text u);
    ("marks", VInt <$> qu_marks u);
    ("order_no", VInt <$> qu_order_no u);
    ("is_active", VBool <$> qu_is_active u) ].

Inductive QuestionTypeEnum := MCQ | THEORY | CODING.

#[global] Instance QuestionTypeEnum_enum : PyEnum QuestionTypeEnum := {|
  enum_name t := match t with
                 | MCQ => "QuestionTypeEnum.MCQ"
                 | THEORY => "QuestionTypeEnum.THEORY"
                 | CODING => "QuestionTypeEnum.CODING" end;
  enum_value t := match t with
                  | MCQ => "mcq" | THEORY => "theory" | CODING => "coding" end;
|}.

Record TheoryDetailsCreate := {
  word_limit : Z;
  sample_answer : option string;
  keywords : option (list string);
}.

Record TheoryQuestionCreate := {
  tq_test_id : UUID;
  tq_question_text : string;
  tq_marks : Z;
  tq_order_no : Z;
  tq_details : TheoryDetailsCreate;
}.

(** The response envelopes. *)
Record APIResponse (T : Type) := {
  success : bool;
  message : string;
  api_data : T;
}.
Arguments success {T}.
Arguments message {T}.
Arguments api_data {T}.

Record PaginatedResponse := {
  pg_success : bool;
  pg_message : string;
  pg_data : list row;
  pg_total : nat;
  pg_page : Z;
  pg_limit : Z;
}.

(** The authenticated principal the auth dependency hands to a route:
    [current_user["id"]] and [current_user["role"]]. *)
Record principal := {
  p_id : string;
  p_role : string;
}.

(** Modelled from the spec: [require_role] of [app/auth/dependencies.py],
    which is not among the sources.  A role-gated endpoint returns
    Forbidden (403) if the principal's role does not match; otherwise the
    handler receives the principal. *)
Definition require_role (required : string) (current_user : principal) :
    M principal :=
  if String.eqb (p_role current_user) required
  then ret current_user
  else raise (HTTPException 403 "Forbidden").

(** ** The e-mail validator of [UserRegister] ([app/models.py]) *)

(** Python's [re], as far as the validator uses it.  A pattern is a
    sequence of items, each a literal character or a character class
    repeated [n] times or more ([+] is [n = 1], [{2,}] is [n = 2]).
    Strings are read byte by byte: a character outside ASCII is in no
    class of the validator's pattern, as in Python. *)
Module re.

Inductive item : Type :=
  | One (c : ascii)
  | Many (n : nat) (p : ascii → bool).

Definition pattern := list item.

(** The class [lo-hi]. *)
Definition between (lo hi c : ascii) : bool :=
  (N_of_ascii lo <=? N_of_ascii c)%N && (N_of_ascii c <=? N_of_ascii hi)%N.

(** The class of the characters listed. *)
Fixpoint one_of (chars : string) (c : ascii) : bool :=
  match chars with
  | EmptyString => false
  | String a rest => Ascii.eqb c a || one_of rest c
  end.

(** What may remain to be matched after [c] has been read. *)
Fixpoint step (c : ascii) (items : pattern) : list pattern :=
  match items with
  | [] => []
  | One a :: rest => if Ascii.eqb c a then [rest] else []
  | Many 0 p :: rest =>
      (if p c then [Many 0 p :: rest] else []) ++ step c rest
  | Many (S n) p :: rest => if p c then [Many n p :: rest] else []
  end.

Definition nullable (items : pattern) : bool :=
  forallb (λ i, match i with Many 0%nat _ => true | _ => false end) items.

(** The whole of [s] matches the pattern. *)
Fixpoint fullmatch (s : string) (items : pattern) : bool :=
  match s with
  | EmptyString => nullable items
  | String c s' => existsb (fullmatch s') (step c items)
  end.

(** [s] without its final newline, when it ends in one. *)
Fixpoint chomp (s : string) : option string :=
  match s with
  | EmptyString => None
  | String c EmptyString =>
      if Ascii.eqb c "010"%char then Some EmptyString else None
  | String c s' => String c <$> chomp s'
  end.

(** [re.match(r'^...$', v)] as a truth value: the match starts at the
    start of [v], and [$] matches at the end of [v] and before a newline
    that ends [v]. *)
Definition match_ (items : pattern) (v : string) : bool :=
  fullmatch v items
  || from_option (λ v', fullmatch v' items) false (chomp v).

End re.

(** [str.lower()] on ASCII text. *)
Definition lower_ascii (c : ascii) : ascii :=
  if re.between "A" "Z" c then ascii_of_N (N_of_ascii c + 32) else c.

Fixpoint lower (s : string) : string :=
  match s with
  | EmptyString => EmptyString
  | String c s' => String (lower_ascii c) (lower s')
  end.

(** The outcome of a field validator: the validated value, or the
    [ValueError] that pydantic reports as a validation error. *)
Inductive validated : Type :=
  | Valid (v : string)
  | ValueError (msg : string).

Module UserRegister.

(** [^[a-zA-Z0-9._%+-]+@[a-zA-Z0-9.-]+\.[a-zA-Z]{2,}$] *)
Definition email_regex : re.pattern :=
  [ re.Many 1 (λ c, re.between "a" "z" c || re.between "A" "Z" c
                    || re.between "0" "9" c || re.one_of "._%+-" c);
    re.One "@";
    re.Many 1 (λ c, re.between "a" "z" c || re.between "A" "Z" c
                    || re.between "0" "9" c || re.one_of ".-" c);
    re.One ".";
    re.Many 2 (λ c, re.between "a" "z" c || re.between "A" "Z" c) ].

Definition validate_email (v : string) : validated :=
  if negb (re.match_ email_regex v)
  then ValueError "Invalid email format"
  else Valid (lower v).

End UserRegister.

(** ** Profile service ([app/services/profile_service.py]) *)

Module profile_service.

Definition table_name : string := "profiles".

(** The body of the loop of [_convert_enums]: the new value of
    [data[key]]. *)
Definition convert_item (key : string) (v : value) : value :=
  if hasattr_value v
  then match v with VEnum _ val => VStr val | _ => v end
  else if bool_decide (key = "date_of_birth")
          && negb (bool_decide (v = VNull))
       then VStr (py_str v)
       else v.

(** [_convert_enums]: every enum member becomes its value; the date of
    birth becomes its text. *)
Definition _convert_enums (d : row) : row :=
  map_imap (λ key v, Some (convert_item key v)) d.

Definition create_profile (profile_data : ProfileCreate) (user_id : UUID) :
    M (option row) :=
  existing <- from_ table_name |> select ["id"] false
                |> eq_ "user_id" (VStr user_id) |> execute ;;
  match data existing with
  | _ :: _ => raise (Exception "Profile already exists for this user")
  | [] =>
      let d := model_dump (ProfileCreate_fields profile_data) in
      let d := _convert_enums d in
      let d := <["user_id" := VStr user_id]> d in
      res <- from_ table_name |> insert_ d |> execute ;;
      ret (first_or_none res)
  end.

Definition get_profile_by_user_id (user_id : UUID) : M (option row) :=
  res <- from_ table_name |> select ["*"] false
           |> eq_ "user_id" (VStr user_id) |> execute ;;
  ret (first_or_none res).

Definition get_all_profiles (page limit : Z) (is_active : option bool)
    (role city gender : option string) : M (list row * nat) :=
  let offset := (page - 1) * limit in
  let query := from_ table_name |> select ["*"] true in
  let query := match is_active with
               | Some b => query |> eq_ "is_active" (VBool b)
               | None => query
               end in
  let query := if truthy_str role
               then query |> eq_ "role" (VStr (default "" role))
               else query in
  let query := if truthy_str city
               then query |> eq_ "city" (VStr (default "" city))
               else query in
  let query := if truthy_str gender
               then query |> eq_ "gender" (VStr (default "" gender))
               else query in
  res <- query |> order "created_at" true
           |> range offset (offset + limit - 1) |> execute ;;
  let total := count_or (count res) (length (data res)) in
  ret (data res, total).

Definition update_profile (user_id : UUID) (update_data : ProfileUpdate) :
    M (option row) :=
  let d := model_dump (ProfileUpdate_fields update_data) in
  if bool_decide (d = ∅) then get_profile_by_user_id user_id
  else
    let d := _convert_enums d in
    res <- from_ table_name |> update_ d
             |> eq_ "user_id" (VStr user_id) |> execute ;;
    ret (first_or_none res).

Definition delete_profile (user_id : UUID) : M bool :=
  res <- from_ table_name |> update_ {["is_active" := VBool false]}
           |> eq_ "user_id" (VStr user_id) |> execute ;;
  ret (bool_decide (0 < length (data res))%nat).

Definition get_users (page limit : Z) : M (list row * nat) :=
  get_all_profiles page limit None (Some "user") None None.

Definition get_institutions (page limit : Z) : M (list row * nat) :=
  get_all_profiles page limit None (Some "institution") None None.

Definition get_role_stats : M row :=
  users <- from_ table_name |> select ["id"] true
             |> eq_ "role" (VStr "user") |> execute ;;
  institutions <- from_ table_name |> select ["id"] true
                    |> eq_ "role" (VStr "institution") |> execute ;;
  let u := count_or (count users) 0 in
  let i := count_or (count institutions) 0 in
  ret {[ "total_users" := VInt (Z.of_nat u);
         "total_institutions" := VInt (Z.of_nat i);
         "total_profiles" := VInt (Z.of_nat (u + i)) ]}.

End profile_service.

(** ** Test service ([app/services/test_service.py]) *)

Module test_service.

Definition table_name : string := "tests".

(** [v.isoformat()] *)
Definition isoformat (v : value) : M value :=
  match v with
  | VDate iso => ret (VStr iso)
  | VDatetime d t => ret (VStr (d +:+ "T" +:+ t))
  | _ => raise (AttributeError "isoformat")
  end.

(** [if key in data and data[key]: data[key] = data[key].isoformat()] *)
Definition isoformat_field (key : string) (d : row) : M row :=
  match d !! key with
  | Some v =>
      if truthy v
      then iso <- isoformat v ;; ret (<[key := iso]> d)
      else ret d
  | None => ret d
  end.

Definition create_test (test_data : TestCreate) (created_by : string) :
    M (option row) :=
  let d := model_dump (TestCreate_fields test_data) in
  let d := <["created_by" := VStr created_by]> d in
  d <- isoformat_field "start_time" d ;;
  d <- isoformat_field "end_time" d ;;
  response <- from_ table_name |> insert_ d |> execute ;;
  ret (first_or_none response).

Definition get_test_by_id (test_id : UUID) : M (option row) :=
  response <- from_ table_name |> select ["*"] false
                |> eq_ "id" (VStr test_id) |> execute ;;
  match data response with
  | test :: _ =>
      q_response <- from_ "questions" |> select ["id"] true
                      |> eq_ "test_id" (VStr test_id) |> execute ;;
      ret (Some (<["question_count" :=
                     VInt (Z.of_nat (count_or (count q_response) 0))]> test))
  | [] => ret None
  end.

Definition get_all_tests (page limit : Z) (is_published : option bool)
    (created_by : option string) : M (list row * nat) :=
  let offset := (page - 1) * limit in
  let query := from_ table_name |> select ["*"] true in
  let query := match is_published with
               | Some b => query |> eq_ "is_published" (VBool b)
               | None => query
               end in
  let query := if truthy_str created_by
               then query |> eq_ "created_by" (VStr (default "" created_by))
               else query in
  response <- query |> eq_ "is_active" (VBool true)
                |> order "created_at" true
                |> range offset (offset + limit - 1) |> execute ;;
  let total := count_or (count response) (length (data response)) in
  ret (data response, total).

Definition update_test (test_id : UUID) (update_data : TestUpdate) :
    M (option row) :=
  let d := model_dump (TestUpdate_fields update_data) in
  if bool_decide (d = ∅) then get_test_by_id test_id
  else
    d <- isoformat_field "start_time" d ;;
    d <- isoformat_field "end_time" d ;;
    response <- from_ table_name |> update_ d
                  |> eq_ "id" (VStr test_id) |> execute ;;
    ret (first_or_none response).

Definition delete_test (test_id : UUID) : M bool :=
  response <- from_ table_name |> update_ {["is_active" := VBool false]}
                |> eq_ "id" (VStr test_id) |> execute ;;
  ret (bool_decide (0 < length (data response))%nat).

Definition publish_test (test_id : UUID) : M (option row) :=
  response <- from_ table_name |> update_ {["is_published" := VBool true]}
                |> eq_ "id" (VStr test_id) |> execute ;;
  ret (first_or_none response).

Definition unpublish_test (test_id : UUID) : M (option row) :=
  response <- from_ table_name |> update_ {["is_published" := VBool false]}
                |> eq_ "id" (VStr test_id) |> execute ;;
  ret (first_or_none response).

(** [sum(1 for q in questions if q["question_type"] == ty)] *)
Fixpoint count_type (ty : string) (questions : list row) : M nat :=
  match questions with
  | [] => ret 0%nat
  | q :: rest =>
      question_type <- subscript "question_type" q ;;
      n <- count_type ty rest ;;
      ret (if bool_decide (question_type = VStr ty) then S n else n)
  end.

(** [sum(q["marks"] for q in questions)], from the accumulator [acc]. *)
Fixpoint sum_marks (acc : Z) (questions : list row) : M Z :=
  match questions with
  | [] => ret acc
  | q :: rest =>
      marks <- subscript "marks" q ;;
      acc <- py_add acc marks ;;
      sum_marks acc rest
  end.

Definition get_test_stats (test_id : UUID) : M row :=
  q_response <- from_ "questions"
                  |> select ["id"; "question_type"; "marks"] true
                  |> eq_ "test_id" (VStr test_id)
                  |> eq_ "is_active" (VBool true) |> execute ;;
  let questions := data q_response in
  mcq_count <- count_type "mcq" questions ;;
  theory_count <- count_type "theory" questions ;;
  coding_count <- count_type "coding" questions ;;
  total_marks <- sum_marks 0 questions ;;
  a_response <- from_ "test_attempts" |> select ["id"] true
                  |> eq_ "test_id" (VStr test_id) |> execute ;;
  ret {[ "total_questions" := VInt (Z.of_nat (length questions));
         "mcq_count" := VInt (Z.of_nat mcq_count);
         "theory_count" := VInt (Z.of_nat theory_count);
         "coding_count" := VInt (Z.of_nat coding_count);
         "total_marks" := VInt total_marks;
         "total_attempts" :=
           VInt (Z.of_nat (count_or (count a_response) 0)) ]}.

End test_service.

(** ** Question service ([app/services/question_service.py]) *)

(** The question dictionary a service hands out: the columns of the base
    row, and the detail row nested under the key [options] (MCQ) or
    [details] (theory, coding) when there is one. *)
Record question := Question {
  base : row;
  options : option row;
  details : option row;
}.

(** Truth value of an [Optional] question dictionary. *)
Definition truthy_question (o : option question) : bool :=
  match o with
  | Some q =>
      negb (bool_decide (base q = ∅)) || bool_decide (is_Some (options q))
        || bool_decide (is_Some (details q))
  | None => false
  end.

Module question_service.

Definition create_mcq_question (question_data : MCQQuestionCreate) :
    M (option question) :=
  let q_data : row :=
    {[ "test_id" := VStr (mq_test_id question_data);
       "question_type" := VStr "mcq";
       "question_text" := VStr (mq_question_text question_data);
       "marks" := VInt (mq_marks question_data);
       "order_no" := VInt (mq_order_no question_data) ]} in
  q_response <- from_ "questions" |> insert_ q_data |> execute ;;
  match data q_response with
  | [] => ret None
  | q :: _ =>
      question_id <- subscript "id" q ;;
      let o := mq_options question_data in
      let opt_data : row :=
        {[ "question_id" := question_id;
           "option_a" := VStr (option_a o);
           "option_b" := VStr (option_b o);
           "option_c" := VStr (option_c o);
           "option_d" := VStr (option_d o);
           "correct_option" := VStr (enum_value (correct_option o));
           "explanation" := from_option VStr VNull (explanation o) ]} in
      opt_response <- from_ "mcq_options" |> insert_ opt_data |> execute ;;
      ret (Some (Question q (first_or_none opt_response) None))
  end.

Definition get_question_by_id (question_id : UUID) : M (option question) :=
  q_response <- from_ "questions" |> select ["*"] false
                  |> eq_ "id" (VStr question_id) |> execute ;;
  match data q_response with
  | [] => ret None
  | q :: _ =>
      question_type <- subscript "question_type" q ;;
      if bool_decide (question_type = VStr "mcq") then
        opt_response <- from_ "mcq_options" |> select ["*"] false
                          |> eq_ "question_id" (VStr question_id)
                          |> execute ;;
        ret (Some (Question q (first_or_none opt_response) None))
      else if bool_decide (question_type = VStr "theory") then
        detail_response <- from_ "theory_details" |> select ["*"] false
                             |> eq_ "question_id" (VStr question_id)
                             |> execute ;;
        ret (Some (Question q None (first_or_none detail_response)))
      else if bool_decide (question_type = VStr "coding") then
        detail_response <- from_ "coding_details" |> select ["*"] false
                             |> eq_ "question_id" (VStr question_id)
                             |> execute ;;
        ret (Some (Question q None (first_or_none detail_response)))
      else ret (Some (Question q None None))
  end.

Definition update_question (question_id : UUID)
    (update_data : QuestionUpdate) : M (option question) :=
  let d := model_dump (QuestionUpdate_fields update_data) in
  if bool_decide (d = ∅) then get_question_by_id question_id
  else
    response <- from_ "questions" |> update_ d
                  |> eq_ "id" (VStr question_id) |> execute ;;
    match data response with
    | _ :: _ => get_question_by_id question_id
    | [] => ret None
    end.

Definition update_mcq_options (question_id : UUID)
    (update_data : MCQOptionUpdate) : M (option question) :=
  let d := model_dump (MCQOptionUpdate_fields update_data) in
  let d := match d !! "correct_option" with
           | Some v =>
               <["correct_option" :=
                   if hasattr_value v
                   then match v with VEnum _ val => VStr val | _ => v end
                   else v]> d
           | None => d
           end in
  _ <- (if bool_decide (d = ∅) then ret tt
        else
          _ <- from_ "mcq_options" |> update_ d
                 |> eq_ "question_id" (VStr question_id) |> execute ;;
          ret tt) ;;
  get_question_by_id question_id.

Definition update_theory_details (question_id : UUID)
    (update_data : TheoryDetailsUpdate) : M (option question) :=
  let d := model_dump (TheoryDetailsUpdate_fields update_data) in
  _ <- (if bool_decide (d = ∅) then ret tt
        else
          _ <- from_ "theory_details" |> update_ d
                 |> eq_ "question_id" (VStr question_id) |> execute ;;
          ret tt) ;;
  get_question_by_id question_id.

Definition delete_question (question_id : UUID) : M bool :=
  response <- from_ "questions" |> update_ {["is_active" := VBool false]}
                |> eq_ "id" (VStr question_id) |> execute ;;
  ret (bool_decide (0 < length (data response))%nat).

(** The detail rows of the listed questions are fetched one by one, as
    in [get_question_by_id], with the row's own [id] as the key. *)
Fixpoint with_details (questions : list row) : M (list question) :=
  match questions with
  | [] => ret []
  | q :: rest =>
      question_type <- subscript "question_type" q ;;
      this <-
        (if bool_decide (question_type = VStr "mcq") then
           question_id <- subscript "id" q ;;
           opt <- from_ "mcq_options" |> select ["*"] false
                    |> eq_ "question_id" question_id |> execute ;;
           ret (Question q (first_or_none opt) None)
         else if bool_decide (question_type = VStr "theory") then
           question_id <- subscript "id" q ;;
           det <- from_ "theory_details" |> select ["*"] false
                    |> eq_ "question_id" question_id |> execute ;;
           ret (Question q None (first_or_none det))
         else if bool_decide (question_type = VStr "coding") then
           question_id <- subscript "id" q ;;
           det <- from_ "coding_details" |> select ["*"] false
                    |> eq_ "question_id" question_id |> execute ;;
           ret (Question q None (first_or_none det))
         else ret (Question q None None)) ;;
      others <- with_details rest ;;
      ret (this :: others)
  end.

Definition get_questions_by_test (test_id : UUID)
    (question_type : option string) : M (list question) :=
  let query := from_ "questions" |> select ["*"] false
                 |> eq_ "test_id" (VStr test_id)
                 |> eq_ "is_active" (VBool true) in
  let query := if truthy_str question_type
               then query |> eq_ "question_type"
                               (VStr (default "" question_type))
               else query in
  response <- query |> order "order_no" false |> execute ;;
  with_details (data response).

Definition create_theory_question (question_data : TheoryQuestionCreate) :
    M (option question) :=
  let q_data : row :=
    {[ "test_id" := VStr (tq_test_id question_data);
       "question_type" := VStr "theory";
       "question_text" := VStr (tq_question_text question_data);
       "marks" := VInt (tq_marks question_data);
       "order_no" := VInt (tq_order_no question_data) ]} in
  q_response <- from_ "questions" |> insert_ q_data |> execute ;;
  match data q_response with
  | [] => ret None
  | q :: _ =>
      question_id <- subscript "id" q ;;
      let d := tq_details question_data in
      let detail_data : row :=
        {[ "question_id" := question_id;
           "word_limit" := VInt (word_limit d);
           "sample_answer" := from_option VStr VNull (sample_answer d);
           "keywords" := from_option VStrs VNull (keywords d) ]} in
      detail_response <- from_ "theory_details" |> insert_ detail_data
                           |> execute ;;
      ret (Some (Question q None (first_or_none detail_response)))
  end.

End question_service.

(** ** Routes *)

(** [e.value if e else None] for an optional enum query parameter. *)
Definition value_or_none `{PyEnum T} (e : option T) : option string :=
  match e with
  | Some x => if truthy (member x) then Some (enum_value x) else None
  | None => None
  end.

(** *** [app/routes/profile.py] *)

Module routes_profile.

Definition create_profile (profile : ProfileCreate)
    (current_user : principal) : M (APIResponse (option row)) :=
  existing <- profile_service.get_profile_by_user_id (p_id current_user) ;;
  if truthy_dict existing
  then raise (HTTPException 400 "Profile already exists for this user")
  else
    new_profile <-
      profile_service.create_profile profile (p_id current_user) ;;
    if negb (truthy_dict new_profile)
    then raise (HTTPException 500 "Failed to create profile")
    else ret {| success := true;
                message := "Profile created successfully";
                api_data := new_profile |}.

Definition get_my_profile (current_user : principal) :
    M (APIResponse (option row)) :=
  profile <- profile_service.get_profile_by_user_id (p_id current_user) ;;
  if negb (truthy_dict profile)
  then raise (HTTPException 404 "Profile not found")
  else ret {| success := true;
              message := "My profile fetched successfully";
              api_data := profile |}.

Definition update_my_profile (profile_update : ProfileUpdate)
    (current_user : principal) : M (APIResponse (option row)) :=
  updated_profile <-
    profile_service.update_profile (p_id current_user) profile_update ;;
  if negb (truthy_dict updated_profile)
  then raise (HTTPException 404 "Profile not found")
  else ret {| success := true;
              message := "Profile updated successfully";
              api_data := updated_profile |}.

Definition delete_my_profile (current_user : principal) :
    M (APIResponse (option row)) :=
  deleted <- profile_service.delete_profile (p_id current_user) ;;
  if negb deleted
  then raise (HTTPException 500 "Failed to delete profile")
  else ret {| success := true;
              message := "Profile deleted successfully";
              api_data := None |}.

Definition get_profile_by_user_id (user_id : UUID) :
    M (APIResponse (option row)) :=
  profile <- profile_service.get_profile_by_user_id user_id ;;
  if negb (truthy_dict profile)
  then raise (HTTPException 404 "Profile not found")
  else ret {| success := true;
              message := "Profile fetched successfully";
              api_data := profile |}.

Definition get_all_profiles (page limit : Z) (is_active : option bool)
    (role : option RoleEnum) (city : option CityEnum)
    (gender : option GenderEnum) : M PaginatedResponse :=
  listing <-
    profile_service.get_all_profiles page limit is_active
      (value_or_none role) (value_or_none city) (value_or_none gender) ;;
  let '(profiles, total) := listing in
  ret {| pg_success := true;
         pg_message := "Found " +:+ pretty (length profiles) +:+ " profiles";
         pg_data := profiles; pg_total := total;
         pg_page := page; pg_limit := limit |}.

Definition get_all_users (page limit : Z) : M PaginatedResponse :=
  listing <-
    profile_service.get_users page limit ;;
  let '(profiles, total) := listing in
  ret {| pg_success := true;
         pg_message := "Found " +:+ pretty (length profiles) +:+ " users";
         pg_data := profiles; pg_total := total;
         pg_page := page; pg_limit := limit |}.

Definition get_all_institutions (page limit : Z) : M PaginatedResponse :=
  listing <-
    profile_service.get_institutions page limit ;;
  let '(profiles, total) := listing in
  ret {| pg_success := true;
         pg_message :=
           "Found " +:+ pretty (length profiles) +:+ " institutions";
         pg_data := profiles; pg_total := total;
         pg_page := page; pg_limit := limit |}.

End routes_profile.

(** *** [app/routes/test.py] *)

Module routes_test.

(** [str(existing.get("created_by")) != current_user["id"]], evaluated
    after [if not existing] has let the test through. *)
Definition not_owner (existing : option row) (current_user : principal) :
    bool :=
  negb (String.eqb (py_str (dict_get "created_by" (default ∅ existing)))
                   (p_id current_user)).

Definition create_test (test_data : TestCreate) (current_user : principal) :
    M (APIResponse (option row)) :=
  current_user <- require_role "institution" current_user ;;
  new_test <- test_service.create_test test_data (p_id current_user) ;;
  if negb (truthy_dict new_test)
  then raise (HTTPException 500 "Failed to create test")
  else ret {| success := true;
              message := "Test created successfully!";
              api_data := new_test |}.

Definition get_all_tests (page limit : Z) (is_published : option bool) :
    M PaginatedResponse :=
  listing <-
    test_service.get_all_tests page limit is_published None ;;
  let '(tests, total) := listing in
  ret {| pg_success := true;
         pg_message := "Found " +:+ pretty (length tests) +:+ " tests";
         pg_data := tests; pg_total := total;
         pg_page := page; pg_limit := limit |}.

Definition get_my_tests (page limit : Z) (current_user : principal) :
    M PaginatedResponse :=
  current_user <- require_role "institution" current_user ;;
  listing <-
    test_service.get_all_tests page limit None (Some (p_id current_user)) ;;
  let '(tests, total) := listing in
  ret {| pg_success := true;
         pg_message := "Found " +:+ pretty (length tests) +:+ " tests";
         pg_data := tests; pg_total := total;
         pg_page := page; pg_limit := limit |}.

Definition get_test (test_id : UUID) : M (APIResponse (option row)) :=
  test <- test_service.get_test_by_id test_id ;;
  if negb (truthy_dict test)
  then raise (HTTPException 404 "Test not found!")
  else ret {| success := true; message := "Test found!";
              api_data := test |}.

Definition update_test (test_id : UUID) (test_update : TestUpdate)
    (current_user : principal) : M (APIResponse (option row)) :=
  current_user <- require_role "institution" current_user ;;
  existing <- test_service.get_test_by_id test_id ;;
  if negb (truthy_dict existing)
  then raise (HTTPException 404 "Test not found!")
  else if not_owner existing current_user
  then raise (HTTPException 403 "Not authorized to update this test")
  else
    updated <- test_service.update_test test_id test_update ;;
    ret {| success := true; message := "Test updated!";
           api_data := updated |}.

Definition publish_test (test_id : UUID) (current_user : principal) :
    M (APIResponse (option row)) :=
  current_user <- require_role "institution" current_user ;;
  existing <- test_service.get_test_by_id test_id ;;
  if negb (truthy_dict existing)
  then raise (HTTPException 404 "Test not found!")
  else if not_owner existing current_user
  then raise (HTTPException 403 "Not authorized")
  else
    updated <- test_service.publish_test test_id ;;
    ret {| success := true; message := "Test published!";
           api_data := updated |}.

Definition unpublish_test (test_id : UUID) (current_user : principal) :
    M (APIResponse (option row)) :=
  current_user <- require_role "institution" current_user ;;
  existing <- test_service.get_test_by_id test_id ;;
  if negb (truthy_dict existing)
  then raise (HTTPException 404 "Test not found!")
  else if not_owner existing current_user
  then raise (HTTPException 403 "Not authorized")
  else
    updated <- test_service.unpublish_test test_id ;;
    ret {| success := true; message := "Test unpublished!";
           api_data := updated |}.

Definition delete_test (test_id : UUID) (current_user : principal) :
    M (APIResponse (option row)) :=
  current_user <- require_role "institution" current_user ;;
  existing <- test_service.get_test_by_id test_id ;;
  if negb (truthy_dict existing)
  then raise (HTTPException 404 "Test not found!")
  else if not_owner existing current_user
  then raise (HTTPException 403 "Not authorized")
  else
    deleted <- test_service.delete_test test_id ;;
    if negb deleted
    then raise (HTTPException 500 "Failed to delete")
    else ret {| success := true; message := "Test deleted!";
                api_data := Some {["deleted_id" := VStr test_id]} |}.

Definition get_test_stats (test_id : UUID) : M (APIResponse (option row)) :=
  test <- test_service.get_test_by_id test_id ;;
  if negb (truthy_dict test)
  then raise (HTTPException 404 "Test not found!")
  else
    stats <- test_service.get_test_stats test_id ;;
    ret {| success := true; message := "Test statistics fetched!";
           api_data := Some stats |}.

End routes_test.

(** *** [app/routes/question.py] *)

Module routes_question.

Definition create_mcq_question (question_data : MCQQuestionCreate)
    (current_user : principal) : M (APIResponse (option question)) :=
  current_user <- require_role "institution" current_user ;;
  test <- test_service.get_test_by_id (mq_test_id question_data) ;;
  if negb (truthy_dict test)
  then raise (HTTPException 404 "Test not found!")
  else if routes_test.not_owner test current_user
  then raise (HTTPException 403
                "Not authorized to add questions to this test")
  else
    new_question <- question_service.create_mcq_question question_data ;;
    if negb (truthy_question new_question)
    then raise (HTTPException 500 "Failed to create question")
    else ret {| success := true; message := "MCQ question created!";
                api_data := new_question |}.

Definition get_question (question_id : UUID) :
    M (APIResponse (option question)) :=
  q <- question_service.get_question_by_id question_id ;;
  if negb (truthy_question q)
  then raise (HTTPException 404 "Question not found!")
  else ret {| success := true; message := "Question found!";
              api_data := q |}.

Definition update_question (question_id : UUID)
    (update_data : QuestionUpdate) (current_user : principal) :
    M (APIResponse (option question)) :=
  current_user <- require_role "institution" current_user ;;
  q <- question_service.get_question_by_id question_id ;;
  if negb (truthy_question q)
  then raise (HTTPException 404 "Question not found!")
  else
    updated <- question_service.update_question question_id update_data ;;
    ret {| success := true; message := "Question updated!";
           api_data := updated |}.

(** [question["question_type"]] of the fetched question dictionary (the
    handlers read it only after [if not question] has let it through). *)
Definition type_of (q : option question) : M value :=
  subscript "question_type" (from_option base ∅ q).

Definition update_mcq_options (question_id : UUID)
    (update_data : MCQOptionUpdate) (current_user : principal) :
    M (APIResponse (option question)) :=
  current_user <- require_role "institution" current_user ;;
  q <- question_service.get_question_by_id question_id ;;
  if negb (truthy_question q)
  then raise (HTTPException 404 "Question not found!")
  else
    question_type <- type_of q ;;
    if negb (bool_decide (question_type = VStr "mcq"))
    then raise (HTTPException 400 "Not an MCQ question!")
    else
      updated <-
        question_service.update_mcq_options question_id update_data ;;
      ret {| success := true; message := "MCQ options updated!";
             api_data := updated |}.

Definition update_theory_details (question_id : UUID)
    (update_data : TheoryDetailsUpdate) (current_user : principal) :
    M (APIResponse (option question)) :=
  current_user <- require_role "institution" current_user ;;
  q <- question_service.get_question_by_id question_id ;;
  if negb (truthy_question q)
  then raise (HTTPException 404 "Question not found!")
  else
    question_type <- type_of q ;;
    if negb (bool_decide (question_type = VStr "theory"))
    then raise (HTTPException 400 "Not a theory question!")
    else
      updated <-
        question_service.update_theory_details question_id update_data ;;
      ret {| success := true; message := "Theory details updated!";
             api_data := updated |}.

Definition delete_question (question_id : UUID) (current_user : principal) :
    M (APIResponse (option row)) :=
  current_user <- require_role "institution" current_user ;;
  q <- question_service.get_question_by_id question_id ;;
  if negb (truthy_question q)
  then raise (HTTPException 404 "Question not found!")
  else
    deleted <- question_service.delete_question question_id ;;
    if negb deleted
    then raise (HTTPException 500 "Failed to delete")
    else ret {| success := true; message := "Question deleted!";
                api_data := Some {["deleted_id" := VStr question_id]} |}.

Definition create_theory_question (question_data : TheoryQuestionCreate)
    (current_user : principal) : M (APIResponse (option question)) :=
  current_user <- require_role "institution" current_user ;;
  test <- test_service.get_test_by_id (tq_test_id question_data) ;;
  if negb (truthy_dict test)
  then raise (HTTPException 404 "Test not found!")
  else if routes_test.not_owner test current_user
  then raise (HTTPException 403 "Not authorized")
  else
    new_question <- question_service.create_theory_question question_data ;;
    if negb (truthy_question new_question)
    then raise (HTTPException 500 "Failed to create question")
    else ret {| success := true; message := "Theory question created!";
                api_data := new_question |}.

Definition get_questions_by_test (test_id : UUID)
    (question_type : option QuestionTypeEnum) :
    M (APIResponse (list question)) :=
  test <- test_service.get_test_by_id test_id ;;
  if negb (truthy_dict test)
  then raise (HTTPException 404 "Test not found!")
  else
    let type_value := value_or_none question_type in
    questions <- question_service.get_questions_by_test test_id type_value ;;
    ret {| success := true;
           message := "Found " +:+ pretty (length questions) +:+ " questions";
           api_data := questions |}.

End routes_question.

(** ** Reading the store *)

(** The rows of a table whose column holds the value: what a select with
    the single filter [eq(column, v)] matches. *)
Definition rows_with (column : string) (v : value) (rows : list row) :
    list row :=
  filter (λ r, matches [(column, v)] r = true) rows.

(** The question dictionary [get_question_by_id] assembles from the base
    row [q] of type [ty]. *)
Definition assembled (s : store) (question_id : UUID) (q : row) (ty : value) :
    question :=
  if bool_decide (ty = VStr "mcq") then
    Question q (head (rows_with "question_id" (VStr question_id)
                        (table s "mcq_options"))) None
  else if bool_decide (ty = VStr "theory") then
    Question q None (head (rows_with "question_id" (VStr question_id)
                             (table s "theory_details")))
  else if bool_decide (ty = VStr "coding") then
    Question q None (head (rows_with "question_id" (VStr question_id)
                             (table s "coding_details")))
  else Question q None None.

(** ** A sample store

    A small store with two profiles, two tests of institution [u2], two
    questions of test [t1] and their detail rows; the second profile, the
    second test and the second question are soft-deleted. *)

Definition sample_generated (name : string) (rows : list row) : row :=
  {[ "id" := VStr (name +:+ "-" +:+ pretty (length rows));
     "is_active" := VBool true;
     "created_at" := VStr ("2025-02-0" +:+ pretty (length rows)) ]}.

Definition profile_u1 : row :=
  {[ "id" := VStr "p1"; "user_id" := VStr "u1"; "full_name" := VStr "Asha";
     "role" := VStr "user"; "city" := VStr "Bhopal";
     "is_active" := VBool true; "created_at" := VStr "2025-01-01" ]}.

Definition profile_u2 : row :=
  {[ "id" := VStr "p2"; "user_id" := VStr "u2";
     "full_name" := VStr "Vidya Institute"; "role" := VStr "institution";
     "city" := VStr "Indore";
     "is_active" := VBool false; "created_at" := VStr "2025-01-02" ]}.

Definition test_t1 : row :=
  {[ "id" := VStr "t1"; "title" := VStr "Algebra"; "created_by" := VStr "u2";
     "is_active" := VBool true; "is_published" := VBool false;
     "created_at" := VStr "2025-01-03" ]}.

Definition test_t2 : row :=
  {[ "id" := VStr "t2"; "title" := VStr "Geometry"; "created_by" := VStr "u2";
     "is_active" := VBool false; "is_published" := VBool true;
     "created_at" := VStr "2025-01-04" ]}.

Definition question_q1 : row :=
  {[ "id" := VStr "q1"; "test_id" := VStr "t1"; "question_type" := VStr "mcq";
     "question_text" := VStr "Which language is best for beginners?";
     "marks" := VInt 1; "order_no" := VInt 1; "is_active" := VBool true ]}.

Definition question_q2 : row :=
  {[ "id" := VStr "q2"; "test_id" := VStr "t1";
     "question_type" := VStr "theory";
     "question_text" := VStr "Explain OOP concepts in detail.";
     "marks" := VInt 5; "order_no" := VInt 2; "is_active" := VBool false ]}.

Definition options_q1 : row :=
  {[ "id" := VStr "o1"; "question_id" := VStr "q1";
     "option_a" := VStr "Python"; "option_b" := VStr "Java";
     "option_c" := VStr "JS"; "option_d" := VStr "C++";
     "correct_option" := VStr "a"; "explanation" := VNull ]}.

Definition details_q2 : row :=
  {[ "id" := VStr "d2"; "question_id" := VStr "q2"; "word_limit" := VInt 500;
     "sample_answer" := VNull; "keywords" := VStrs ["OOP"; "inheritance"] ]}.

Definition sample_store : store :=
  {| tables :=
       {[ "profiles" := [profile_u1; profile_u2];
          "tests" := [test_t1; test_t2];
          "questions" := [question_q1; question_q2];
          "mcq_options" := [options_q1];
          "theory_details" := [details_q2] ]};
     generated := sample_generated |}.

Definition institution_u2 : principal :=
  {| p_id := "u2"; p_role := "institution" |}.

Definition institution_u3 : principal :=
  {| p_id := "u3"; p_role := "institution" |}.

Definition sample_profile : ProfileCreate :=
  {| pc_user_id := "u9"; pc_full_name := "Vidya Institute";
     pc_email := "office@vidya.example"; pc_phone := None; pc_bio := None;
     pc_date_of_birth := {| date_iso := "2000-05-15" |};
     pc_avatar_url := None; pc_gender := None; pc_city := Some INDORE;
     pc_state := MADHYA_PRADESH; pc_country := INDIA;
     pc_role := INSTITUTION |}.

(** The update models with every field absent. *)
Definition empty_ProfileUpdate : ProfileUpdate :=
  {| pu_full_name := None; pu_phone := None; pu_bio := None;
     pu_avatar_url := None; pu_date_of_birth := None; pu_gender := None;
     pu_address := None; pu_city := None; pu_state := None;
     pu_country := None; pu_is_active := None; pu_role := None |}.

Definition empty_TestUpdate : TestUpdate :=
  {| tu_title := None; tu_description := None; tu_difficulty := None;
     tu_duration_minutes := None; tu_total_marks := None;
     tu_passing_marks := None; tu_is_active := None; tu_is_published := None;
     tu_start_time := None; tu_end_time := None |}.

(** A [TestUpdate] that carries only [is_published], and one that carries
    only [is_active = true]. *)
Definition publish_update (b : bool) : TestUpdate :=
  {| tu_title := None; tu_description := None; tu_difficulty := None;
     tu_duration_minutes := None; tu_total_marks := None;
     tu_passing_marks := None; tu_is_active := None;
     tu_is_published := Some b;
     tu_start_time := None; tu_end_time := None |}.

Definition reactivate_update : TestUpdate :=
  {| tu_title := None; tu_description := None; tu_difficulty := None;
     tu_duration_minutes := None; tu_total_marks := None;
     tu_passing_marks := None; tu_is_active := Some true;
     tu_is_published := None;
     tu_start_time := None; tu_end_time := None |}.

(** ** Partial updates, as the specification words them *)

(** The form in which a dumped field reaches the store: enum members as
    their value, dates and datetimes as their ISO text. *)
Definition stored_form (v : value) : value :=
  match v with
  | VEnum _ val => VStr val
  | VDate iso => VStr iso
  | VDatetime d t => VStr (d +:+ "T" +:+ t)
  | v => v
  end.

(** [after] is [before] with the fields of [payload] written into the rows
    whose [column] is [x]: the table keeps its rows and their order, the
    other rows are unchanged, no row changes in a field that is absent
    from the payload, and the rows addressed hold every present field. *)
Definition partial_write (column : string) (x : string) (payload : row)
    (before after : list row) : Prop :=
  length after = length before
  ∧ ∀ (i : nat) (r : row), before !! i = Some r →
      ∃ r', after !! i = Some r'
        ∧ (r !! column ≠ Some (VStr x) → r' = r)
        ∧ (∀ k, payload !! k = None → r' !! k = r !! k)
        ∧ (r !! column = Some (VStr x) →
           ∀ k v, payload !! k = Some v → r' !! k = Some (stored_form v)).

(** The dictionary after [isoformat_field key] on a dumped model. *)
Definition isoformat_written (key : string) (d : row) : row :=
  match d !! key with
  | Some v => <[key := stored_form v]> d
  | None => d
  end.

(** ** Listing, as the specification words it *)

(** The filter set of the profile listing: zero or more exact-match
    filters, ANDed. *)
Definition profile_filter (is_active : option bool)
    (role city gender : option string) (r : row) : bool :=
  from_option (λ b, bool_decide (r !! "is_active" = Some (VBool b)))
    true is_active
  && from_option (λ x, bool_decide (r !! "role" = Some (VStr x))) true role
  && from_option (λ x, bool_decide (r !! "city" = Some (VStr x))) true city
  && from_option (λ x, bool_decide (r !! "gender" = Some (VStr x)))
       true gender.

(** The filter set of the test listing, always restricted to the active
    tests. *)
Definition test_filter (is_published : option bool)
    (created_by : option string) (r : row) : bool :=
  from_option (λ b, bool_decide (r !! "is_published" = Some (VBool b)))
    true is_published
  && from_option (λ x, bool_decide (r !! "created_by" = Some (VStr x)))
       true created_by
  && bool_decide (r !! "is_active" = Some (VBool true)).

(** The rows of page [page] with [limit] rows a page: those from offset
    [(page - 1) * limit] on, at most [limit] of them. *)
Definition page_of (page limit : Z) (rows : list row) : list row :=
  take (Z.to_nat limit) (drop (Z.to_nat ((page - 1) * limit)) rows).

(** Newest first. *)
Definition newest_first (rows : list row) : list row :=
  ordered (Some ("created_at", true)) rows.

(** The rows a listing hands out (none when it raises). *)
Definition rows_of (o : outcome (list row * nat)) : list row :=
  match o with
  | Ok (rows, _) => rows
  | Raise _ => []
  end.

Definition questions_of (o : outcome (list question)) : list question :=
  match o with
  | Ok qs => qs
  | Raise _ => []
  end.

(** Sample payloads. *)
Definition sample_question : MCQQuestionCreate :=
  {| mq_test_id := "t1";
     mq_question_text := "Which language runs in the browser?";
     mq_marks := 1; mq_order_no := 3;
     mq_options := {| option_a := "Python"; option_b := "Java";
                      option_c := "JS"; option_d := "C++";
                      correct_option := C; explanation := None |} |}.

Definition sample_QuestionUpdate : QuestionUpdate :=
  {| qu_question_text := None; qu_marks := Some 2; qu_order_no := None;
     qu_is_active := None |}.

Definition sample_MCQOptionUpdate : MCQOptionUpdate :=
  {| mu_option_a := None; mu_option_b := None; mu_option_c := None;
     mu_option_d := Some "Rust"; mu_correct_option := Some D;
     mu_explanation := None |}.

Definition sample_TheoryDetailsUpdate : TheoryDetailsUpdate :=
  {| td_word_limit := Some 300; td_sample_answer := None;
     td_keywords := None |}.

(** Update models that carry one field only. *)
Definition activate_ProfileUpdate : ProfileUpdate :=
  {| pu_full_name := None; pu_phone := None; pu_bio := None;
     pu_avatar_url := None; pu_date_of_birth := None; pu_gender := None;
     pu_address := None; pu_city := None; pu_state := None;
     pu_country := None; pu_is_active := Some true; pu_role := None |}.

Definition sample_test : TestCreate :=
  {| tc_title := "Trigonometry"; tc_description := None;
     tc_difficulty := HARD; tc_duration_minutes := 90;
     tc_total_marks := 100; tc_passing_marks := 40;
     tc_start_time :=
       Some {| dt_date := "2025-03-01"; dt_time := "09:00:00" |};
     tc_end_time := None |}.

(** ** Statistics, in terms of the question rows *)

(** The active questions of a test. *)
Definition active_questions (s : store) (test_id : UUID) : list row :=
  filter (λ q, q !! "is_active" = Some (VBool true))
    (rows_with "test_id" (VStr test_id) (table s "questions")).

(** The questions of a test that are not active. *)
Definition inactive_questions (s : store) (test_id : UUID) : list row :=
  filter (λ q, q !! "is_active" ≠ Some (VBool true))
    (rows_with "test_id" (VStr test_id) (table s "questions")).

(** The questions of one type among the given rows. *)
Definition of_type (ty : string) (questions : list row) : list row :=
  filter (λ q, q !! "question_type" = Some (VStr ty)) questions.

(** The sum of the integer marks of the given rows. *)
Definition marks_total (questions : list row) : Z :=
  foldr (λ q total,
           match q !! "marks" with
           | Some (VInt z) => z + total
           | _ => total
           end) 0 questions.

(** Sample questions for a given test. *)
Definition mcq_for (test_id : UUID) : MCQQuestionCreate :=
  {| mq_test_id := test_id;
     mq_question_text := "Which of these is a prime number?";
     mq_marks := 2; mq_order_no := 4;
     mq_options := {| option_a := "21"; option_b := "23";
                      option_c := "25"; option_d := "27";
                      correct_option := B;
                      explanation := Some "23 has no proper divisor." |} |}.

Definition theory_for (test_id : UUID) : TheoryQuestionCreate :=
  {| tq_test_id := test_id;
     tq_question_text := "Explain the sine rule with an example.";
     tq_marks := 5; tq_order_no := 5;
     tq_details := {| word_limit := 300; sample_answer := None;
                      keywords := Some ["sine"; "triangle"] |} |}.

(** ** The question listing, in terms of the question rows *)

(** The filter set of the question listing: the questions of the test that
    are active, of the given type when one is given. *)
Definition question_filter (test_id : UUID) (question_type : option string)
    (r : row) : bool :=
  bool_decide (r !! "test_id" = Some (VStr test_id))
  && bool_decide (r !! "is_active" = Some (VBool true))
  && from_option (λ x, bool_decide (r !! "question_type" = Some (VStr x)))
       true question_type.

(** A listed row with its detail, as the lookup by its own id nests it. *)
Definition listed_question (s : store) (q : row) : question :=
  match q !! "question_type", q !! "id" with
  | Some ty, Some (VStr question_id) => assembled s question_id q ty
  | _, _ => Question q None None
  end.

(** ** Columns that no update writes *)

(** Every row of [before] is still in its place in [after] and holds what
    it held in each of [columns]. *)
Definition keeps_columns (columns : list string) (before after : list row) :
    Prop :=
  ∀ (i : nat) (r : row), before !! i = Some r →
    ∃ r', after !! i = Some r' ∧ ∀ k, k ∈ columns → r' !! k = r !! k.

(** ** E-mail addresses, as text *)

(** The number of occurrences of [a] in [s]. *)
Fixpoint count_char (a : ascii) (s : string) : nat :=
  match s with
  | EmptyString => 0
  | String c s' => (if Ascii.eqb c a then 1 else 0) + count_char a s'
  end.

(** [s] has an upper-case ASCII letter. *)
Fixpoint has_upper (s : string) : bool :=
  match s with
  | EmptyString => false
  | String c s' => re.between "A" "Z" c || has_upper s'
  end.

(** The line feed, as text. *)
Definition newline : string := String "010" EmptyString.

(** Lower-casing a character does not change what an item lets through. *)
Definition lower_closed (items : re.pattern) : Prop :=
  Forall (λ i, match i with
               | re.One a => ∀ c, Ascii.eqb (lower_ascii c) a = Ascii.eqb c a
               | re.Many _ p => ∀ c, p (lower_ascii c) = p c
               end) items.

(** No class of the pattern holds [a]. *)
Definition rejects (a : ascii) (items : re.pattern) : Prop :=
  Forall (λ i, match i with
               | re.One _ => True
               | re.Many _ p => p a = false
               end) items.

(** The number of literal [a]s of the pattern. *)
Fixpoint ones (a : ascii) (items : re.pattern) : nat :=
  match items with
  | [] => 0
  | re.One b :: rest => (if Ascii.eqb b a then 1 else 0) + ones a rest
  | re.Many _ _ :: rest => ones a rest
  end.

(** * Properties *)

(** ** The storage client *)

Ltac query_norm :=
  unfold from_, select, insert_, update_, eq_, order, range, first_or_none,
    profile_service.table_name, test_service.table_name;
  cbn [q_table q_op q_filters q_order q_range app data count].

Lemma fmap_project_star (l : list row) : project ["*"] <$> l = l.
Proof. induction l as [|r l IH]; [done|]. cbn [fmap list_fmap]; f_equal; done. Qed.

Lemma count_or_zero (n : nat) : count_or (Some n) 0 = n.
Proof. by destruct n. Qed.

Lemma count_or_le (n m : nat) : (m ≤ n)%nat → count_or (Some n) m = n.
Proof. destruct n; [|done]. cbn. lia. Qed.

Lemma holds_str (r : row) column (x : string) :
  holds r (column, VStr x) = bool_decide (r !! column = Some (VStr x)).
Proof. reflexivity. Qed.

Lemma holds_bool (r : row) column (b : bool) :
  holds r (column, VBool b) = bool_decide (r !! column = Some (VBool b)).
Proof. reflexivity. Qed.

Lemma matches_one_str (r : row) column (x : string) :
  matches [(column, VStr x)] r = true ↔ r !! column = Some (VStr x).
Proof.
  unfold matches; cbn [forallb]. rewrite holds_str, andb_true_r.
  by rewrite bool_decide_eq_true.
Qed.

Lemma elem_of_rows_with_str column (x : string) (r : row) rows :
  r ∈ rows_with column (VStr x) rows ↔ r ∈ rows ∧ r !! column = Some (VStr x).
Proof.
  unfold rows_with. rewrite list_elem_of_filter, matches_one_str. tauto.
Qed.

(** The first matching row is the row itself when the column value is
    unique in the table. *)
Lemma head_rows_with_unique column (x : string) (r : row) rows :
  r ∈ rows → r !! column = Some (VStr x) →
  (∀ r', r' ∈ rows → r' !! column = Some (VStr x) → r' = r) →
  head (rows_with column (VStr x) rows) = Some r.
Proof.
  intros Hin Hr Huniq.
  destruct (rows_with column (VStr x) rows) as [|r' l] eqn:E.
  - assert (r ∈ rows_with column (VStr x) rows) as Hm
      by (by apply elem_of_rows_with_str).
    rewrite E in Hm. by apply not_elem_of_nil in Hm.
  - assert (r' ∈ rows_with column (VStr x) rows) as Hm
      by (rewrite E; apply list_elem_of_here).
    apply elem_of_rows_with_str in Hm as [? ?].
    cbn. f_equal. by apply Huniq.
Qed.

Lemma head_rows_with_Some column (x : string) (r : row) rows :
  head (rows_with column (VStr x) rows) = Some r →
  r ∈ rows ∧ r !! column = Some (VStr x).
Proof.
  intros H. apply elem_of_rows_with_str.
  destruct (rows_with column (VStr x) rows); [done|].
  injection H as ->. apply list_elem_of_here.
Qed.

(** ** The services as equations *)

Lemma get_profile_by_user_id_run (user_id : UUID) (s : store) :
  profile_service.get_profile_by_user_id user_id s =
  (Ok (head (rows_with "user_id" (VStr user_id) (table s "profiles"))), s).
Proof.
  unfold profile_service.get_profile_by_user_id, bind, execute, ret.
  query_norm. unfold ranged, ordered. by rewrite fmap_project_star.
Qed.

Lemma get_test_by_id_run (test_id : UUID) (s : store) :
  test_service.get_test_by_id test_id s =
  (Ok (insert "question_count"
         (VInt (Z.of_nat (length (rows_with "test_id" (VStr test_id)
                                    (table s "questions")))))
       <$> head (rows_with "id" (VStr test_id) (table s "tests"))), s).
Proof.
  unfold test_service.get_test_by_id, bind, execute, ret.
  query_norm. unfold ranged, ordered. rewrite fmap_project_star.
  fold (rows_with "id" (VStr test_id) (table s "tests")).
  destruct (rows_with "id" (VStr test_id) (table s "tests")) as [|t l];
    [reflexivity|].
  query_norm. by rewrite count_or_zero.
Qed.

Lemma get_question_by_id_run (question_id : UUID) (s : store) :
  question_service.get_question_by_id question_id s =
  (match head (rows_with "id" (VStr question_id) (table s "questions")) with
   | None => Ok None
   | Some q =>
       match q !! "question_type" with
       | Some ty => Ok (Some (assembled s question_id q ty))
       | None => Raise (KeyError "question_type")
       end
   end, s).
Proof.
  unfold question_service.get_question_by_id, bind, execute, ret.
  query_norm. unfold ranged, ordered. rewrite fmap_project_star.
  fold (rows_with "id" (VStr question_id) (table s "questions")).
  destruct (rows_with "id" (VStr question_id) (table s "questions"))
    as [|q l]; [reflexivity|].
  cbn [head]. unfold subscript, raise, ret, assembled.
  destruct (q !! "question_type") as [ty|]; [|done].
  repeat case_bool_decide; query_norm; by rewrite ?fmap_project_star.
Qed.

(** ** Test lookup and the question count *)

Lemma length_filter_split (P : row → Prop) `{!∀ r, Decision (P r)}
    (l : list row) :
  length l = (length (filter P l) + length (filter (λ r, ¬ P r) l))%nat.
Proof.
  rewrite <- length_app. symmetry. apply Permutation_length.
  apply filter_app_complement.
Qed.

(** C6: [get_test_by_id] returns the first test row with the id, with
    [question_count] set to the number of all question rows of the test,
    the active and the soft-deleted ones alike, and returns [None] exactly
    when no test row has the id; the store is not written. *)
Theorem get_test_by_id_question_count (s : store) (test_id : UUID) :
  let tests := rows_with "id" (VStr test_id) (table s "tests") in
  let questions := rows_with "test_id" (VStr test_id) (table s "questions") in
  let active q := q !! "is_active" = Some (VBool true) in
  test_service.get_test_by_id test_id s =
    (Ok match head tests with
        | Some t =>
            Some (<["question_count" :=
                      VInt (Z.of_nat (length questions))]> t)
        | None => None
        end, s)
  ∧ length questions =
      (length (filter active questions)
       + length (filter (λ q, ¬ active q) questions))%nat
  ∧ (head tests = None ↔
       ∀ r, r ∈ table s "tests" → r !! "id" ≠ Some (VStr test_id)).
Proof.
  intros tests questions active. split; [|split].
  - rewrite get_test_by_id_run. fold tests. by destruct (head tests).
  - apply length_filter_split.
  - split.
    + intros Hnone r Hin Hid.
      assert (r ∈ tests) as Hm by (by apply elem_of_rows_with_str).
      destruct tests; [by apply not_elem_of_nil in Hm | done].
    + intros Hno. destruct tests as [|t l] eqn:E; [done|].
      assert (t ∈ rows_with "id" (VStr test_id) (table s "tests")) as Hm
        by (fold tests; rewrite E; apply list_elem_of_here).
      apply elem_of_rows_with_str in Hm as [Hin Hid]. by destruct (Hno t).
Qed.

(** ** Duplicate profiles *)

(** C1: when the user already has a profile row, [create_profile] raises
    for every payload, the route answers 400, and neither writes to the
    store, so the existing row stays as it was. *)
Theorem create_profile_duplicate (s : store) (profile : ProfileCreate)
    (current_user : principal) (existing : row) :
  existing ∈ table s "profiles" →
  existing !! "user_id" = Some (VStr (p_id current_user)) →
  profile_service.create_profile profile (p_id current_user) s =
    (Raise (Exception "Profile already exists for this user"), s)
  ∧ routes_profile.create_profile profile current_user s =
    (Raise (HTTPException 400 "Profile already exists for this user"), s).
Proof.
  intros Hin Huser.
  assert (existing ∈ rows_with "user_id" (VStr (p_id current_user))
                       (table s "profiles")) as Hm
    by (by apply elem_of_rows_with_str).
  split.
  - unfold profile_service.create_profile, bind, execute, ret, raise.
    query_norm. unfold ranged, ordered.
    fold (rows_with "user_id" (VStr (p_id current_user)) (table s "profiles")).
    destruct (rows_with "user_id" (VStr (p_id current_user))
                (table s "profiles")); [by apply not_elem_of_nil in Hm|done].
  - unfold routes_profile.create_profile, bind.
    rewrite get_profile_by_user_id_run.
    destruct (rows_with "user_id" (VStr (p_id current_user))
                (table s "profiles")) as [|r l] eqn:E;
      [by apply not_elem_of_nil in Hm|].
    assert (r !! "user_id" = Some (VStr (p_id current_user))) as Hr.
    { eapply (head_rows_with_Some _ _ _ (table s "profiles")). by rewrite E. }
    cbn [head truthy_dict]. rewrite bool_decide_eq_false_2; [done|].
    intros ->. by rewrite lookup_empty in Hr.
Qed.

Lemma create_profile_duplicate_witness :
  profile_u2 ∈ table sample_store "profiles"
  ∧ profile_u2 !! "user_id" = Some (VStr (p_id institution_u2))
  ∧ profile_service.create_profile sample_profile "u2" sample_store =
      (Raise (Exception "Profile already exists for this user"), sample_store)
  ∧ routes_profile.create_profile sample_profile institution_u2 sample_store =
      (Raise (HTTPException 400 "Profile already exists for this user"),
       sample_store).
Proof.
  assert (profile_u2 ∈ table sample_store "profiles") as Hin.
  { change (profile_u2 ∈ [profile_u1; profile_u2]).
    apply list_elem_of_further, list_elem_of_here. }
  assert (profile_u2 !! "user_id" = Some (VStr (p_id institution_u2)))
    as Huser by reflexivity.
  exact (conj Hin (conj Huser
           (create_profile_duplicate sample_store sample_profile
              institution_u2 profile_u2 Hin Huser))).
Defined.

(** ** Ownership of tests *)

Lemma require_role_ok (current_user : principal) (required : string)
    (s : store) :
  p_role current_user = required →
  require_role required current_user s = (Ok current_user, s).
Proof.
  intros <-. unfold require_role. by rewrite String.eqb_refl.
Qed.

Lemma truthy_dict_insert (key : string) (v : value) (r : row) :
  truthy_dict (Some (<[key := v]> r)) = true.
Proof.
  cbn [truthy_dict]. rewrite bool_decide_eq_false_2; [done|].
  apply insert_non_empty.
Qed.

Lemma not_owner_other (t : row) (n : value) (owner : string)
    (current_user : principal) :
  t !! "created_by" = Some (VStr owner) →
  p_id current_user ≠ owner →
  routes_test.not_owner (Some (<["question_count" := n]> t)) current_user
  = true.
Proof.
  intros Hc Hne. unfold routes_test.not_owner, dict_get. cbn [from_option id].
  rewrite lookup_insert_ne by done. rewrite Hc. cbn [from_option py_str id].
  apply negb_true_iff, String.eqb_neq. congruence.
Qed.

Lemma not_owner_self (t : row) (n : value) (current_user : principal) :
  t !! "created_by" = Some (VStr (p_id current_user)) →
  routes_test.not_owner (Some (<["question_count" := n]> t)) current_user
  = false.
Proof.
  intros Hc. unfold routes_test.not_owner, dict_get. cbn [from_option id].
  rewrite lookup_insert_ne by done. rewrite Hc. cbn [from_option py_str id].
  by rewrite String.eqb_refl.
Qed.

(** The common opening of the owner-only test routes, for a caller who is
    not the creator. *)
Ltac forbidden :=
  match goal with
  | Hrole : p_role _ = "institution",
    Hrow : head (rows_with "id" _ _) = Some _,
    Hby : _ !! "created_by" = Some _,
    Hne : p_id _ ≠ _ |- _ =>
      unfold bind; rewrite (require_role_ok _ _ _ Hrole);
      rewrite get_test_by_id_run, Hrow; cbn [fmap option_fmap option_map];
      rewrite truthy_dict_insert; cbn [negb];
      rewrite (not_owner_other _ _ _ _ Hby Hne); reflexivity
  end.

(** C2: for a test whose row records the creator [owner], every
    institution principal with another id gets 403 from update, publish,
    unpublish and delete, and the store is left as it was; the route that
    reads a test by id takes no principal and returns the test. *)
Theorem test_mutation_forbidden_for_other_institution (s : store)
    (test_id : UUID) (t : row) (owner : string) (current_user : principal)
    (test_update : TestUpdate) :
  p_role current_user = "institution" →
  head (rows_with "id" (VStr test_id) (table s "tests")) = Some t →
  t !! "created_by" = Some (VStr owner) →
  p_id current_user ≠ owner →
  routes_test.update_test test_id test_update current_user s =
    (Raise (HTTPException 403 "Not authorized to update this test"), s)
  ∧ routes_test.publish_test test_id current_user s =
    (Raise (HTTPException 403 "Not authorized"), s)
  ∧ routes_test.unpublish_test test_id current_user s =
    (Raise (HTTPException 403 "Not authorized"), s)
  ∧ routes_test.delete_test test_id current_user s =
    (Raise (HTTPException 403 "Not authorized"), s)
  ∧ ∃ n, routes_test.get_test test_id s =
    (Ok {| success := true; message := "Test found!";
           api_data := Some (<["question_count" := n]> t) |}, s).
Proof.
  intros Hrole Hrow Hby Hne. repeat split.
  - unfold routes_test.update_test. forbidden.
  - unfold routes_test.publish_test. forbidden.
  - unfold routes_test.unpublish_test. forbidden.
  - unfold routes_test.delete_test. forbidden.
  - eexists. unfold routes_test.get_test, bind.
    rewrite get_test_by_id_run, Hrow. cbn [fmap option_fmap option_map].
    rewrite truthy_dict_insert. reflexivity.
Qed.

Lemma test_mutation_forbidden_for_other_institution_witness :
  p_role institution_u3 = "institution"
  ∧ head (rows_with "id" (VStr "t1") (table sample_store "tests"))
    = Some test_t1
  ∧ test_t1 !! "created_by" = Some (VStr "u2")
  ∧ p_id institution_u3 ≠ "u2"
  ∧ routes_test.update_test "t1" (publish_update true) institution_u3
      sample_store =
    (Raise (HTTPException 403 "Not authorized to update this test"),
     sample_store)
  ∧ routes_test.publish_test "t1" institution_u3 sample_store =
    (Raise (HTTPException 403 "Not authorized"), sample_store)
  ∧ routes_test.unpublish_test "t1" institution_u3 sample_store =
    (Raise (HTTPException 403 "Not authorized"), sample_store)
  ∧ routes_test.delete_test "t1" institution_u3 sample_store =
    (Raise (HTTPException 403 "Not authorized"), sample_store)
  ∧ ∃ n, routes_test.get_test "t1" sample_store =
    (Ok {| success := true; message := "Test found!";
           api_data := Some (<["question_count" := n]> test_t1) |},
     sample_store).
Proof.
  assert (p_role institution_u3 = "institution") as Hrole by reflexivity.
  assert (head (rows_with "id" (VStr "t1") (table sample_store "tests"))
          = Some test_t1) as Hrow by reflexivity.
  assert (test_t1 !! "created_by" = Some (VStr "u2")) as Hby by reflexivity.
  assert (p_id institution_u3 ≠ "u2") as Hne by discriminate.
  exact (conj Hrole (conj Hrow (conj Hby (conj Hne
           (test_mutation_forbidden_for_other_institution sample_store "t1"
              test_t1 "u2" institution_u3 (publish_update true)
              Hrole Hrow Hby Hne))))).
Defined.

(** ** Writes *)

Lemma table_set_table_eq (s : store) name rows :
  table (set_table s name rows) name = rows.
Proof. unfold table, set_table; cbn. by rewrite lookup_insert_eq. Qed.

Lemma table_set_table_ne (s : store) name name' rows :
  name ≠ name' → table (set_table s name rows) name' = table s name'.
Proof. intros. unfold table, set_table; cbn. by rewrite lookup_insert_ne. Qed.

Lemma json_encode_Some (d : row) :
  map_Forall (λ _ v, is_Some (json_value v)) d →
  json_encode d = Some (omap json_value d).
Proof. intros H. unfold json_encode. by rewrite bool_decide_eq_true_2. Qed.

Lemma json_encode_lookup (d body : row) (k : string) :
  json_encode d = Some body → body !! k = d !! k ≫= json_value.
Proof.
  unfold json_encode. case_bool_decide; [|done].
  intros [= <-]. apply lookup_omap.
Qed.

Lemma json_encode_lookup_None (d body : row) (k : string) :
  json_encode d = Some body → d !! k = None → body !! k = None.
Proof. intros H Hk. by rewrite (json_encode_lookup _ _ _ H), Hk. Qed.

Lemma json_encode_singleton k (v : value) :
  json_value v = Some v → json_encode {[k := v]} = Some {[k := v]}.
Proof.
  intros Hv. rewrite json_encode_Some.
  - by rewrite omap_singleton, Hv.
  - apply map_Forall_singleton. by rewrite Hv.
Qed.

Lemma execute_update (name : string) (d body : row) fs (s : store) :
  json_encode d = Some body →
  execute (Query name (Update d) fs None None) s =
  (Ok (Response ((λ r, body ∪ r) <$>
                   filter (λ r, matches fs r = true) (table s name)) None),
   set_table s name
     ((λ r : row, if matches fs r then body ∪ r else r) <$> table s name)).
Proof. intros H. unfold execute. cbn [q_op q_table q_filters]. by rewrite H. Qed.

Lemma execute_insert (name : string) (d body : row) (s : store) :
  json_encode d = Some body →
  execute (Query name (Insert d) [] None None) s =
  (Ok (Response [body ∪ generated s name (table s name)] None),
   set_table s name
     (table s name ++ [body ∪ generated s name (table s name)])).
Proof. intros H. unfold execute. cbn [q_op q_table q_filters]. by rewrite H. Qed.

(** A body that does not mention the filter column leaves the set of
    matching rows as it was. *)
Lemma matches_one_union (body r : row) column (x : string) :
  body !! column = None →
  matches [(column, VStr x)] (body ∪ r) = matches [(column, VStr x)] r.
Proof.
  intros Hb. unfold matches; cbn [forallb]. rewrite !holds_str.
  by rewrite lookup_union_r.
Qed.

Lemma rows_with_updated (body : row) column (x : string) rows :
  body !! column = None →
  rows_with column (VStr x)
    ((λ r : row, if matches [(column, VStr x)] r then body ∪ r else r)
       <$> rows)
  = (λ r, body ∪ r) <$> rows_with column (VStr x) rows.
Proof.
  intros Hb. unfold rows_with. induction rows as [|r rows IH]; [done|].
  cbn [fmap list_fmap]. rewrite !filter_cons. cbn beta.
  destruct (matches [(column, VStr x)] r) eqn:E.
  - rewrite decide_True by (by rewrite matches_one_union, ?E).
    rewrite decide_True by done. cbn [fmap list_fmap]. f_equal. apply IH.
  - rewrite decide_False by (by rewrite ?E).
    rewrite decide_False by (by rewrite ?E). apply IH.
Qed.

Lemma model_dump_lookup_Some fields (k : string) (v : value) :
  model_dump fields !! k = Some v → (k, Some v) ∈ fields.
Proof.
  induction fields as [|[k' [v'|]] fields IH]; cbn [model_dump].
  - by rewrite lookup_empty.
  - rewrite lookup_insert. case_decide as Hk.
    + intros [= ->]. subst. apply list_elem_of_here.
    + intros H. apply list_elem_of_further. by apply IH.
  - intros H. apply list_elem_of_further. by apply IH.
Qed.

Lemma model_dump_lookup_None fields (k : string) :
  k ∉ fields.*1 → model_dump fields !! k = None.
Proof.
  intros Hk. destruct (model_dump fields !! k) as [v|] eqn:E; [|done].
  apply model_dump_lookup_Some in E. destruct Hk.
  apply list_elem_of_fmap. by exists (k, Some v).
Qed.


(** ** Questions: the type guard *)

Lemma base_assembled (s : store) (question_id : UUID) (q : row) (ty : value) :
  base (assembled s question_id q ty) = q.
Proof. unfold assembled. by repeat case_bool_decide. Qed.

Lemma truthy_assembled (s : store) (question_id : UUID) (q : row)
    (ty : value) :
  q !! "question_type" = Some ty →
  truthy_question (Some (assembled s question_id q ty)) = true.
Proof.
  intros Hty. cbn [truthy_question]. rewrite base_assembled.
  rewrite bool_decide_eq_false_2; [done|].
  intros ->. by rewrite lookup_empty in Hty.
Qed.

Lemma get_question_by_id_ok (s : store) (question_id : UUID) (q : row)
    (ty : value) :
  head (rows_with "id" (VStr question_id) (table s "questions")) = Some q →
  q !! "question_type" = Some ty →
  question_service.get_question_by_id question_id s =
  (Ok (Some (assembled s question_id q ty)), s).
Proof. intros Hq Hty. by rewrite get_question_by_id_run, Hq, Hty. Qed.

(** C7: for an existing question whose type is not [mcq], the MCQ-options
    update route answers 400 after the lookup alone: no write is made, the
    store (and with it every detail row) is as before. *)
Theorem update_mcq_options_type_guard (s : store) (question_id : UUID)
    (update_data : MCQOptionUpdate) (current_user : principal)
    (q : row) (ty : value) :
  p_role current_user = "institution" →
  head (rows_with "id" (VStr question_id) (table s "questions")) = Some q →
  q !! "question_type" = Some ty →
  ty ≠ VStr "mcq" →
  routes_question.update_mcq_options question_id update_data current_user s =
    (Raise (HTTPException 400 "Not an MCQ question!"), s).
Proof.
  intros Hrole Hq Hty Hne.
  unfold routes_question.update_mcq_options, bind.
  rewrite (require_role_ok _ _ _ Hrole).
  rewrite (get_question_by_id_ok _ _ _ _ Hq Hty).
  rewrite (truthy_assembled _ _ _ _ Hty). cbn [negb].
  unfold routes_question.type_of, subscript. cbn [from_option].
  rewrite base_assembled, Hty. unfold ret.
  by rewrite bool_decide_eq_false_2.
Qed.

Lemma update_mcq_options_type_guard_witness :
  p_role institution_u2 = "institution"
  ∧ head (rows_with "id" (VStr "q2") (table sample_store "questions"))
    = Some question_q2
  ∧ question_q2 !! "question_type" = Some (VStr "theory")
  ∧ VStr "theory" ≠ VStr "mcq"
  ∧ routes_question.update_mcq_options "q2" sample_MCQOptionUpdate
      institution_u2 sample_store =
    (Raise (HTTPException 400 "Not an MCQ question!"), sample_store).
Proof.
  assert (p_role institution_u2 = "institution") as Hrole by reflexivity.
  assert (head (rows_with "id" (VStr "q2") (table sample_store "questions"))
          = Some question_q2) as Hq by reflexivity.
  assert (question_q2 !! "question_type" = Some (VStr "theory")) as Hty
    by reflexivity.
  assert (VStr "theory" ≠ VStr "mcq") as Hne by discriminate.
  exact (conj Hrole (conj Hq (conj Hty (conj Hne
           (update_mcq_options_type_guard sample_store "q2"
              sample_MCQOptionUpdate institution_u2 question_q2
              (VStr "theory") Hrole Hq Hty Hne))))).
Defined.

(** Case analysis on the membership of a field in the literal field list
    of a model. *)
Ltac field_cases H :=
  repeat (apply elem_of_cons in H as [H|H]);
  [..|by apply not_elem_of_nil in H];
  injection H as -> H.

Ltac not_a_field :=
  cbn [fmap list_fmap fst];
  repeat (apply not_elem_of_cons; split; [discriminate|]);
  apply not_elem_of_nil.

(** ** The generic test update and the lifecycle flags *)

(** An update whose dump is a single boolean column. *)
Lemma update_test_flag (s : store) (test_id : UUID) (u : TestUpdate)
    (k : string) (b : bool) :
  model_dump (TestUpdate_fields u) = {[k := VBool b]} →
  k ≠ "start_time" → k ≠ "end_time" →
  test_service.update_test test_id u s =
  (Ok (head ((λ r, {[k := VBool b]} ∪ r) <$>
               rows_with "id" (VStr test_id) (table s "tests"))),
   set_table s "tests"
     ((λ r : row, if matches [("id", VStr test_id)] r
                  then {[k := VBool b]} ∪ r else r) <$> table s "tests")).
Proof.
  intros Hd Hs He. unfold test_service.update_test. rewrite Hd.
  rewrite bool_decide_eq_false_2 by apply insert_non_empty.
  unfold bind, test_service.isoformat_field.
  rewrite lookup_singleton_ne by done. unfold ret at 1. cbn beta iota.
  rewrite lookup_singleton_ne by done. unfold ret at 1. query_norm.
  by rewrite (execute_update _ _ _ _ _
                (json_encode_singleton k (VBool b) eq_refl)).
Qed.

Lemma flag_service_run (s : store) (test_id : UUID) (k : string) (b : bool) :
  (response <- from_ "tests" |> update_ {[k := VBool b]}
                 |> eq_ "id" (VStr test_id) |> execute ;;
   ret (first_or_none response)) s =
  (Ok (head ((λ r, {[k := VBool b]} ∪ r) <$>
               rows_with "id" (VStr test_id) (table s "tests"))),
   set_table s "tests"
     ((λ r : row, if matches [("id", VStr test_id)] r
                  then {[k := VBool b]} ∪ r else r) <$> table s "tests")).
Proof.
  unfold bind. query_norm.
  by rewrite (execute_update _ _ _ _ _
                (json_encode_singleton k (VBool b) eq_refl)).
Qed.

(** C10: the owner's PUT with a [TestUpdate] that carries only
    [is_published] succeeds and leaves the store exactly as the publish
    (or unpublish) service does; with [is_active = true] it succeeds and
    the stored test row is active afterwards, also when it was
    soft-deleted before. *)
Theorem update_test_sets_lifecycle_flags (s : store) (test_id : UUID)
    (t : row) (current_user : principal) (b : bool) :
  p_role current_user = "institution" →
  head (rows_with "id" (VStr test_id) (table s "tests")) = Some t →
  t !! "created_by" = Some (VStr (p_id current_user)) →
  (∃ updated,
     routes_test.update_test test_id (publish_update b) current_user s =
       (Ok {| success := true; message := "Test updated!";
              api_data := Some updated |},
        (if b then test_service.publish_test test_id s
         else test_service.unpublish_test test_id s).2)
     ∧ updated !! "is_published" = Some (VBool b))
  ∧ (∃ updated s',
       routes_test.update_test test_id reactivate_update current_user s =
         (Ok {| success := true; message := "Test updated!";
                api_data := Some updated |}, s')
       ∧ updated !! "is_active" = Some (VBool true)
       ∧ head (rows_with "id" (VStr test_id) (table s' "tests"))
         = Some updated).
Proof.
  intros Hrole Hrow Hby.
  assert (∀ u, routes_test.update_test test_id u current_user s =
               bind (test_service.update_test test_id u)
                 (λ updated, ret {| success := true;
                                    message := "Test updated!";
                                    api_data := updated |}) s) as Hroute.
  { intros u. unfold routes_test.update_test. unfold bind at 1 2.
    rewrite (require_role_ok _ _ _ Hrole), get_test_by_id_run, Hrow.
    cbn [fmap option_fmap option_map].
    by rewrite truthy_dict_insert, (not_owner_self _ _ _ Hby). }
  destruct (rows_with "id" (VStr test_id) (table s "tests")) as [|t0 l] eqn:E;
    [done|]. injection Hrow as ->.
  split.
  - exists ({["is_published" := VBool b]} ∪ t). split.
    + rewrite Hroute. unfold bind.
      rewrite (update_test_flag s test_id _ "is_published" b) by done.
      rewrite E. unfold ret.
      destruct b; unfold test_service.publish_test,
        test_service.unpublish_test; by rewrite flag_service_run.
    + apply lookup_union_Some_l, lookup_singleton_eq.
  - eexists ({["is_active" := VBool true]} ∪ t), _. split; [|split].
    + rewrite Hroute. unfold bind.
      rewrite (update_test_flag s test_id _ "is_active" true) by done.
      rewrite E. reflexivity.
    + apply lookup_union_Some_l, lookup_singleton_eq.
    + rewrite table_set_table_eq, rows_with_updated, E; [done|].
      by apply lookup_singleton_ne.
Qed.

Lemma update_test_sets_lifecycle_flags_witness :
  p_role institution_u2 = "institution"
  ∧ head (rows_with "id" (VStr "t2") (table sample_store "tests"))
    = Some test_t2
  ∧ test_t2 !! "created_by" = Some (VStr (p_id institution_u2))
  ∧ test_t2 !! "is_active" = Some (VBool false)
  ∧ (∃ updated,
       routes_test.update_test "t2" (publish_update false) institution_u2
         sample_store =
         (Ok {| success := true; message := "Test updated!";
                api_data := Some updated |},
          (test_service.unpublish_test "t2" sample_store).2)
       ∧ updated !! "is_published" = Some (VBool false))
  ∧ (∃ updated s',
       routes_test.update_test "t2" reactivate_update institution_u2
         sample_store =
         (Ok {| success := true; message := "Test updated!";
                api_data := Some updated |}, s')
       ∧ updated !! "is_active" = Some (VBool true)
       ∧ head (rows_with "id" (VStr "t2") (table s' "tests"))
         = Some updated).
Proof.
  assert (p_role institution_u2 = "institution") as Hrole by reflexivity.
  assert (head (rows_with "id" (VStr "t2") (table sample_store "tests"))
          = Some test_t2) as Hrow by reflexivity.
  assert (test_t2 !! "created_by" = Some (VStr (p_id institution_u2)))
    as Hby by reflexivity.
  assert (test_t2 !! "is_active" = Some (VBool false)) as Hoff
    by reflexivity.
  exact (conj Hrole (conj Hrow (conj Hby (conj Hoff
           (update_test_sets_lifecycle_flags sample_store "t2" test_t2
              institution_u2 false Hrole Hrow Hby))))).
Defined.

(** ** Partial updates *)

Lemma partial_write_refl column (x : string) (rows : list row) :
  partial_write column x ∅ rows rows.
Proof.
  split; [done|]. intros i r Hi. exists r. repeat split; done.
Qed.

Lemma partial_write_update column (x : string) (payload body : row)
    (rows : list row) :
  (∀ k, payload !! k = None → body !! k = None) →
  (∀ k v, payload !! k = Some v → body !! k = Some (stored_form v)) →
  partial_write column x payload rows
    ((λ r : row, if matches [(column, VStr x)] r then body ∪ r else r)
       <$> rows).
Proof.
  intros Habsent Hpresent. split; [apply length_fmap|].
  intros i r Hi. rewrite list_lookup_fmap, Hi. cbn [fmap option_fmap option_map].
  eexists. split; [done|].
  destruct (matches [(column, VStr x)] r) eqn:E.
  - apply matches_one_str in E. repeat split.
    + done.
    + intros k Hk. by rewrite lookup_union_r by auto.
    + intros _ k v Hk. apply lookup_union_Some_l. auto.
  - assert (r !! column ≠ Some (VStr x)) as Hne.
    { intros H. apply matches_one_str in H. congruence. }
    repeat split; done.
Qed.

Lemma ProfileUpdate_item (u : ProfileUpdate) (k : string) (v : value) :
  (k, Some v) ∈ ProfileUpdate_fields u →
  json_value (profile_service.convert_item k v) = Some (stored_form v).
Proof.
  intros H. unfold ProfileUpdate_fields in H. field_cases H.
  - destruct (pu_full_name u); by simplify_eq/=.
  - destruct (pu_phone u); by simplify_eq/=.
  - destruct (pu_bio u); by simplify_eq/=.
  - destruct (pu_avatar_url u); by simplify_eq/=.
  - destruct (pu_date_of_birth u); by simplify_eq/=.
  - destruct (pu_gender u); by simplify_eq/=.
  - destruct (pu_address u); by simplify_eq/=.
  - destruct (pu_city u); by simplify_eq/=.
  - destruct (pu_state u); by simplify_eq/=.
  - destruct (pu_country u); by simplify_eq/=.
  - destruct (pu_is_active u); by simplify_eq/=.
  - destruct (pu_role u); by simplify_eq/=.
Qed.

(** The body of a profile update reaches the store, and holds exactly the
    fields of the payload. *)
Lemma ProfileUpdate_body (u : ProfileUpdate) :
  let payload := model_dump (ProfileUpdate_fields u) in
  ∃ body,
    json_encode (profile_service._convert_enums payload) = Some body
    ∧ (∀ k, payload !! k = None → body !! k = None)
    ∧ (∀ k v, payload !! k = Some v → body !! k = Some (stored_form v)).
Proof.
  intros payload.
  assert (∀ k, profile_service._convert_enums payload !! k
               = profile_service.convert_item k <$> payload !! k) as Hconv.
  { intros k. unfold profile_service._convert_enums.
    rewrite map_lookup_imap. by destruct (payload !! k). }
  eexists. split; [|split].
  - apply json_encode_Some. intros k v' Hk. rewrite Hconv in Hk.
    destruct (payload !! k) as [v|] eqn:E; [|done]. injection Hk as <-.
    apply model_dump_lookup_Some in E.
    by rewrite (ProfileUpdate_item _ _ _ E).
  - intros k Hk. by rewrite lookup_omap, Hconv, Hk.
  - intros k v Hk. rewrite lookup_omap, Hconv, Hk.
    apply (ProfileUpdate_item u). by apply model_dump_lookup_Some.
Qed.

(** [isoformat_field] on a dumped model, whose time fields are datetimes. *)
Lemma isoformat_field_run (key : string) (d : row) (s : store) :
  (∀ v, d !! key = Some v → ∃ dd tt, v = VDatetime dd tt) →
  test_service.isoformat_field key d s = (Ok (isoformat_written key d), s).
Proof.
  intros H. unfold test_service.isoformat_field, isoformat_written.
  destruct (d !! key) as [v|]; [|done].
  destruct (H v eq_refl) as (dd & tt & ->). reflexivity.
Qed.

Lemma TestUpdate_item (u : TestUpdate) (k : string) (v : value) :
  (k, Some v) ∈ TestUpdate_fields u →
  if bool_decide (k = "start_time") || bool_decide (k = "end_time")
  then ∃ dd tt, v = VDatetime dd tt
  else json_value v = Some (stored_form v).
Proof.
  intros H. unfold TestUpdate_fields in H. field_cases H.
  - destruct (tu_title u); by simplify_eq/=.
  - destruct (tu_description u); by simplify_eq/=.
  - destruct (tu_difficulty u); by simplify_eq/=.
  - destruct (tu_duration_minutes u); by simplify_eq/=.
  - destruct (tu_total_marks u); by simplify_eq/=.
  - destruct (tu_passing_marks u); by simplify_eq/=.
  - destruct (tu_is_active u); by simplify_eq/=.
  - destruct (tu_is_published u); by simplify_eq/=.
  - destruct (tu_start_time u); simplify_eq/=. eauto.
  - destruct (tu_end_time u); simplify_eq/=. eauto.
Qed.

Lemma isoformat_written_lookup (key : string) (d : row) (k : string) :
  isoformat_written key d !! k =
  if decide (key = k) then stored_form <$> d !! k else d !! k.
Proof.
  unfold isoformat_written. destruct (d !! key) as [v|] eqn:E.
  - rewrite lookup_insert. case_decide; [subst; by rewrite E | done].
  - case_decide; [subst; by rewrite E | done].
Qed.

Lemma TestUpdate_body (u : TestUpdate) :
  let payload := model_dump (TestUpdate_fields u) in
  ∃ body,
    json_encode (isoformat_written "end_time"
                   (isoformat_written "start_time" payload)) = Some body
    ∧ (∀ k, payload !! k = None → body !! k = None)
    ∧ (∀ k v, payload !! k = Some v → body !! k = Some (stored_form v)).
Proof.
  intros payload.
  assert (∀ k v, payload !! k = Some v →
            (isoformat_written "end_time"
               (isoformat_written "start_time" payload) !! k)
              ≫= json_value = Some (stored_form v)) as Hpresent.
  { intros k v Hk. pose proof (TestUpdate_item u k v
                                 (model_dump_lookup_Some _ _ _ Hk)) as Hv.
    rewrite !isoformat_written_lookup.
    destruct (decide (k = "end_time")) as [->|He];
      [|destruct (decide (k = "start_time")) as [->|Hs]].
    - rewrite decide_True, decide_False, Hk by done.
      by destruct Hv as (dd & tt & ->).
    - rewrite decide_False, decide_True, Hk by done.
      by destruct Hv as (dd & tt & ->).
    - rewrite !decide_False, Hk by done.
      by rewrite !bool_decide_eq_false_2 in Hv by done. }
  assert (∀ k, payload !! k = None →
            isoformat_written "end_time"
              (isoformat_written "start_time" payload) !! k = None) as Habsent.
  { intros k Hk. rewrite !isoformat_written_lookup, Hk.
    by repeat case_decide. }
  eexists. split; [|split].
  - apply json_encode_Some. intros k v' Hk.
    destruct (payload !! k) as [v|] eqn:E.
    + specialize (Hpresent k v E). rewrite Hk in Hpresent. cbn in Hpresent.
      by rewrite Hpresent.
    + by rewrite (Habsent k E) in Hk.
  - intros k Hk. by rewrite lookup_omap, (Habsent k Hk).
  - intros k v Hk. rewrite lookup_omap. by apply Hpresent.
Qed.

Lemma update_profile_run (s : store) (user_id : UUID) (u : ProfileUpdate) :
  let payload := model_dump (ProfileUpdate_fields u) in
  payload ≠ ∅ →
  ∃ body,
    (∀ k, payload !! k = None → body !! k = None)
    ∧ (∀ k v, payload !! k = Some v → body !! k = Some (stored_form v))
    ∧ profile_service.update_profile user_id u s =
      (Ok (head ((λ r, body ∪ r) <$>
                   rows_with "user_id" (VStr user_id) (table s "profiles"))),
       set_table s "profiles"
         ((λ r : row, if matches [("user_id", VStr user_id)] r
                      then body ∪ r else r) <$> table s "profiles")).
Proof.
  intros payload Hne.
  destruct (ProfileUpdate_body u) as (body & Hbody & Habsent & Hpresent).
  exists body. split; [done|]. split; [done|].
  unfold profile_service.update_profile. fold payload.
  rewrite bool_decide_eq_false_2 by done.
  unfold bind. query_norm. by rewrite (execute_update _ _ _ _ _ Hbody).
Qed.

Lemma update_test_run (s : store) (test_id : UUID) (u : TestUpdate) :
  let payload := model_dump (TestUpdate_fields u) in
  payload ≠ ∅ →
  ∃ body,
    (∀ k, payload !! k = None → body !! k = None)
    ∧ (∀ k v, payload !! k = Some v → body !! k = Some (stored_form v))
    ∧ test_service.update_test test_id u s =
      (Ok (head ((λ r, body ∪ r) <$>
                   rows_with "id" (VStr test_id) (table s "tests"))),
       set_table s "tests"
         ((λ r : row, if matches [("id", VStr test_id)] r
                      then body ∪ r else r) <$> table s "tests")).
Proof.
  intros payload Hne.
  destruct (TestUpdate_body u) as (body & Hbody & Habsent & Hpresent).
  exists body. split; [done|]. split; [done|].
  unfold test_service.update_test. fold payload.
  rewrite bool_decide_eq_false_2 by done.
  assert (∀ key, key = "start_time" ∨ key = "end_time" →
            ∀ d : row, (∀ k, d !! k = payload !! k
                       ∨ ∃ v, d !! k = Some (VStr v) ∧ k ≠ key) →
            ∀ v, d !! key = Some v → ∃ dd tt, v = VDatetime dd tt) as Htime.
  { intros key Hkey d Hd v Hv. destruct (Hd key) as [E|(? & _ & ?)]; [|done].
    rewrite Hv in E. symmetry in E. apply model_dump_lookup_Some in E.
    apply TestUpdate_item in E. by destruct Hkey as [-> | ->]. }
  unfold bind at 1. rewrite isoformat_field_run
    by (apply (Htime "start_time"); auto).
  unfold bind at 1. rewrite isoformat_field_run.
  - unfold bind. query_norm. by rewrite (execute_update _ _ _ _ _ Hbody).
  - apply (Htime "end_time"); [auto|]. intros k.
    rewrite isoformat_written_lookup. case_decide; [subst|by left].
    destruct (payload !! "start_time") as [v|] eqn:E; [|by left].
    right. pose proof (TestUpdate_item u _ _
                         (model_dump_lookup_Some _ _ _ E)) as (dd & tt & ->).
    by eexists.
Qed.

(** C5: an update with the empty payload is the plain lookup (the profile
    by user id, the test by id) and leaves the store as it was; an update
    with any payload succeeds, touches only its own table, keeps the rows
    it does not address, leaves every absent field of every row as it
    was, and writes the present fields into the addressed rows. *)
Theorem partial_update_frame (s : store) (user_id test_id : UUID)
    (pu : ProfileUpdate) (tu : TestUpdate) :
  (profile_service.update_profile user_id empty_ProfileUpdate s
   = (Ok (head (rows_with "user_id" (VStr user_id) (table s "profiles"))), s)
   ∧ test_service.update_test test_id empty_TestUpdate s
     = test_service.get_test_by_id test_id s
   ∧ (test_service.update_test test_id empty_TestUpdate s).2 = s)
  ∧ (let after := (profile_service.update_profile user_id pu s).2 in
     (∃ r, (profile_service.update_profile user_id pu s).1 = Ok r)
     ∧ partial_write "user_id" user_id (model_dump (ProfileUpdate_fields pu))
         (table s "profiles") (table after "profiles")
     ∧ ∀ name, name ≠ "profiles" → table after name = table s name)
  ∧ (let after := (test_service.update_test test_id tu s).2 in
     (∃ r, (test_service.update_test test_id tu s).1 = Ok r)
     ∧ partial_write "id" test_id (model_dump (TestUpdate_fields tu))
         (table s "tests") (table after "tests")
     ∧ ∀ name, name ≠ "tests" → table after name = table s name).
Proof.
  split; [|split].
  - split; [|split].
    + unfold profile_service.update_profile. cbn [model_dump
        ProfileUpdate_fields empty_ProfileUpdate fmap option_fmap option_map
        pu_full_name pu_phone pu_bio pu_avatar_url pu_date_of_birth pu_gender
        pu_address pu_city pu_state pu_country pu_is_active pu_role].
      rewrite bool_decide_eq_true_2 by done.
      apply get_profile_by_user_id_run.
    + unfold test_service.update_test. cbn [model_dump
        TestUpdate_fields empty_TestUpdate fmap option_fmap option_map
        tu_title tu_description tu_difficulty tu_duration_minutes
        tu_total_marks tu_passing_marks tu_is_active tu_is_published
        tu_start_time tu_end_time].
      by rewrite bool_decide_eq_true_2 by done.
    + unfold test_service.update_test. cbn [model_dump
        TestUpdate_fields empty_TestUpdate fmap option_fmap option_map
        tu_title tu_description tu_difficulty tu_duration_minutes
        tu_total_marks tu_passing_marks tu_is_active tu_is_published
        tu_start_time tu_end_time].
      rewrite bool_decide_eq_true_2 by done. by rewrite get_test_by_id_run.
  - cbn zeta.
    destruct (decide (model_dump (ProfileUpdate_fields pu) = ∅)) as [E|E].
    + unfold profile_service.update_profile.
      rewrite bool_decide_eq_true_2 by done.
      rewrite get_profile_by_user_id_run, E. cbn [fst snd].
      split; [eauto|]. split; [apply partial_write_refl | done].
    + destruct (update_profile_run s user_id pu E)
        as (body & Habsent & Hpresent & ->). cbn [fst snd].
      split; [eauto|]. split.
      * rewrite table_set_table_eq. by apply partial_write_update.
      * intros name Hname. by rewrite table_set_table_ne.
  - cbn zeta.
    destruct (decide (model_dump (TestUpdate_fields tu) = ∅)) as [E|E].
    + unfold test_service.update_test.
      rewrite bool_decide_eq_true_2 by done.
      rewrite get_test_by_id_run, E. cbn [fst snd].
      split; [eauto|]. split; [apply partial_write_refl | done].
    + destruct (update_test_run s test_id tu E)
        as (body & Habsent & Hpresent & ->). cbn [fst snd].
      split; [eauto|]. split.
      * rewrite table_set_table_eq. by apply partial_write_update.
      * intros name Hname. by rewrite table_set_table_ne.
Qed.

(** ** Pagination *)

Lemma filter_ext_bool (f g : row → bool) (l : list row) :
  (∀ r, f r = g r) →
  filter (λ r, f r = true) l = filter (λ r, g r = true) l.
Proof.
  intros H. induction l as [|r l IH]; [done|].
  rewrite !filter_cons, IH. by rewrite H.
Qed.

Lemma truthy_str_Some (x : string) :
  Some x ≠ Some "" → truthy_str (Some x) = true.
Proof.
  intros H. cbn. apply negb_true_iff, String.eqb_neq. congruence.
Qed.

Lemma length_ordered o (rows : list row) :
  length (ordered o rows) = length rows.
Proof.
  destruct o as [[column desc]|]; [|done]. cbn.
  apply Permutation_length, merge_sort_Permutation.
Qed.

Lemma length_page_of (page limit : Z) (rows : list row) :
  (length (page_of page limit rows) ≤ Z.to_nat limit)%nat
  ∧ (length (page_of page limit rows) ≤ length rows)%nat.
Proof. unfold page_of. rewrite length_take, length_drop. lia. Qed.

(** A listing query, once its filters are fixed; [g] is the filter set in
    the words of the specification. *)
Lemma listing_run (name : string) fs (g : row → bool) (page limit : Z)
    (s : store) :
  (∀ r, matches fs r = g r) →
  let hit := filter (λ r, g r = true) (table s name) in
  (res <- execute (Query name (Select ["*"] true) fs
                     (Some ("created_at", true))
                     (Some ((page - 1) * limit,
                            (page - 1) * limit + limit - 1))) ;;
   ret (data res, count_or (count res) (length (data res)))) s =
  (Ok (page_of page limit (newest_first hit), length hit), s).
Proof.
  intros Hg hit. unfold bind, execute, ret. query_norm.
  rewrite (filter_ext_bool _ _ _ Hg). fold hit.
  rewrite fmap_project_star. unfold ranged.
  replace ((page - 1) * limit + limit - 1 - (page - 1) * limit + 1)
    with limit by lia.
  fold (newest_first hit). fold (page_of page limit (newest_first hit)).
  rewrite count_or_le; [done|].
  pose proof (length_page_of page limit (newest_first hit)) as [_ H].
  unfold newest_first in H at 2. by rewrite length_ordered in H.
Qed.

Ltac same_filter :=
  intros r;
  unfold matches, profile_filter, test_filter; cbn [forallb from_option];
  rewrite ?holds_str, ?holds_bool;
  repeat (destruct (bool_decide _)); reflexivity.

(** C4: for a page [page >= 1] of [limit >= 1] rows and any filters, both
    list operations return the rows from offset [(page - 1) * limit] of
    the matching rows, newest first, at most [limit] of them, and as
    total the number of all matching rows of the table, whatever the
    page; the store is not written. *)
Theorem listing_pagination (s : store) (page limit : Z)
    (is_active : option bool) (role city gender : option string)
    (is_published : option bool) (created_by : option string) :
  1 ≤ page → 1 ≤ limit →
  role ≠ Some "" → city ≠ Some "" → gender ≠ Some "" →
  created_by ≠ Some "" →
  (let hit := filter (λ r, profile_filter is_active role city gender r = true)
                (table s "profiles") in
   profile_service.get_all_profiles page limit is_active role city gender s
   = (Ok (page_of page limit (newest_first hit), length hit), s)
   ∧ (length (page_of page limit (newest_first hit)) ≤ Z.to_nat limit)%nat)
  ∧ (let hit := filter (λ r, test_filter is_published created_by r = true)
                  (table s "tests") in
     test_service.get_all_tests page limit is_published created_by s
     = (Ok (page_of page limit (newest_first hit), length hit), s)
     ∧ (length (page_of page limit (newest_first hit)) ≤ Z.to_nat limit)%nat).
Proof.
  intros Hpage Hlimit Hrole Hcity Hgender Hby. split.
  - cbn zeta. split; [|apply length_page_of].
    unfold profile_service.get_all_profiles.
    destruct is_active as [b|], role as [x|], city as [y|], gender as [z|];
      rewrite ?truthy_str_Some by done; cbn [truthy_str from_option id];
      query_norm; apply listing_run; same_filter.
  - cbn zeta. split; [|apply length_page_of].
    unfold test_service.get_all_tests.
    destruct is_published as [b|], created_by as [x|];
      rewrite ?truthy_str_Some by done; cbn [truthy_str from_option id];
      query_norm; apply listing_run; same_filter.
Qed.

Lemma listing_pagination_witness :
  1 ≤ 2 ∧ 1 ≤ 1
  ∧ Some "institution" ≠ Some "" ∧ (None : option string) ≠ Some ""
  ∧ Some "u2" ≠ Some ""
  ∧ (let hit := filter (λ r, profile_filter None (Some "institution") None
                               None r = true)
                  (table sample_store "profiles") in
     profile_service.get_all_profiles 2 1 None (Some "institution") None None
       sample_store
     = (Ok (page_of 2 1 (newest_first hit), length hit), sample_store)
     ∧ (length (page_of 2 1 (newest_first hit)) ≤ Z.to_nat 1)%nat)
  ∧ (let hit := filter (λ r, test_filter (Some false) (Some "u2") r = true)
                  (table sample_store "tests") in
     test_service.get_all_tests 2 1 (Some false) (Some "u2") sample_store
     = (Ok (page_of 2 1 (newest_first hit), length hit), sample_store)
     ∧ (length (page_of 2 1 (newest_first hit)) ≤ Z.to_nat 1)%nat).
Proof.
  assert (1 ≤ 2) as Hpage by lia.
  assert (1 ≤ 1) as Hlimit by lia.
  assert (Some "institution" ≠ Some "") as Hrole by discriminate.
  assert ((None : option string) ≠ Some "") as Hnone by discriminate.
  assert (Some "u2" ≠ Some "") as Hby by discriminate.
  exact (conj Hpage (conj Hlimit (conj Hrole (conj Hnone (conj Hby
           (listing_pagination sample_store 2 1 None (Some "institution")
              None None (Some false) (Some "u2")
              Hpage Hlimit Hrole Hnone Hnone Hby)))))).
Defined.

(** ** Soft delete *)

Lemma elem_of_ordered o (rows : list row) (r : row) :
  r ∈ ordered o rows ↔ r ∈ rows.
Proof.
  destruct o as [[column desc]|]; [|done]. cbn.
  by rewrite merge_sort_Permutation.
Qed.

(** What a select returns matches every filter of the query. *)
Lemma select_matches (name : string) c fs o rg (s : store) (r : row) :
  r ∈ data match (execute (Query name (Select ["*"] c) fs o rg) s).1 with
           | Ok res => res
           | Raise _ => Response [] None
           end →
  r ∈ table s name ∧ matches fs r = true.
Proof.
  unfold execute. cbn [q_op q_table q_filters q_order q_range fst data].
  rewrite fmap_project_star. intros H.
  assert (r ∈ ordered o (filter (λ r, matches fs r = true) (table s name)))
    as H'.
  { destruct rg as [[a b]|]; [|done]. cbn [ranged] in H.
    apply (subseteq_drop (Z.to_nat a)).
    by apply (subseteq_take (Z.to_nat (b - a + 1))). }
  apply elem_of_ordered, list_elem_of_filter in H'. tauto.
Qed.

Lemma matches_app fs fs' (r : row) :
  matches (fs ++ fs') r = matches fs r && matches fs' r.
Proof. unfold matches. apply forallb_app. Qed.

Lemma get_all_tests_active (s : store) (page limit : Z)
    (is_published : option bool) (created_by : option string) (t : row) :
  t ∈ rows_of (test_service.get_all_tests page limit is_published
                 created_by s).1 →
  t !! "is_active" = Some (VBool true).
Proof.
  unfold test_service.get_all_tests.
  set (q1 := match is_published with Some b => _ | None => _ end).
  set (q2 := if truthy_str created_by then _ else _).
  assert (q_table q2 = "tests" ∧ q_op q2 = Select ["*"] true
          ∧ q_order q2 = None ∧ q_range q2 = None) as (Ht & Hop & Ho & Hr).
  { subst q2 q1. by destruct is_published, (truthy_str created_by). }
  unfold bind, eq_, order, range. rewrite Ht, Hop.
  intros H.
  pose proof (select_matches "tests" true
                (q_filters q2 ++ [("is_active", VBool true)])
                (Some ("created_at", true))
                (Some ((page - 1) * limit, (page - 1) * limit + limit - 1))
                s t) as Hsel.
  unfold execute in H, Hsel.
  cbn [q_op q_table q_filters q_order q_range fst data ret rows_of] in H, Hsel.
  apply Hsel in H as [_ H]. rewrite matches_app in H.
  apply andb_true_iff in H as [_ H]. unfold matches in H. cbn [forallb] in H.
  rewrite holds_bool, andb_true_r in H. by apply bool_decide_eq_true in H.
Qed.

Lemma get_all_profiles_active (s : store) (page limit : Z)
    (role city gender : option string) (r : row) :
  r ∈ rows_of (profile_service.get_all_profiles page limit (Some true)
                 role city gender s).1 →
  r !! "is_active" = Some (VBool true).
Proof.
  unfold profile_service.get_all_profiles.
  set (q := if truthy_str gender then _ else _).
  assert (q_table q = "profiles" ∧ q_op q = Select ["*"] true
          ∧ ∃ fs, q_filters q = ("is_active", VBool true) :: fs)
    as (Ht & Hop & fs & Hfs).
  { subst q.
    destruct (truthy_str role), (truthy_str city), (truthy_str gender);
      (split; [done|]; split; [done|]; eexists; reflexivity). }
  unfold bind, order, range. intros H.
  pose proof (select_matches "profiles" true (q_filters q)
                (Some ("created_at", true))
                (Some ((page - 1) * limit, (page - 1) * limit + limit - 1))
                s r) as Hsel.
  unfold execute in H, Hsel.
  cbn [q_op q_table q_filters q_order q_range fst data ret rows_of] in H, Hsel.
  rewrite Ht, Hop in H. cbn [fst data rows_of] in H.
  apply Hsel in H as [_ H]. rewrite Hfs in H.
  unfold matches in H. cbn [forallb] in H.
  apply andb_true_iff in H as [H _].
  rewrite holds_bool in H. by apply bool_decide_eq_true in H.
Qed.

(** The questions handed out by [with_details] are the listed rows, in
    order, each with its detail; reading the details does not write. *)
Lemma with_details_run (rows : list row) (s : store) :
  ∃ o, question_service.with_details rows s = (o, s)
       ∧ match o with
         | Ok qs => base <$> qs = rows
         | Raise _ => True
         end.
Proof.
  induction rows as [|q rows IH].
  { eexists. split; [reflexivity|done]. }
  destruct IH as (o & Hrun & Ho).
  cbn [question_service.with_details]. unfold bind at 1, subscript at 1.
  destruct (q !! "question_type") as [ty|];
    [|eexists; split; [reflexivity|done]].
  unfold ret at 1.
  assert (∃ this : outcome question,
            (if bool_decide (ty = VStr "mcq") then
               question_id <- subscript "id" q ;;
               opt <- from_ "mcq_options" |> select ["*"] false
                        |> eq_ "question_id" question_id |> execute ;;
               ret (Question q (first_or_none opt) None)
             else if bool_decide (ty = VStr "theory") then
               question_id <- subscript "id" q ;;
               det <- from_ "theory_details" |> select ["*"] false
                        |> eq_ "question_id" question_id |> execute ;;
               ret (Question q None (first_or_none det))
             else if bool_decide (ty = VStr "coding") then
               question_id <- subscript "id" q ;;
               det <- from_ "coding_details" |> select ["*"] false
                        |> eq_ "question_id" question_id |> execute ;;
               ret (Question q None (first_or_none det))
             else ret (Question q None None)) s = (this, s)
            ∧ match this with
              | Ok x => base x = q
              | Raise _ => True
              end) as (this & Hthis & Hbase).
  { repeat case_bool_decide; unfold bind, subscript;
      destruct (q !! "id"); eexists; (split; [reflexivity|done]). }
  unfold bind at 1. rewrite Hthis.
  destruct this as [x|e]; [|eexists; split; [reflexivity|done]].
  unfold bind at 1. rewrite Hrun.
  destruct o as [qs|e]; eexists; (split; [reflexivity|]); [|done].
  cbn [fmap list_fmap]. by rewrite Hbase, Ho.
Qed.

Lemma get_questions_by_test_active (s : store) (test_id : UUID)
    (question_type : option string) (x : question) :
  x ∈ questions_of
        (question_service.get_questions_by_test test_id question_type s).1 →
  base x !! "is_active" = Some (VBool true).
Proof.
  unfold question_service.get_questions_by_test.
  set (q := if truthy_str question_type then _ else _).
  assert (q_table q = "questions" ∧ q_op q = Select ["*"] false
          ∧ ∃ fs, q_filters q =
                  ("test_id", VStr test_id) :: ("is_active", VBool true) :: fs)
    as (Ht & Hop & fs & Hfs).
  { subst q. destruct (truthy_str question_type);
      (split; [done|]; split; [done|]; eexists; reflexivity). }
  unfold bind, order.
  pose proof (select_matches "questions" false (q_filters q)
                (Some ("order_no", false)) (q_range q) s (base x)) as Hsel.
  unfold execute in Hsel |- *.
  cbn [q_op q_table q_filters q_order q_range fst data] in Hsel |- *.
  rewrite Ht, Hop. cbn [fst data] in Hsel |- *.
  match goal with
  | |- context [question_service.with_details ?l s] =>
      destruct (with_details_run l s) as (o & -> & Ho)
  end.
  cbn [fst]. destruct o as [qs|e]; cbn [questions_of];
    [|by intros H%not_elem_of_nil].
  intros Hx. assert (base x ∈ base <$> qs) as Hb
    by (apply list_elem_of_fmap; eauto).
  rewrite Ho in Hb. apply Hsel in Hb as [_ H]. rewrite Hfs in H.
  unfold matches in H. cbn [forallb] in H.
  apply andb_true_iff in H as [_ H]. apply andb_true_iff in H as [H _].
  rewrite holds_bool in H. by apply bool_decide_eq_true in H.
Qed.

Lemma filter_all (l : list row) :
  filter (λ _ : row, true = true) l = l.
Proof.
  induction l as [|r l IH]; [done|].
  rewrite filter_cons, decide_True by done. by rewrite IH.
Qed.

(** C3, as amended.  Tests: a test with [is_active = false] is in no
    result of the test listing, whatever the arguments, and the lookup by
    its id returns it, with the number of all question rows of the test
    as [question_count].  Questions: a question with [is_active = false]
    is in no result of the question listing of any test, and the lookup
    by its id returns it with the detail row of its type.  Profiles: a
    profile with [is_active = false] is in no result of the listing
    called with [is_active = true], and the lookup by its user id returns
    it.  The profile listing called without [is_active] applies no filter
    on it: with no filter at all it ranges over every row of the table,
    and the users and institutions listings range over every row with
    that role, so the soft-deleted rows are among them.  Each part needs
    the row of its own kind only; a lookup needs the key to be unique in
    its table. *)
Theorem soft_deleted_rows_visibility (s : store) :
  (∀ (t : row) (test_id : UUID),
     t ∈ table s "tests" → t !! "id" = Some (VStr test_id) →
     t !! "is_active" = Some (VBool false) →
     (∀ page limit is_published created_by,
        t ∉ rows_of (test_service.get_all_tests page limit is_published
                       created_by s).1)
     ∧ ((∀ r, r ∈ table s "tests" → r !! "id" = Some (VStr test_id) →
              r = t) →
        test_service.get_test_by_id test_id s
        = (Ok (Some (<["question_count" :=
                         VInt (Z.of_nat
                                 (length (rows_with "test_id" (VStr test_id)
                                            (table s "questions"))))]> t)),
           s)))
  ∧ (∀ (q : row) (question_id : UUID) (ty : value),
       q ∈ table s "questions" → q !! "id" = Some (VStr question_id) →
       q !! "question_type" = Some ty →
       q !! "is_active" = Some (VBool false) →
       (∀ of_test question_type x,
          x ∈ questions_of (question_service.get_questions_by_test of_test
                              question_type s).1 →
          base x ≠ q)
       ∧ ((∀ r, r ∈ table s "questions" →
                r !! "id" = Some (VStr question_id) → r = q) →
          question_service.get_question_by_id question_id s
          = (Ok (Some (assembled s question_id q ty)), s)))
  ∧ (∀ (p : row) (user_id : UUID),
       p ∈ table s "profiles" → p !! "user_id" = Some (VStr user_id) →
       p !! "is_active" = Some (VBool false) →
       (∀ page limit role city gender,
          p ∉ rows_of (profile_service.get_all_profiles page limit
                         (Some true) role city gender s).1)
       ∧ ((∀ r, r ∈ table s "profiles" →
                r !! "user_id" = Some (VStr user_id) → r = p) →
          profile_service.get_profile_by_user_id user_id s
          = (Ok (Some p), s)))
  ∧ (∀ page limit,
       profile_service.get_all_profiles page limit None None None None s
       = (Ok (page_of page limit (newest_first (table s "profiles")),
              length (table s "profiles")), s))
  ∧ (∀ page limit,
       profile_service.get_users page limit s
       = (Ok (page_of page limit
                (newest_first
                   (rows_with "role" (VStr "user") (table s "profiles"))),
              length (rows_with "role" (VStr "user") (table s "profiles"))),
          s)
       ∧ profile_service.get_institutions page limit s
         = (Ok (page_of page limit
                  (newest_first
                     (rows_with "role" (VStr "institution")
                        (table s "profiles"))),
                length (rows_with "role" (VStr "institution")
                          (table s "profiles"))), s)).
Proof.
  split; [|split; [|split; [|split]]].
  - intros t test_id Ht Hti Hta. split.
    + intros page limit is_published created_by Hin.
      apply get_all_tests_active in Hin. congruence.
    + intros Ht1. rewrite get_test_by_id_run.
      by rewrite (head_rows_with_unique _ _ t).
  - intros q question_id ty Hq Hqi Hqty Hqa. split.
    + intros of_test question_type x Hin Hx.
      apply get_questions_by_test_active in Hin. congruence.
    + intros Hq1. apply get_question_by_id_ok; [|done].
      by apply head_rows_with_unique.
  - intros p user_id Hp Hpu Hpa. split.
    + intros page limit role city gender Hin.
      apply get_all_profiles_active in Hin. congruence.
    + intros Hp1. rewrite get_profile_by_user_id_run.
      by rewrite (head_rows_with_unique _ _ p).
  - intros page limit. unfold profile_service.get_all_profiles.
    cbn [truthy_str]. query_norm.
    rewrite (listing_run "profiles" [] (λ _, true)) by done.
    by rewrite filter_all.
  - intros page limit.
    unfold profile_service.get_users, profile_service.get_institutions,
      profile_service.get_all_profiles.
    rewrite !truthy_str_Some by congruence.
    cbn [truthy_str from_option id]. query_norm.
    split; by apply listing_run.
Qed.

(** The soft-deleted rows of the sample store: the test [t2], the theory
    question [q2] with its detail row, and the profile of [u2], which is
    an institution. *)
Lemma soft_deleted_rows_visibility_witness :
  ((∀ page limit is_published created_by,
      test_t2 ∉ rows_of (test_service.get_all_tests page limit is_published
                           created_by sample_store).1)
   ∧ test_service.get_test_by_id "t2" sample_store
     = (Ok (Some (<["question_count" := VInt 0]> test_t2)), sample_store))
  ∧ ((∀ of_test question_type x,
        x ∈ questions_of (question_service.get_questions_by_test of_test
                            question_type sample_store).1 →
        base x ≠ question_q2)
     ∧ question_service.get_question_by_id "q2" sample_store
       = (Ok (Some (Question question_q2 None (Some details_q2))),
          sample_store))
  ∧ ((∀ page limit role city gender,
        profile_u2 ∉ rows_of (profile_service.get_all_profiles page limit
                                (Some true) role city gender sample_store).1)
     ∧ profile_service.get_profile_by_user_id "u2" sample_store
       = (Ok (Some profile_u2), sample_store))
  ∧ profile_service.get_all_profiles 1 10 None None None None sample_store
    = (Ok ([profile_u2; profile_u1], 2%nat), sample_store)
  ∧ profile_service.get_institutions 1 10 sample_store
    = (Ok ([profile_u2], 1%nat), sample_store).
Proof.
  pose proof (soft_deleted_rows_visibility sample_store)
    as (Htests & Hquestions & Hprofiles & Hall & Hrole).
  assert (test_t2 ∈ table sample_store "tests") as Ht.
  { change (test_t2 ∈ [test_t1; test_t2]).
    apply list_elem_of_further, list_elem_of_here. }
  assert (∀ r, r ∈ table sample_store "tests" →
               r !! "id" = Some (VStr "t2") → r = test_t2) as Ht1.
  { intros r Hr Hk. change (r ∈ [test_t1; test_t2]) in Hr.
    repeat (apply elem_of_cons in Hr as [->|Hr]);
      [discriminate | reflexivity | by apply not_elem_of_nil in Hr]. }
  assert (question_q2 ∈ table sample_store "questions") as Hq.
  { change (question_q2 ∈ [question_q1; question_q2]).
    apply list_elem_of_further, list_elem_of_here. }
  assert (∀ r, r ∈ table sample_store "questions" →
               r !! "id" = Some (VStr "q2") → r = question_q2) as Hq1.
  { intros r Hr Hk. change (r ∈ [question_q1; question_q2]) in Hr.
    repeat (apply elem_of_cons in Hr as [->|Hr]);
      [discriminate | reflexivity | by apply not_elem_of_nil in Hr]. }
  assert (profile_u2 ∈ table sample_store "profiles") as Hp.
  { change (profile_u2 ∈ [profile_u1; profile_u2]).
    apply list_elem_of_further, list_elem_of_here. }
  assert (∀ r, r ∈ table sample_store "profiles" →
               r !! "user_id" = Some (VStr "u2") → r = profile_u2) as Hp1.
  { intros r Hr Hk. change (r ∈ [profile_u1; profile_u2]) in Hr.
    repeat (apply elem_of_cons in Hr as [->|Hr]);
      [discriminate | reflexivity | by apply not_elem_of_nil in Hr]. }
  destruct (Htests test_t2 "t2" Ht eq_refl eq_refl) as [Htl Htg].
  destruct (Hquestions question_q2 "q2" (VStr "theory") Hq eq_refl eq_refl
              eq_refl) as [Hql Hqg].
  destruct (Hprofiles profile_u2 "u2" Hp eq_refl eq_refl) as [Hpl Hpg].
  exact (conj (conj Htl (Htg Ht1))
          (conj (conj Hql (Hqg Hq1))
            (conj (conj Hpl (Hpg Hp1))
              (conj (Hall 1 10) (proj2 (Hrole 1 10)))))).
Defined.

(** The claim as first stated fails for profiles: the soft-deleted profile
    of [u2] is in the default listing of the sample store. *)
Lemma inactive_profile_in_default_listing :
  profile_u2 !! "is_active" = Some (VBool false)
  ∧ rows_of (profile_service.get_all_profiles 1 10 None None None None
               sample_store).1 = [profile_u2; profile_u1]
  ∧ rows_of (profile_service.get_institutions 1 10 sample_store).1
    = [profile_u2].
Proof.
  split; [reflexivity|]. split; reflexivity.
Qed.

(** ** Creating an MCQ question and reading it back *)

Lemma json_encode_plain (d : row) :
  map_Forall (λ _ v, json_value v = Some v) d → json_encode d = Some d.
Proof.
  intros H. rewrite json_encode_Some.
  - f_equal. apply map_eq. intros k. rewrite lookup_omap.
    destruct (d !! k) as [v|] eqn:E; [|done]. cbn. by apply (H k).
  - intros k v Hk. rewrite (H k v Hk). eauto.
Qed.

(** Lookup of a key in a dictionary display. *)
Ltac lookup_display :=
  rewrite ?lookup_insert_ne by (apply String.eqb_neq; reflexivity);
  first [ apply lookup_insert_eq | apply lookup_singleton_eq
        | apply lookup_singleton_ne, String.eqb_neq; reflexivity ].

Lemma rows_with_absent column (x : string) (rows : list row) :
  (∀ r, r ∈ rows → r !! column ≠ Some (VStr x)) →
  rows_with column (VStr x) rows = [].
Proof.
  intros Hold. destruct (rows_with column (VStr x) rows) as [|r l] eqn:E;
    [done|].
  assert (r ∈ rows_with column (VStr x) rows) as Hr
    by (rewrite E; apply list_elem_of_here).
  apply elem_of_rows_with_str in Hr as [Hin Hcol]. by destruct (Hold r).
Qed.

Lemma rows_with_fresh column (x : string) (rows : list row) (new : row) :
  (∀ r, r ∈ rows → r !! column ≠ Some (VStr x)) →
  new !! column = Some (VStr x) →
  rows_with column (VStr x) (rows ++ [new]) = [new].
Proof.
  intros Hold Hnew.
  pose proof (rows_with_absent column x rows Hold) as Hnil.
  unfold rows_with in *. rewrite filter_app, Hnil.
  rewrite filter_cons, decide_True; [done|]. by apply matches_one_str.
Qed.

(** C8: when the store generates a fresh id for the new question,
    [create_mcq_question] returns the question under that id, and
    [get_question_by_id] on the returned id then yields the question with
    its option row nested, holding the four options, the value of the
    correct-option enum member and the explanation (null when none was
    given) exactly as submitted. *)
Theorem create_mcq_then_get (s : store) (question_data : MCQQuestionCreate)
    (question_id : UUID) :
  generated s "questions" (table s "questions") !! "id"
    = Some (VStr question_id) →
  (∀ r, r ∈ table s "questions" → r !! "id" ≠ Some (VStr question_id)) →
  (∀ r, r ∈ table s "mcq_options" →
        r !! "question_id" ≠ Some (VStr question_id)) →
  let submitted := mq_options question_data in
  ∃ created fetched opts s',
    question_service.create_mcq_question question_data s
      = (Ok (Some created), s')
    ∧ base created !! "id" = Some (VStr question_id)
    ∧ question_service.get_question_by_id question_id s'
      = (Ok (Some fetched), s')
    ∧ base fetched = base created
    ∧ options fetched = Some opts
    ∧ opts !! "option_a" = Some (VStr (option_a submitted))
    ∧ opts !! "option_b" = Some (VStr (option_b submitted))
    ∧ opts !! "option_c" = Some (VStr (option_c submitted))
    ∧ opts !! "option_d" = Some (VStr (option_d submitted))
    ∧ opts !! "correct_option"
      = Some (VStr (enum_value (correct_option submitted)))
    ∧ opts !! "explanation"
      = Some (from_option VStr VNull (explanation submitted)).
Proof.
  intros Hid Hfresh Hfresh_opt submitted.
  unfold question_service.create_mcq_question. fold submitted.
  set (q_data := ({[ "test_id" := _; "question_type" := _;
                     "question_text" := _; "marks" := _;
                     "order_no" := _ ]} : row)).
  assert (json_encode q_data = Some q_data) as Hq.
  { apply json_encode_plain. subst q_data.
    repeat (apply map_Forall_insert_2; [reflexivity|]).
    apply map_Forall_empty. }
  unfold bind at 1. query_norm. rewrite (execute_insert _ _ _ _ Hq).
  cbn [data].
  set (new := q_data ∪ generated s "questions" (table s "questions")).
  set (s1 := set_table s "questions" (table s "questions" ++ [new])).
  assert (new !! "id" = Some (VStr question_id)) as Hnew_id.
  { subst new. rewrite lookup_union_r; [done|]. subst q_data.
    lookup_display. }
  assert (new !! "question_type" = Some (VStr "mcq")) as Hnew_ty.
  { subst new. apply lookup_union_Some_l. subst q_data. lookup_display. }
  unfold bind at 1, subscript. rewrite Hnew_id. unfold ret at 1.
  set (opt_data := ({[ "question_id" := _; "option_a" := _; "option_b" := _;
                       "option_c" := _; "option_d" := _;
                       "correct_option" := _; "explanation" := _ ]} : row)).
  assert (json_encode opt_data = Some opt_data) as Ho.
  { apply json_encode_plain. subst opt_data.
    repeat (apply map_Forall_insert_2; [reflexivity|]).
    apply map_Forall_singleton. by destruct (explanation submitted). }
  unfold bind at 1. query_norm. rewrite (execute_insert _ _ _ _ Ho).
  cbn [data head]. unfold ret at 1.
  set (new_opt := opt_data ∪ generated s1 "mcq_options"
                               (table s1 "mcq_options")).
  set (s2 := set_table s1 "mcq_options" (table s1 "mcq_options" ++ [new_opt])).
  assert (∀ k v, opt_data !! k = Some v → new_opt !! k = Some v) as Hopt.
  { intros k v Hk. subst new_opt. by apply lookup_union_Some_l. }
  assert (head (rows_with "id" (VStr question_id) (table s2 "questions"))
          = Some new) as Hhead.
  { subst s2 s1. rewrite table_set_table_ne, table_set_table_eq by done.
    by rewrite rows_with_fresh. }
  assert (head (rows_with "question_id" (VStr question_id)
                  (table s2 "mcq_options")) = Some new_opt) as Hhead_opt.
  { subst s2. rewrite table_set_table_eq. subst s1.
    rewrite table_set_table_ne by done. rewrite rows_with_fresh; [done..|].
    apply Hopt. subst opt_data. lookup_display. }
  exists (Question new (Some new_opt) None),
         (Question new (Some new_opt) None), new_opt, s2.
  split; [done|]. split; [done|]. split.
  { rewrite (get_question_by_id_ok _ _ _ _ Hhead Hnew_ty).
    unfold assembled. rewrite bool_decide_eq_true_2 by done.
    by rewrite Hhead_opt. }
  split; [done|]. split; [done|].
  repeat split; apply Hopt; subst opt_data; lookup_display.
Qed.

Lemma create_mcq_then_get_witness :
  generated sample_store "questions" (table sample_store "questions") !! "id"
    = Some (VStr "questions-2")
  ∧ (∀ r, r ∈ table sample_store "questions" →
          r !! "id" ≠ Some (VStr "questions-2"))
  ∧ (∀ r, r ∈ table sample_store "mcq_options" →
          r !! "question_id" ≠ Some (VStr "questions-2"))
  ∧ ∃ created fetched opts s',
      question_service.create_mcq_question sample_question sample_store
        = (Ok (Some created), s')
      ∧ base created !! "id" = Some (VStr "questions-2")
      ∧ question_service.get_question_by_id "questions-2" s'
        = (Ok (Some fetched), s')
      ∧ base fetched = base created
      ∧ options fetched = Some opts
      ∧ opts !! "option_a" = Some (VStr "Python")
      ∧ opts !! "option_b" = Some (VStr "Java")
      ∧ opts !! "option_c" = Some (VStr "JS")
      ∧ opts !! "option_d" = Some (VStr "C++")
      ∧ opts !! "correct_option" = Some (VStr "c")
      ∧ opts !! "explanation" = Some VNull.
Proof.
  assert (generated sample_store "questions"
            (table sample_store "questions") !! "id"
          = Some (VStr "questions-2")) as Hid by reflexivity.
  assert (∀ r, r ∈ table sample_store "questions" →
               r !! "id" ≠ Some (VStr "questions-2")) as Hfresh.
  { intros r Hr. change (r ∈ [question_q1; question_q2]) in Hr.
    repeat (apply elem_of_cons in Hr as [->|Hr]);
      [discriminate.. | by apply not_elem_of_nil in Hr]. }
  assert (∀ r, r ∈ table sample_store "mcq_options" →
               r !! "question_id" ≠ Some (VStr "questions-2")) as Hfresh_opt.
  { intros r Hr. change (r ∈ [options_q1]) in Hr.
    repeat (apply elem_of_cons in Hr as [->|Hr]);
      [discriminate.. | by apply not_elem_of_nil in Hr]. }
  exact (conj Hid (conj Hfresh (conj Hfresh_opt
           (create_mcq_then_get sample_store sample_question "questions-2"
              Hid Hfresh Hfresh_opt)))).
Defined.


(** * Further properties of the services and routes *)

(** ** Profiles: creation, the soft delete and the missing profile *)

Lemma ProfileCreate_item (p : ProfileCreate) (k : string) (v : value) :
  (k, Some v) ∈ ProfileCreate_fields p →
  k = "user_id"
  ∨ json_value (profile_service.convert_item k v) = Some (stored_form v).
Proof.
  intros H. unfold ProfileCreate_fields in H. field_cases H.
  - by left.
  - right. by simplify_eq/=.
  - right. by simplify_eq/=.
  - right. destruct (pc_phone p); by simplify_eq/=.
  - right. destruct (pc_bio p); by simplify_eq/=.
  - right. by simplify_eq/=.
  - right. destruct (pc_avatar_url p); by simplify_eq/=.
  - right. destruct (pc_gender p); by simplify_eq/=.
  - right. destruct (pc_city p); by simplify_eq/=.
  - right. by simplify_eq/=.
  - right. by simplify_eq/=.
  - right. by simplify_eq/=.
Qed.

(** The body [create_profile] sends: the dumped payload, converted, with
    [user_id] overwritten. *)
Lemma ProfileCreate_body (p : ProfileCreate) (user_id : UUID) :
  let payload := model_dump (ProfileCreate_fields p) in
  ∃ body,
    json_encode (<["user_id" := VStr user_id]>
                   (profile_service._convert_enums payload)) = Some body
    ∧ body !! "user_id" = Some (VStr user_id)
    ∧ (∀ k v, k ≠ "user_id" → payload !! k = Some v →
              body !! k = Some (stored_form v))
    ∧ (∀ k, k ≠ "user_id" → payload !! k = None → body !! k = None).
Proof.
  intros payload.
  assert (∀ k, profile_service._convert_enums payload !! k
               = profile_service.convert_item k <$> payload !! k) as Hconv.
  { intros k. unfold profile_service._convert_enums.
    rewrite map_lookup_imap. by destruct (payload !! k). }
  assert (∀ k v, k ≠ "user_id" → payload !! k = Some v →
            json_value (profile_service.convert_item k v)
            = Some (stored_form v)) as Hitem.
  { intros k v Hk Hv. apply model_dump_lookup_Some in Hv.
    by destruct (ProfileCreate_item p k v Hv). }
  eexists. split; [|split; [|split]].
  - apply json_encode_Some. intros k v' Hk.
    rewrite lookup_insert in Hk. case_decide as Hu; [by simplify_eq|].
    rewrite Hconv in Hk. destruct (payload !! k) as [v|] eqn:E; [|done].
    injection Hk as <-. rewrite (Hitem k v) by done. eauto.
  - by rewrite lookup_omap, lookup_insert_eq.
  - intros k v Hk Hv.
    rewrite lookup_omap, lookup_insert_ne, Hconv, Hv by done.
    by apply Hitem.
  - intros k Hk Hv.
    by rewrite lookup_omap, lookup_insert_ne, Hconv, Hv by done.
Qed.

Lemma create_profile_existing (s : store) (profile : ProfileCreate)
    (user_id : UUID) (r : row) (l : list row) :
  rows_with "user_id" (VStr user_id) (table s "profiles") = r :: l →
  profile_service.create_profile profile user_id s =
    (Raise (Exception "Profile already exists for this user"), s).
Proof.
  intros E. unfold profile_service.create_profile, bind, execute, ret, raise.
  query_norm. unfold ranged, ordered.
  fold (rows_with "user_id" (VStr user_id) (table s "profiles")).
  by rewrite E.
Qed.

(** X1: for a user without a profile row, [create_profile] appends one row
    to [profiles] and touches no other table; the row is linked to the
    caller's id whatever [user_id] the payload carries, and holds every
    field of the payload in its stored form.  The route answers with that
    row, the lookup by user id then returns it, and a second creation
    raises without writing. *)
Theorem create_profile_links_caller (s : store) (profile : ProfileCreate)
    (current_user : principal) :
  (∀ r, r ∈ table s "profiles" →
        r !! "user_id" ≠ Some (VStr (p_id current_user))) →
  ∃ new s',
    profile_service.create_profile profile (p_id current_user) s
      = (Ok (Some new), s')
    ∧ routes_profile.create_profile profile current_user s
      = (Ok {| success := true; message := "Profile created successfully";
               api_data := Some new |}, s')
    ∧ table s' "profiles" = table s "profiles" ++ [new]
    ∧ (∀ name, name ≠ "profiles" → table s' name = table s name)
    ∧ new !! "user_id" = Some (VStr (p_id current_user))
    ∧ (∀ k v, k ≠ "user_id" →
              model_dump (ProfileCreate_fields profile) !! k = Some v →
              new !! k = Some (stored_form v))
    ∧ profile_service.get_profile_by_user_id (p_id current_user) s'
      = (Ok (Some new), s')
    ∧ profile_service.create_profile profile (p_id current_user) s'
      = (Raise (Exception "Profile already exists for this user"), s').
Proof.
  intros Hnone. set (uid := p_id current_user).
  destruct (ProfileCreate_body profile uid)
    as (body & Hbody & Huser & Hpresent & _).
  pose proof (rows_with_absent "user_id" uid _ Hnone) as Hnil.
  set (new := body ∪ generated s "profiles" (table s "profiles")).
  set (s' := set_table s "profiles" (table s "profiles" ++ [new])).
  assert (profile_service.create_profile profile uid s = (Ok (Some new), s'))
    as Hcreate.
  { unfold profile_service.create_profile. unfold bind at 1, execute at 1.
    query_norm. unfold ranged, ordered.
    fold (rows_with "user_id" (VStr uid) (table s "profiles")).
    rewrite Hnil. cbn [fmap list_fmap]. unfold bind. query_norm.
    by rewrite (execute_insert _ _ _ _ Hbody). }
  assert (new !! "user_id" = Some (VStr uid)) as Hnew
    by (by apply lookup_union_Some_l).
  assert (rows_with "user_id" (VStr uid) (table s' "profiles") = [new])
    as Hrows.
  { subst s'. rewrite table_set_table_eq. by apply rows_with_fresh. }
  exists new, s'. repeat split.
  - done.
  - unfold routes_profile.create_profile. unfold bind at 1.
    rewrite get_profile_by_user_id_run.
    fold uid. rewrite Hnil. cbn [head truthy_dict]. unfold bind.
    rewrite Hcreate. cbn [truthy_dict negb].
    rewrite bool_decide_eq_false_2; [done|].
    intros E. by rewrite E, lookup_empty in Hnew.
  - subst s'. by rewrite table_set_table_eq.
  - intros name Hname. subst s'. by rewrite table_set_table_ne.
  - done.
  - intros k v Hk Hv. apply lookup_union_Some_l. by apply Hpresent.
  - by rewrite get_profile_by_user_id_run, Hrows.
  - by apply (create_profile_existing _ _ _ new []).
Qed.

Lemma create_profile_links_caller_witness :
  (∀ r, r ∈ table sample_store "profiles" →
        r !! "user_id" ≠ Some (VStr (p_id institution_u3)))
  ∧ ∃ new s',
      profile_service.create_profile sample_profile (p_id institution_u3)
        sample_store = (Ok (Some new), s')
      ∧ routes_profile.create_profile sample_profile institution_u3
          sample_store
        = (Ok {| success := true; message := "Profile created successfully";
                 api_data := Some new |}, s')
      ∧ table s' "profiles" = table sample_store "profiles" ++ [new]
      ∧ (∀ name, name ≠ "profiles" →
                 table s' name = table sample_store name)
      ∧ new !! "user_id" = Some (VStr (p_id institution_u3))
      ∧ (∀ k v, k ≠ "user_id" →
                model_dump (ProfileCreate_fields sample_profile) !! k
                = Some v →
                new !! k = Some (stored_form v))
      ∧ profile_service.get_profile_by_user_id (p_id institution_u3) s'
        = (Ok (Some new), s')
      ∧ profile_service.create_profile sample_profile (p_id institution_u3)
          s'
        = (Raise (Exception "Profile already exists for this user"), s').
Proof.
  assert (∀ r, r ∈ table sample_store "profiles" →
               r !! "user_id" ≠ Some (VStr (p_id institution_u3))) as Hnone.
  { intros r Hr. change (r ∈ [profile_u1; profile_u2]) in Hr.
    repeat (apply elem_of_cons in Hr as [->|Hr]);
      [discriminate.. | by apply not_elem_of_nil in Hr]. }
  exact (conj Hnone
           (create_profile_links_caller sample_store sample_profile
              institution_u3 Hnone)).
Defined.

(** *** Writes of a single flag *)

Lemma execute_flag (name column : string) (x : string) (k : string)
    (b : bool) (s : store) :
  execute (Query name (Update {[k := VBool b]}) [(column, VStr x)] None None)
    s =
  (Ok (Response ((λ r, {[k := VBool b]} ∪ r) <$>
                   rows_with column (VStr x) (table s name)) None),
   set_table s name
     ((λ r : row, if matches [(column, VStr x)] r
                  then {[k := VBool b]} ∪ r else r) <$> table s name)).
Proof.
  by rewrite (execute_update _ _ _ _ _
                (json_encode_singleton k (VBool b) eq_refl)).
Qed.

Lemma set_table_set_table (s : store) (name : string) (l1 l2 : list row) :
  set_table (set_table s name l1) name l2 = set_table s name l2.
Proof. unfold set_table. cbn. by rewrite insert_insert_eq. Qed.

Lemma table_set_table_same (s : store) (name : string) :
  ∀ name', table (set_table s name (table s name)) name' = table s name'.
Proof.
  intros name'. destruct (decide (name = name')) as [<-|Hne].
  - apply table_set_table_eq.
  - by apply table_set_table_ne.
Qed.

(** An update that addresses no row leaves the rows as they are. *)
Lemma update_absent (body : row) column (x : string) (rows : list row) :
  rows_with column (VStr x) rows = [] →
  (λ r : row, if matches [(column, VStr x)] r then body ∪ r else r) <$> rows
  = rows.
Proof.
  intros Hnil. apply list_eq. intros i. rewrite list_lookup_fmap.
  destruct (rows !! i) as [r|] eqn:E; [|done].
  cbn [fmap option_fmap option_map]. f_equal.
  destruct (matches [(column, VStr x)] r) eqn:Hm; [|done].
  assert (r ∈ rows_with column (VStr x) rows) as Hin.
  { apply list_elem_of_filter. split; [done|].
    by apply list_elem_of_lookup_2 in E. }
  rewrite Hnil in Hin. by apply not_elem_of_nil in Hin.
Qed.

Lemma singleton_union_twice (k : string) (a b : value) (r : row) :
  {[k := b]} ∪ ({[k := a]} ∪ r) = {[k := b]} ∪ r.
Proof.
  rewrite <- !insert_union_singleton_l. apply insert_insert_eq.
Qed.

Lemma singleton_union_id (k : string) (a : value) (r : row) :
  r !! k = Some a → {[k := a]} ∪ r = r.
Proof. intros H. rewrite <- insert_union_singleton_l. by apply insert_id. Qed.

(** Writing a flag twice is writing the last value once. *)
Lemma flag_twice (column : string) (x : string) (k : string) (a b : value)
    (rows : list row) :
  k ≠ column →
  (λ r : row, if matches [(column, VStr x)] r then {[k := b]} ∪ r else r)
    <$> ((λ r : row, if matches [(column, VStr x)] r
                     then {[k := a]} ∪ r else r) <$> rows)
  = (λ r : row, if matches [(column, VStr x)] r then {[k := b]} ∪ r else r)
      <$> rows.
Proof.
  intros Hk. rewrite <- list_fmap_compose. apply list_fmap_ext.
  intros i r _. cbn [compose].
  destruct (matches [(column, VStr x)] r) eqn:Hm.
  - rewrite matches_one_union by (by apply lookup_singleton_ne).
    rewrite Hm. apply singleton_union_twice.
  - by rewrite Hm.
Qed.

(** Writing the value a flag already has changes nothing. *)
Lemma flag_same (column : string) (x : string) (k : string) (a : value)
    (rows : list row) :
  (∀ r, r ∈ rows → r !! column = Some (VStr x) → r !! k = Some a) →
  (λ r : row, if matches [(column, VStr x)] r then {[k := a]} ∪ r else r)
    <$> rows
  = rows.
Proof.
  intros H. apply list_eq. intros i. rewrite list_lookup_fmap.
  destruct (rows !! i) as [r|] eqn:E; [|done].
  cbn [fmap option_fmap option_map]. f_equal.
  destruct (matches [(column, VStr x)] r) eqn:Hm; [|done].
  apply singleton_union_id, H.
  - by apply list_elem_of_lookup_2 in E.
  - by apply matches_one_str.
Qed.

Lemma delete_profile_run (s : store) (user_id : UUID) :
  profile_service.delete_profile user_id s =
  (Ok (bool_decide
         (0 < length (rows_with "user_id" (VStr user_id)
                        (table s "profiles")))%nat),
   set_table s "profiles"
     ((λ r : row, if matches [("user_id", VStr user_id)] r
                  then {["is_active" := VBool false]} ∪ r else r)
        <$> table s "profiles")).
Proof.
  unfold profile_service.delete_profile, bind. query_norm.
  rewrite execute_flag. cbn [data]. by rewrite length_fmap.
Qed.

Lemma update_profile_missing (s : store) (user_id : UUID)
    (u : ProfileUpdate) :
  rows_with "user_id" (VStr user_id) (table s "profiles") = [] →
  ∃ s', profile_service.update_profile user_id u s = (Ok None, s')
        ∧ ∀ name, table s' name = table s name.
Proof.
  intros Hnil.
  destruct (decide (model_dump (ProfileUpdate_fields u) = ∅)) as [E|E].
  - exists s. split; [|done]. unfold profile_service.update_profile.
    rewrite bool_decide_eq_true_2 by done.
    by rewrite get_profile_by_user_id_run, Hnil.
  - destruct (update_profile_run s user_id u E) as (body & _ & _ & ->).
    eexists. split; [by rewrite Hnil|].
    rewrite update_absent by done. apply table_set_table_same.
Qed.

(** X2: for a caller without a profile row, reading the own profile and
    any update of it answer 404 and the soft delete answers 500; none of
    them changes the contents of a table. *)
Theorem profile_routes_without_profile (s : store) (u : ProfileUpdate)
    (current_user : principal) :
  (∀ r, r ∈ table s "profiles" →
        r !! "user_id" ≠ Some (VStr (p_id current_user))) →
  routes_profile.get_my_profile current_user s
    = (Raise (HTTPException 404 "Profile not found"), s)
  ∧ routes_profile.get_profile_by_user_id (p_id current_user) s
    = (Raise (HTTPException 404 "Profile not found"), s)
  ∧ (∃ s', routes_profile.update_my_profile u current_user s
             = (Raise (HTTPException 404 "Profile not found"), s')
           ∧ ∀ name, table s' name = table s name)
  ∧ (∃ s', routes_profile.delete_my_profile current_user s
             = (Raise (HTTPException 500 "Failed to delete profile"), s')
           ∧ ∀ name, table s' name = table s name).
Proof.
  intros Hnone.
  pose proof (rows_with_absent "user_id" (p_id current_user) _ Hnone) as Hnil.
  split; [|split; [|split]].
  - unfold routes_profile.get_my_profile, bind.
    by rewrite get_profile_by_user_id_run, Hnil.
  - unfold routes_profile.get_profile_by_user_id, bind.
    by rewrite get_profile_by_user_id_run, Hnil.
  - destruct (update_profile_missing s (p_id current_user) u Hnil)
      as (s' & Hrun & Hsame).
    exists s'. split; [|done].
    unfold routes_profile.update_my_profile, bind. by rewrite Hrun.
  - eexists. split.
    + unfold routes_profile.delete_my_profile, bind.
      rewrite delete_profile_run, Hnil. reflexivity.
    + rewrite update_absent by done. apply table_set_table_same.
Qed.

Lemma profile_routes_without_profile_witness :
  (∀ r, r ∈ table sample_store "profiles" →
        r !! "user_id" ≠ Some (VStr (p_id institution_u3)))
  ∧ routes_profile.get_my_profile institution_u3 sample_store
    = (Raise (HTTPException 404 "Profile not found"), sample_store)
  ∧ routes_profile.get_profile_by_user_id (p_id institution_u3) sample_store
    = (Raise (HTTPException 404 "Profile not found"), sample_store)
  ∧ (∃ s', routes_profile.update_my_profile activate_ProfileUpdate
             institution_u3 sample_store
             = (Raise (HTTPException 404 "Profile not found"), s')
           ∧ ∀ name, table s' name = table sample_store name)
  ∧ (∃ s', routes_profile.delete_my_profile institution_u3 sample_store
             = (Raise (HTTPException 500 "Failed to delete profile"), s')
           ∧ ∀ name, table s' name = table sample_store name).
Proof.
  assert (∀ r, r ∈ table sample_store "profiles" →
               r !! "user_id" ≠ Some (VStr (p_id institution_u3))) as Hnone.
  { intros r Hr. change (r ∈ [profile_u1; profile_u2]) in Hr.
    repeat (apply elem_of_cons in Hr as [->|Hr]);
      [discriminate.. | by apply not_elem_of_nil in Hr]. }
  exact (conj Hnone
           (profile_routes_without_profile sample_store
              activate_ProfileUpdate institution_u3 Hnone)).
Defined.

(** X3: for a caller with a profile row, the soft delete succeeds, keeps
    every row of [profiles] in place and writes nothing but
    [is_active = false] into the caller's row; no other table changes.
    The lookup by user id still returns the row, now inactive, and the
    listing restricted to active profiles no longer shows it. *)
Theorem delete_profile_is_soft (s : store) (p : row)
    (current_user : principal) :
  p ∈ table s "profiles" →
  p !! "user_id" = Some (VStr (p_id current_user)) →
  (∀ r, r ∈ table s "profiles" →
        r !! "user_id" = Some (VStr (p_id current_user)) → r = p) →
  ∃ s',
    profile_service.delete_profile (p_id current_user) s = (Ok true, s')
    ∧ routes_profile.delete_my_profile current_user s
      = (Ok {| success := true; message := "Profile deleted successfully";
               api_data := None |}, s')
    ∧ partial_write "user_id" (p_id current_user)
        {["is_active" := VBool false]}
        (table s "profiles") (table s' "profiles")
    ∧ (∀ name, name ≠ "profiles" → table s' name = table s name)
    ∧ profile_service.get_profile_by_user_id (p_id current_user) s'
      = (Ok (Some (<["is_active" := VBool false]> p)), s')
    ∧ (∀ page limit role city gender,
         <["is_active" := VBool false]> p
         ∉ rows_of (profile_service.get_all_profiles page limit (Some true)
                      role city gender s').1).
Proof.
  intros Hin Hu Huniq.
  pose proof (head_rows_with_unique _ _ _ _ Hin Hu Huniq) as Hhead.
  destruct (rows_with "user_id" (VStr (p_id current_user))
              (table s "profiles")) as [|p0 l] eqn:E; [done|].
  injection Hhead as ->.
  assert (profile_service.delete_profile (p_id current_user) s =
          (Ok true,
           set_table s "profiles"
             ((λ r : row, if matches [("user_id", VStr (p_id current_user))] r
                          then {["is_active" := VBool false]} ∪ r else r)
                <$> table s "profiles"))) as Hrun.
  { by rewrite delete_profile_run, E. }
  eexists. split; [exact Hrun|].
  split; [|split; [|split; [|split]]].
  - unfold routes_profile.delete_my_profile, bind. by rewrite Hrun.
  - rewrite table_set_table_eq. apply partial_write_update.
    + intros k Hk. apply lookup_singleton_None.
      apply lookup_singleton_None in Hk. done.
    + intros k v [-> <-]%lookup_singleton_Some. apply lookup_singleton_eq.
  - intros name Hname. by rewrite table_set_table_ne.
  - rewrite get_profile_by_user_id_run, table_set_table_eq.
    rewrite rows_with_updated by (by apply lookup_singleton_ne).
    rewrite E. cbn [fmap list_fmap head].
    by rewrite insert_union_singleton_l.
  - intros page limit role city gender Hlisted.
    apply get_all_profiles_active in Hlisted.
    by rewrite lookup_insert_eq in Hlisted.
Qed.

Lemma delete_profile_is_soft_witness :
  profile_u1 ∈ table sample_store "profiles"
  ∧ profile_u1 !! "user_id" = Some (VStr "u1")
  ∧ (∀ r, r ∈ table sample_store "profiles" →
          r !! "user_id" = Some (VStr "u1") → r = profile_u1)
  ∧ ∃ s',
      profile_service.delete_profile "u1" sample_store = (Ok true, s')
      ∧ routes_profile.delete_my_profile
          {| p_id := "u1"; p_role := "user" |} sample_store
        = (Ok {| success := true; message := "Profile deleted successfully";
                 api_data := None |}, s')
      ∧ partial_write "user_id" "u1" {["is_active" := VBool false]}
          (table sample_store "profiles") (table s' "profiles")
      ∧ (∀ name, name ≠ "profiles" →
                 table s' name = table sample_store name)
      ∧ profile_service.get_profile_by_user_id "u1" s'
        = (Ok (Some (<["is_active" := VBool false]> profile_u1)), s')
      ∧ (∀ page limit role city gender,
           <["is_active" := VBool false]> profile_u1
           ∉ rows_of (profile_service.get_all_profiles page limit
                        (Some true) role city gender s').1).
Proof.
  assert (profile_u1 ∈ table sample_store "profiles") as Hin.
  { change (profile_u1 ∈ [profile_u1; profile_u2]). apply list_elem_of_here. }
  assert (profile_u1 !! "user_id" = Some (VStr "u1")) as Hu by reflexivity.
  assert (∀ r, r ∈ table sample_store "profiles" →
               r !! "user_id" = Some (VStr "u1") → r = profile_u1) as Huniq.
  { intros r Hr Hk. change (r ∈ [profile_u1; profile_u2]) in Hr.
    repeat (apply elem_of_cons in Hr as [->|Hr]);
      [reflexivity | discriminate | by apply not_elem_of_nil in Hr]. }
  exact (conj Hin (conj Hu (conj Huniq
           (delete_profile_is_soft sample_store profile_u1
              {| p_id := "u1"; p_role := "user" |} Hin Hu Huniq)))).
Defined.

(** The body of an update is the payload in its stored form. *)
Lemma body_of_payload (payload body : row) :
  (∀ k, payload !! k = None → body !! k = None) →
  (∀ k v, payload !! k = Some v → body !! k = Some (stored_form v)) →
  body = stored_form <$> payload.
Proof.
  intros Habsent Hpresent. apply map_eq. intros k. rewrite lookup_fmap.
  destruct (payload !! k) as [v|] eqn:E; [by apply Hpresent | by apply Habsent].
Qed.

Lemma update_profile_flag (s : store) (user_id : UUID) (u : ProfileUpdate)
    (k : string) (b : bool) :
  model_dump (ProfileUpdate_fields u) = {[k := VBool b]} →
  profile_service.update_profile user_id u s =
  (Ok (head ((λ r, {[k := VBool b]} ∪ r) <$>
               rows_with "user_id" (VStr user_id) (table s "profiles"))),
   set_table s "profiles"
     ((λ r : row, if matches [("user_id", VStr user_id)] r
                  then {[k := VBool b]} ∪ r else r) <$> table s "profiles")).
Proof.
  intros Hd.
  assert (model_dump (ProfileUpdate_fields u) ≠ ∅) as Hne
    by (rewrite Hd; apply insert_non_empty).
  destruct (update_profile_run s user_id u Hne)
    as (body & Habsent & Hpresent & ->).
  rewrite (body_of_payload _ _ Habsent Hpresent), Hd.
  by rewrite map_fmap_singleton.
Qed.

Lemma delete_test_run (s : store) (test_id : UUID) :
  test_service.delete_test test_id s =
  (Ok (bool_decide
         (0 < length (rows_with "id" (VStr test_id) (table s "tests")))%nat),
   set_table s "tests"
     ((λ r : row, if matches [("id", VStr test_id)] r
                  then {["is_active" := VBool false]} ∪ r else r)
        <$> table s "tests")).
Proof.
  unfold test_service.delete_test, bind. query_norm.
  rewrite execute_flag. cbn [data]. by rewrite length_fmap.
Qed.

(** X4: a soft delete followed by an update that carries only
    [is_active = true] gives back the tables as they were, for a profile
    and for a test that were active before. *)
Theorem soft_delete_then_reactivate (s : store) (user_id test_id : UUID) :
  (∀ r, r ∈ table s "profiles" → r !! "user_id" = Some (VStr user_id) →
        r !! "is_active" = Some (VBool true)) →
  (∀ r, r ∈ table s "tests" → r !! "id" = Some (VStr test_id) →
        r !! "is_active" = Some (VBool true)) →
  (∀ name,
     table (profile_service.update_profile user_id activate_ProfileUpdate
              (profile_service.delete_profile user_id s).2).2 name
     = table s name)
  ∧ (∀ name,
       table (test_service.update_test test_id reactivate_update
                (test_service.delete_test test_id s).2).2 name
       = table s name).
Proof.
  intros Hp Ht. split; intros name.
  - rewrite delete_profile_run. cbn [snd].
    rewrite (update_profile_flag _ _ _ "is_active" true) by done. cbn [snd].
    rewrite table_set_table_eq, set_table_set_table.
    rewrite flag_twice by done. rewrite flag_same by done.
    apply table_set_table_same.
  - rewrite delete_test_run. cbn [snd].
    rewrite (update_test_flag _ _ _ "is_active" true) by done. cbn [snd].
    rewrite table_set_table_eq, set_table_set_table.
    rewrite flag_twice by done. rewrite flag_same by done.
    apply table_set_table_same.
Qed.

Lemma soft_delete_then_reactivate_witness :
  (∀ r, r ∈ table sample_store "profiles" →
        r !! "user_id" = Some (VStr "u1") →
        r !! "is_active" = Some (VBool true))
  ∧ (∀ r, r ∈ table sample_store "tests" → r !! "id" = Some (VStr "t1") →
          r !! "is_active" = Some (VBool true))
  ∧ (∀ name,
       table (profile_service.update_profile "u1" activate_ProfileUpdate
                (profile_service.delete_profile "u1" sample_store).2).2 name
       = table sample_store name)
  ∧ (∀ name,
       table (test_service.update_test "t1" reactivate_update
                (test_service.delete_test "t1" sample_store).2).2 name
       = table sample_store name).
Proof.
  assert (∀ r, r ∈ table sample_store "profiles" →
               r !! "user_id" = Some (VStr "u1") →
               r !! "is_active" = Some (VBool true)) as Hp.
  { intros r Hr Hk. change (r ∈ [profile_u1; profile_u2]) in Hr.
    repeat (apply elem_of_cons in Hr as [->|Hr]);
      [reflexivity | discriminate | by apply not_elem_of_nil in Hr]. }
  assert (∀ r, r ∈ table sample_store "tests" →
               r !! "id" = Some (VStr "t1") →
               r !! "is_active" = Some (VBool true)) as Ht.
  { intros r Hr Hk. change (r ∈ [test_t1; test_t2]) in Hr.
    repeat (apply elem_of_cons in Hr as [->|Hr]);
      [reflexivity | discriminate | by apply not_elem_of_nil in Hr]. }
  exact (conj Hp (conj Ht
           (soft_delete_then_reactivate sample_store "u1" "t1" Hp Ht))).
Defined.

(** ** Tests: the publish flag and the soft delete *)

Lemma publish_test_run (s : store) (test_id : UUID) :
  test_service.publish_test test_id s =
  (Ok (head ((λ r, {["is_published" := VBool true]} ∪ r) <$>
               rows_with "id" (VStr test_id) (table s "tests"))),
   set_table s "tests"
     ((λ r : row, if matches [("id", VStr test_id)] r
                  then {["is_published" := VBool true]} ∪ r else r)
        <$> table s "tests")).
Proof. unfold test_service.publish_test. apply flag_service_run. Qed.

Lemma unpublish_test_run (s : store) (test_id : UUID) :
  test_service.unpublish_test test_id s =
  (Ok (head ((λ r, {["is_published" := VBool false]} ∪ r) <$>
               rows_with "id" (VStr test_id) (table s "tests"))),
   set_table s "tests"
     ((λ r : row, if matches [("id", VStr test_id)] r
                  then {["is_published" := VBool false]} ∪ r else r)
        <$> table s "tests")).
Proof. unfold test_service.unpublish_test. apply flag_service_run. Qed.

(** X5: publishing twice leaves the store that publishing once leaves, and
    so for unpublishing; the later of a publish and an unpublish wins;
    publishing and then unpublishing a test that was not published gives
    back the tables as they were.  For an id that no test row has, both
    return [None] and change the contents of no table. *)
Theorem publish_unpublish_compose (s : store) (test_id : UUID) :
  (test_service.publish_test test_id
     (test_service.publish_test test_id s).2).2
  = (test_service.publish_test test_id s).2
  ∧ (test_service.unpublish_test test_id
       (test_service.unpublish_test test_id s).2).2
    = (test_service.unpublish_test test_id s).2
  ∧ (test_service.unpublish_test test_id
       (test_service.publish_test test_id s).2).2
    = (test_service.unpublish_test test_id s).2
  ∧ (test_service.publish_test test_id
       (test_service.unpublish_test test_id s).2).2
    = (test_service.publish_test test_id s).2
  ∧ ((∀ r, r ∈ table s "tests" → r !! "id" = Some (VStr test_id) →
           r !! "is_published" = Some (VBool false)) →
     ∀ name,
       table (test_service.unpublish_test test_id
                (test_service.publish_test test_id s).2).2 name
       = table s name)
  ∧ ((∀ r, r ∈ table s "tests" → r !! "id" ≠ Some (VStr test_id)) →
     (test_service.publish_test test_id s).1 = Ok None
     ∧ (test_service.unpublish_test test_id s).1 = Ok None
     ∧ (∀ name, table (test_service.publish_test test_id s).2 name
                = table s name)
     ∧ (∀ name, table (test_service.unpublish_test test_id s).2 name
                = table s name)).
Proof.
  assert (∀ a b : bool,
            set_table
              (set_table s "tests"
                 ((λ r : row, if matches [("id", VStr test_id)] r
                              then {["is_published" := VBool a]} ∪ r else r)
                    <$> table s "tests")) "tests"
              ((λ r : row, if matches [("id", VStr test_id)] r
                           then {["is_published" := VBool b]} ∪ r else r)
                 <$> table
                       (set_table s "tests"
                          ((λ r : row, if matches [("id", VStr test_id)] r
                                       then {["is_published" := VBool a]} ∪ r
                                       else r) <$> table s "tests")) "tests")
            = set_table s "tests"
                ((λ r : row, if matches [("id", VStr test_id)] r
                             then {["is_published" := VBool b]} ∪ r else r)
                   <$> table s "tests")) as Hlast.
  { intros a b. rewrite table_set_table_eq, set_table_set_table.
    by rewrite flag_twice by done. }
  assert (∀ s0, (test_service.publish_test test_id s0).2
                = set_table s0 "tests"
                    ((λ r : row, if matches [("id", VStr test_id)] r
                                 then {["is_published" := VBool true]} ∪ r
                                 else r) <$> table s0 "tests")) as Hpub
    by (intros s0; by rewrite publish_test_run).
  assert (∀ s0, (test_service.unpublish_test test_id s0).2
                = set_table s0 "tests"
                    ((λ r : row, if matches [("id", VStr test_id)] r
                                 then {["is_published" := VBool false]} ∪ r
                                 else r) <$> table s0 "tests")) as Hunpub
    by (intros s0; by rewrite unpublish_test_run).
  split; [by rewrite !Hpub, Hlast|].
  split; [by rewrite !Hunpub, Hlast|].
  split; [by rewrite (Hpub s), !Hunpub, Hlast|].
  split; [by rewrite (Hunpub s), !Hpub, Hlast|].
  split.
  - intros Hoff name. rewrite (Hpub s), Hunpub, Hlast.
    rewrite flag_same by done. apply table_set_table_same.
  - intros Hnone.
    pose proof (rows_with_absent "id" test_id _ Hnone) as Hnil.
    rewrite Hpub, Hunpub, publish_test_run, unpublish_test_run, Hnil.
    rewrite !update_absent by done.
    repeat split; apply table_set_table_same.
Qed.

Lemma elem_of_page_of (page limit : Z) (rows : list row) (r : row) :
  r ∈ page_of page limit rows → r ∈ rows.
Proof.
  unfold page_of. intros H.
  apply (subseteq_drop (Z.to_nat ((page - 1) * limit))).
  by apply (subseteq_take (Z.to_nat limit)).
Qed.

(** The test listing in the words of [test_filter], for any arguments the
    routes pass. *)
Lemma get_all_tests_run (s : store) (page limit : Z)
    (is_published : option bool) (created_by : option string) :
  created_by ≠ Some "" →
  test_service.get_all_tests page limit is_published created_by s =
  (Ok (page_of page limit
         (newest_first
            (filter (λ r, test_filter is_published created_by r = true)
               (table s "tests"))),
       length (filter (λ r, test_filter is_published created_by r = true)
                 (table s "tests"))), s).
Proof.
  intros Hby. unfold test_service.get_all_tests.
  destruct is_published as [b|], created_by as [x|];
    rewrite ?truthy_str_Some by done; cbn [truthy_str from_option id];
    query_norm; apply listing_run; same_filter.
Qed.

Lemma test_filter_true (is_published : option bool)
    (created_by : option string) (r : row) :
  test_filter is_published created_by r = true →
  r !! "is_active" = Some (VBool true)
  ∧ (∀ b, is_published = Some b → r !! "is_published" = Some (VBool b))
  ∧ (∀ x, created_by = Some x → r !! "created_by" = Some (VStr x)).
Proof.
  unfold test_filter. rewrite !andb_true_iff, bool_decide_eq_true.
  intros [[Hp Hc] Ha]. split; [done|]. split.
  - intros b ->. cbn in Hp. by apply bool_decide_eq_true in Hp.
  - intros x ->. cbn in Hc. by apply bool_decide_eq_true in Hc.
Qed.

(** X6: the listing of the caller's own tests holds only rows of [tests]
    that the caller created and that are active, at most [limit] of them,
    and its total is the number of all such rows; it writes nothing. *)
Theorem get_my_tests_only_own (s : store) (page limit : Z)
    (current_user : principal) :
  p_role current_user = "institution" →
  p_id current_user ≠ "" →
  ∃ tests,
    routes_test.get_my_tests page limit current_user s =
      (Ok {| pg_success := true;
             pg_message := "Found " +:+ pretty (length tests) +:+ " tests";
             pg_data := tests;
             pg_total :=
               length (filter
                         (λ r, bool_decide
                                 (r !! "created_by"
                                  = Some (VStr (p_id current_user))
                                  ∧ r !! "is_active" = Some (VBool true)))
                         (table s "tests"));
             pg_page := page; pg_limit := limit |}, s)
    ∧ (length tests ≤ Z.to_nat limit)%nat
    ∧ ∀ r, r ∈ tests →
        r ∈ table s "tests"
        ∧ r !! "created_by" = Some (VStr (p_id current_user))
        ∧ r !! "is_active" = Some (VBool true).
Proof.
  intros Hrole Hid.
  set (hit := filter (λ r, test_filter None (Some (p_id current_user)) r
                           = true) (table s "tests")).
  exists (page_of page limit (newest_first hit)). split; [|split].
  - unfold routes_test.get_my_tests, bind.
    rewrite (require_role_ok _ _ _ Hrole).
    rewrite get_all_tests_run by congruence. fold hit.
    unfold ret. do 3 f_equal. subst hit. f_equal.
    apply list_filter_iff. intros r. unfold test_filter. cbn [from_option].
    rewrite bool_decide_spec, !andb_true_iff, !bool_decide_eq_true.
    intuition.
  - apply length_page_of.
  - intros r Hr. apply elem_of_page_of in Hr. unfold newest_first in Hr.
    apply elem_of_ordered in Hr. subst hit. apply list_elem_of_filter in Hr as [Hf Hin].
    apply test_filter_true in Hf as (Ha & _ & Hc). eauto.
Qed.

Lemma get_my_tests_only_own_witness :
  p_role institution_u2 = "institution"
  ∧ p_id institution_u2 ≠ ""
  ∧ ∃ tests,
      routes_test.get_my_tests 1 10 institution_u2 sample_store =
        (Ok {| pg_success := true;
               pg_message := "Found " +:+ pretty (length tests) +:+ " tests";
               pg_data := tests;
               pg_total :=
                 length (filter
                           (λ r, bool_decide
                                   (r !! "created_by"
                                    = Some (VStr (p_id institution_u2))
                                    ∧ r !! "is_active" = Some (VBool true)))
                           (table sample_store "tests"));
               pg_page := 1; pg_limit := 10 |}, sample_store)
      ∧ (length tests ≤ Z.to_nat 10)%nat
      ∧ ∀ r, r ∈ tests →
          r ∈ table sample_store "tests"
          ∧ r !! "created_by" = Some (VStr (p_id institution_u2))
          ∧ r !! "is_active" = Some (VBool true).
Proof.
  assert (p_role institution_u2 = "institution") as Hrole by reflexivity.
  assert (p_id institution_u2 ≠ "") as Hid by discriminate.
  exact (conj Hrole (conj Hid
           (get_my_tests_only_own sample_store 1 10 institution_u2
              Hrole Hid))).
Defined.

Lemma get_all_tests_member (s : store) (page limit : Z)
    (is_published : option bool) (created_by : option string) (t : row) :
  t ∈ rows_of (test_service.get_all_tests page limit is_published
                 created_by s).1 →
  t ∈ table s "tests".
Proof.
  unfold test_service.get_all_tests.
  set (q1 := match is_published with Some b => _ | None => _ end).
  set (q2 := if truthy_str created_by then _ else _).
  assert (q_table q2 = "tests" ∧ q_op q2 = Select ["*"] true)
    as (Ht & Hop).
  { subst q2 q1. by destruct is_published, (truthy_str created_by). }
  unfold bind, eq_, order, range. rewrite Ht, Hop.
  intros H.
  pose proof (select_matches "tests" true
                (q_filters q2 ++ [("is_active", VBool true)])
                (Some ("created_at", true))
                (Some ((page - 1) * limit, (page - 1) * limit + limit - 1))
                s t) as Hsel.
  unfold execute in H, Hsel.
  cbn [q_op q_table q_filters q_order q_range fst data ret rows_of] in H, Hsel.
  by apply Hsel in H as [H _].
Qed.

(** X7: for the owner of an existing test, the delete succeeds, keeps
    every row of [tests] in place and writes nothing but
    [is_active = false] into the test's row; no other table changes.  The
    lookup by id returns the row as before with the same question count,
    now inactive, and no listing of tests shows a row with that id any
    more. *)
Theorem delete_test_is_soft (s : store) (t : row) (test_id : UUID)
    (current_user : principal) :
  p_role current_user = "institution" →
  t ∈ table s "tests" →
  t !! "id" = Some (VStr test_id) →
  (∀ r, r ∈ table s "tests" → r !! "id" = Some (VStr test_id) → r = t) →
  t !! "created_by" = Some (VStr (p_id current_user)) →
  ∃ s' n,
    test_service.delete_test test_id s = (Ok true, s')
    ∧ routes_test.delete_test test_id current_user s
      = (Ok {| success := true; message := "Test deleted!";
               api_data := Some {["deleted_id" := VStr test_id]} |}, s')
    ∧ partial_write "id" test_id {["is_active" := VBool false]}
        (table s "tests") (table s' "tests")
    ∧ (∀ name, name ≠ "tests" → table s' name = table s name)
    ∧ test_service.get_test_by_id test_id s
      = (Ok (Some (<["question_count" := n]> t)), s)
    ∧ test_service.get_test_by_id test_id s'
      = (Ok (Some (<["question_count" := n]>
                     (<["is_active" := VBool false]> t))), s')
    ∧ (∀ page limit is_published created_by r,
         r ∈ rows_of (test_service.get_all_tests page limit is_published
                        created_by s').1 →
         r !! "id" ≠ Some (VStr test_id)).
Proof.
  intros Hrole Hin Hid Huniq Hby.
  pose proof (head_rows_with_unique _ _ _ _ Hin Hid Huniq) as Hhead.
  destruct (rows_with "id" (VStr test_id) (table s "tests")) as [|t0 l] eqn:E;
    [done|].
  injection Hhead as ->.
  set (upd := λ r : row, if matches [("id", VStr test_id)] r
                         then {["is_active" := VBool false]} ∪ r else r).
  assert (test_service.delete_test test_id s =
          (Ok true, set_table s "tests" (upd <$> table s "tests"))) as Hrun.
  { by rewrite delete_test_run, E. }
  eexists _, _. split; [exact Hrun|].
  split; [|split; [|split; [|split; [|split]]]].
  - unfold routes_test.delete_test, bind.
    rewrite (require_role_ok _ _ _ Hrole), get_test_by_id_run, E.
    cbn [head fmap option_fmap option_map].
    rewrite truthy_dict_insert, (not_owner_self _ _ _ Hby). cbn [negb].
    by rewrite Hrun.
  - rewrite table_set_table_eq. apply partial_write_update.
    + intros k Hk. apply lookup_singleton_None.
      by apply lookup_singleton_None in Hk.
    + intros k v [-> <-]%lookup_singleton_Some. apply lookup_singleton_eq.
  - intros name Hname. by rewrite table_set_table_ne.
  - rewrite get_test_by_id_run, E. reflexivity.
  - rewrite get_test_by_id_run, table_set_table_eq.
    rewrite table_set_table_ne by done. subst upd.
    rewrite rows_with_updated by (by apply lookup_singleton_ne).
    rewrite E. cbn [fmap list_fmap head option_fmap option_map].
    by rewrite <- insert_union_singleton_l.
  - intros page limit is_published created_by r Hr Hrid.
    pose proof (get_all_tests_active _ _ _ _ _ _ Hr) as Hactive.
    apply get_all_tests_member in Hr.
    rewrite table_set_table_eq in Hr.
    apply list_elem_of_fmap in Hr as (r0 & -> & Hr0). subst upd. cbn beta in *.
    destruct (matches [("id", VStr test_id)] r0) eqn:Hm.
    + rewrite lookup_union_Some_l with (x := VBool false) in Hactive;
        [done | apply lookup_singleton_eq].
    + apply matches_one_str in Hrid. congruence.
Qed.

Lemma delete_test_is_soft_witness :
  p_role institution_u2 = "institution"
  ∧ test_t1 ∈ table sample_store "tests"
  ∧ test_t1 !! "id" = Some (VStr "t1")
  ∧ (∀ r, r ∈ table sample_store "tests" → r !! "id" = Some (VStr "t1") →
          r = test_t1)
  ∧ test_t1 !! "created_by" = Some (VStr (p_id institution_u2))
  ∧ ∃ s' n,
      test_service.delete_test "t1" sample_store = (Ok true, s')
      ∧ routes_test.delete_test "t1" institution_u2 sample_store
        = (Ok {| success := true; message := "Test deleted!";
                 api_data := Some {["deleted_id" := VStr "t1"]} |}, s')
      ∧ partial_write "id" "t1" {["is_active" := VBool false]}
          (table sample_store "tests") (table s' "tests")
      ∧ (∀ name, name ≠ "tests" → table s' name = table sample_store name)
      ∧ test_service.get_test_by_id "t1" sample_store
        = (Ok (Some (<["question_count" := n]> test_t1)), sample_store)
      ∧ test_service.get_test_by_id "t1" s'
        = (Ok (Some (<["question_count" := n]>
                       (<["is_active" := VBool false]> test_t1))), s')
      ∧ (∀ page limit is_published created_by r,
           r ∈ rows_of (test_service.get_all_tests page limit is_published
                          created_by s').1 →
           r !! "id" ≠ Some (VStr "t1")).
Proof.
  assert (p_role institution_u2 = "institution") as Hrole by reflexivity.
  assert (test_t1 ∈ table sample_store "tests") as Hin.
  { change (test_t1 ∈ [test_t1; test_t2]). apply list_elem_of_here. }
  assert (test_t1 !! "id" = Some (VStr "t1")) as Hid by reflexivity.
  assert (∀ r, r ∈ table sample_store "tests" →
               r !! "id" = Some (VStr "t1") → r = test_t1) as Huniq.
  { intros r Hr Hk. change (r ∈ [test_t1; test_t2]) in Hr.
    repeat (apply elem_of_cons in Hr as [->|Hr]);
      [reflexivity | discriminate | by apply not_elem_of_nil in Hr]. }
  assert (test_t1 !! "created_by" = Some (VStr (p_id institution_u2)))
    as Hby by reflexivity.
  exact (conj Hrole (conj Hin (conj Hid (conj Huniq (conj Hby
           (delete_test_is_soft sample_store test_t1 "t1" institution_u2
              Hrole Hin Hid Huniq Hby)))))).
Defined.

(** ** Tests: creation *)

(** The two [isoformat_field] steps on a dictionary whose time fields are
    datetimes, and the body that then goes to the store. *)
Lemma isoformat_fields_run {T} (d : row) (k : row → M T) (s : store) :
  (∀ key v, d !! key = Some v → key = "start_time" ∨ key = "end_time" →
            ∃ dd tt, v = VDatetime dd tt) →
  (d1 <- test_service.isoformat_field "start_time" d ;;
   d2 <- test_service.isoformat_field "end_time" d1 ;;
   k d2) s
  = k (isoformat_written "end_time" (isoformat_written "start_time" d)) s.
Proof.
  intros Htime. unfold bind at 1.
  rewrite isoformat_field_run by (intros v Hv; apply (Htime _ _ Hv); auto).
  unfold bind at 1. rewrite isoformat_field_run; [done|].
  intros v. rewrite isoformat_written_lookup, decide_False by done.
  intros Hv. apply (Htime _ _ Hv). auto.
Qed.

Lemma isoformat_body (d : row) :
  (∀ k v, d !! k = Some v →
          if bool_decide (k = "start_time") || bool_decide (k = "end_time")
          then ∃ dd tt, v = VDatetime dd tt
          else json_value v = Some (stored_form v)) →
  ∃ body,
    json_encode (isoformat_written "end_time"
                   (isoformat_written "start_time" d)) = Some body
    ∧ (∀ k, d !! k = None → body !! k = None)
    ∧ (∀ k v, d !! k = Some v → body !! k = Some (stored_form v)).
Proof.
  intros Hitem.
  assert (∀ k v, d !! k = Some v →
            (isoformat_written "end_time"
               (isoformat_written "start_time" d) !! k)
              ≫= json_value = Some (stored_form v)) as Hpresent.
  { intros k v Hk. pose proof (Hitem k v Hk) as Hv.
    rewrite !isoformat_written_lookup.
    destruct (decide (k = "end_time")) as [->|He];
      [|destruct (decide (k = "start_time")) as [->|Hs]].
    - rewrite decide_True, decide_False, Hk by done.
      by destruct Hv as (dd & tt & ->).
    - rewrite decide_False, decide_True, Hk by done.
      by destruct Hv as (dd & tt & ->).
    - rewrite !decide_False, Hk by done.
      by rewrite !bool_decide_eq_false_2 in Hv by done. }
  assert (∀ k, d !! k = None →
            isoformat_written "end_time"
              (isoformat_written "start_time" d) !! k = None) as Habsent.
  { intros k Hk. rewrite !isoformat_written_lookup, Hk.
    by repeat case_decide. }
  eexists. split; [|split].
  - apply json_encode_Some. intros k v' Hk.
    destruct (d !! k) as [v|] eqn:E.
    + specialize (Hpresent k v E). rewrite Hk in Hpresent. cbn in Hpresent.
      by rewrite Hpresent.
    + by rewrite (Habsent k E) in Hk.
  - intros k Hk. by rewrite lookup_omap, (Habsent k Hk).
  - intros k v Hk. rewrite lookup_omap. by apply Hpresent.
Qed.

Lemma TestCreate_item (t : TestCreate) (k : string) (v : value) :
  (k, Some v) ∈ TestCreate_fields t →
  if bool_decide (k = "start_time") || bool_decide (k = "end_time")
  then ∃ dd tt, v = VDatetime dd tt
  else json_value v = Some (stored_form v).
Proof.
  intros H. unfold TestCreate_fields in H. field_cases H.
  - by simplify_eq/=.
  - destruct (tc_description t); by simplify_eq/=.
  - by simplify_eq/=.
  - by simplify_eq/=.
  - by simplify_eq/=.
  - by simplify_eq/=.
  - destruct (tc_start_time t); simplify_eq/=. eauto.
  - destruct (tc_end_time t); simplify_eq/=. eauto.
Qed.

Lemma create_test_run (s : store) (test_data : TestCreate)
    (created_by : string) :
  ∃ body,
    body !! "created_by" = Some (VStr created_by)
    ∧ body !! "id" = None
    ∧ (∀ k v, model_dump (TestCreate_fields test_data) !! k = Some v →
              body !! k = Some (stored_form v))
    ∧ test_service.create_test test_data created_by s =
      (Ok (Some (body ∪ generated s "tests" (table s "tests"))),
       set_table s "tests"
         (table s "tests" ++ [body ∪ generated s "tests" (table s "tests")])).
Proof.
  set (payload := model_dump (TestCreate_fields test_data)).
  set (d := <["created_by" := VStr created_by]> payload).
  assert (payload !! "created_by" = None) as Hfree
    by (apply model_dump_lookup_None; not_a_field).
  assert (∀ k v, d !! k = Some v →
            if bool_decide (k = "start_time") || bool_decide (k = "end_time")
            then ∃ dd tt, v = VDatetime dd tt
            else json_value v = Some (stored_form v)) as Hitem.
  { intros k v. subst d. rewrite lookup_insert. case_decide as Hk.
    - intros [= <-]. by subst k.
    - intros Hv. apply (TestCreate_item test_data).
      by apply model_dump_lookup_Some. }
  destruct (isoformat_body d Hitem) as (body & Hbody & Habsent & Hpresent).
  exists body. split; [|split; [|split]].
  - apply (Hpresent "created_by" (VStr created_by)), lookup_insert_eq.
  - apply Habsent. subst d. rewrite lookup_insert_ne by done.
    apply model_dump_lookup_None. not_a_field.
  - intros k v Hk. apply Hpresent. subst d.
    rewrite lookup_insert_ne; [done|]. intros <-. subst payload. congruence.
  - unfold test_service.create_test. fold payload. fold d.
    rewrite isoformat_fields_run.
    + unfold bind. query_norm. by rewrite (execute_insert _ _ _ _ Hbody).
    + intros key v Hv Hkey. specialize (Hitem key v Hv).
      by destruct Hkey as [-> | ->].
Qed.

(** X8: when the store generates an id that no test row has and no
    question refers to, the creation route stores one new test row under
    that id, with the caller as creator and every field of the payload in
    its stored form (datetimes as ISO text, the difficulty as its value),
    and changes no other table.  The lookup by the new id returns the row
    with question count 0, and the creator passes the ownership check of
    the publish route. *)
Theorem create_test_then_get (s : store) (test_data : TestCreate)
    (current_user : principal) (test_id : UUID) :
  p_role current_user = "institution" →
  generated s "tests" (table s "tests") !! "id" = Some (VStr test_id) →
  (∀ r, r ∈ table s "tests" → r !! "id" ≠ Some (VStr test_id)) →
  (∀ q, q ∈ table s "questions" → q !! "test_id" ≠ Some (VStr test_id)) →
  ∃ new s',
    routes_test.create_test test_data current_user s
      = (Ok {| success := true; message := "Test created successfully!";
               api_data := Some new |}, s')
    ∧ table s' "tests" = table s "tests" ++ [new]
    ∧ (∀ name, name ≠ "tests" → table s' name = table s name)
    ∧ new !! "id" = Some (VStr test_id)
    ∧ new !! "created_by" = Some (VStr (p_id current_user))
    ∧ (∀ k v, model_dump (TestCreate_fields test_data) !! k = Some v →
              new !! k = Some (stored_form v))
    ∧ test_service.get_test_by_id test_id s'
      = (Ok (Some (<["question_count" := VInt 0]> new)), s')
    ∧ ∃ published s'',
        routes_test.publish_test test_id current_user s'
          = (Ok {| success := true; message := "Test published!";
                   api_data := Some published |}, s'')
        ∧ published !! "is_published" = Some (VBool true).
Proof.
  intros Hrole Hgen Hfresh Hnoq.
  destruct (create_test_run s test_data (p_id current_user))
    as (body & Hby & Hnoid & Hpresent & Hrun).
  set (new := body ∪ generated s "tests" (table s "tests")) in *.
  set (s' := set_table s "tests" (table s "tests" ++ [new])) in *.
  assert (new !! "id" = Some (VStr test_id)) as Hid
    by (subst new; by rewrite lookup_union_r).
  assert (new !! "created_by" = Some (VStr (p_id current_user))) as Hnew_by
    by (by apply lookup_union_Some_l).
  assert (rows_with "id" (VStr test_id) (table s' "tests") = [new]) as Hrows.
  { subst s'. rewrite table_set_table_eq. by apply rows_with_fresh. }
  assert (test_service.get_test_by_id test_id s'
          = (Ok (Some (<["question_count" := VInt 0]> new)), s')) as Hget.
  { rewrite get_test_by_id_run, Hrows. subst s'.
    rewrite table_set_table_ne by done.
    by rewrite (rows_with_absent "test_id" test_id _ Hnoq). }
  exists new, s'. split; [|split; [|split; [|split; [|split; [|split; [|split]]]]]].
  - unfold routes_test.create_test, bind.
    rewrite (require_role_ok _ _ _ Hrole), Hrun. cbn [truthy_dict negb].
    rewrite bool_decide_eq_false_2; [done|].
    intros E. by rewrite E, lookup_empty in Hid.
  - subst s'. by rewrite table_set_table_eq.
  - intros name Hname. subst s'. by rewrite table_set_table_ne.
  - done.
  - done.
  - intros k v Hk. apply lookup_union_Some_l. by apply Hpresent.
  - done.
  - eexists _, _. split.
    + unfold routes_test.publish_test, bind.
      rewrite (require_role_ok _ _ _ Hrole), Hget.
      rewrite truthy_dict_insert, (not_owner_self _ _ _ Hnew_by).
      cbn [negb]. rewrite publish_test_run, Hrows. reflexivity.
    + apply lookup_union_Some_l, lookup_singleton_eq.
Qed.

Lemma create_test_then_get_witness :
  p_role institution_u3 = "institution"
  ∧ generated sample_store "tests" (table sample_store "tests") !! "id"
    = Some (VStr "tests-2")
  ∧ (∀ r, r ∈ table sample_store "tests" →
          r !! "id" ≠ Some (VStr "tests-2"))
  ∧ (∀ q, q ∈ table sample_store "questions" →
          q !! "test_id" ≠ Some (VStr "tests-2"))
  ∧ ∃ new s',
      routes_test.create_test sample_test institution_u3 sample_store
        = (Ok {| success := true; message := "Test created successfully!";
                 api_data := Some new |}, s')
      ∧ table s' "tests" = table sample_store "tests" ++ [new]
      ∧ (∀ name, name ≠ "tests" → table s' name = table sample_store name)
      ∧ new !! "id" = Some (VStr "tests-2")
      ∧ new !! "created_by" = Some (VStr (p_id institution_u3))
      ∧ (∀ k v, model_dump (TestCreate_fields sample_test) !! k = Some v →
                new !! k = Some (stored_form v))
      ∧ test_service.get_test_by_id "tests-2" s'
        = (Ok (Some (<["question_count" := VInt 0]> new)), s')
      ∧ ∃ published s'',
          routes_test.publish_test "tests-2" institution_u3 s'
            = (Ok {| success := true; message := "Test published!";
                     api_data := Some published |}, s'')
          ∧ published !! "is_published" = Some (VBool true).
Proof.
  assert (p_role institution_u3 = "institution") as Hrole by reflexivity.
  assert (generated sample_store "tests" (table sample_store "tests") !! "id"
          = Some (VStr "tests-2")) as Hgen by reflexivity.
  assert (∀ r, r ∈ table sample_store "tests" →
               r !! "id" ≠ Some (VStr "tests-2")) as Hfresh.
  { intros r Hr. change (r ∈ [test_t1; test_t2]) in Hr.
    repeat (apply elem_of_cons in Hr as [->|Hr]);
      [discriminate.. | by apply not_elem_of_nil in Hr]. }
  assert (∀ q, q ∈ table sample_store "questions" →
               q !! "test_id" ≠ Some (VStr "tests-2")) as Hnoq.
  { intros r Hr. change (r ∈ [question_q1; question_q2]) in Hr.
    repeat (apply elem_of_cons in Hr as [->|Hr]);
      [discriminate.. | by apply not_elem_of_nil in Hr]. }
  exact (conj Hrole (conj Hgen (conj Hfresh (conj Hnoq
           (create_test_then_get sample_store sample_test institution_u3
              "tests-2" Hrole Hgen Hfresh Hnoq))))).
Defined.

(** ** Tests: statistics *)

Lemma project_lookup (columns : list string) (r : row) (k : string) :
  k ∈ columns → project columns r !! k = r !! k.
Proof.
  intros Hk. unfold project. case_bool_decide; [done|].
  destruct (r !! k) as [v|] eqn:E.
  - by apply map_lookup_filter_Some_2.
  - apply map_lookup_filter_None_2. by left.
Qed.

Lemma count_type_run (ty : string) (columns : list string)
    (questions : list row) (s : store) :
  "question_type" ∈ columns →
  (∀ q, q ∈ questions → is_Some (q !! "question_type")) →
  test_service.count_type ty (project columns <$> questions) s
  = (Ok (length (of_type ty questions)), s).
Proof.
  intros Hcol. induction questions as [|q l IH]; intros Hkeys; [done|].
  cbn [fmap list_fmap test_service.count_type].
  unfold bind at 1, subscript. rewrite project_lookup by done.
  destruct (Hkeys q (list_elem_of_here _ _)) as [t Ht]. rewrite Ht.
  unfold ret at 1. unfold bind at 1.
  rewrite IH by (intros q' Hq'; apply Hkeys; by apply list_elem_of_further).
  unfold ret, of_type. rewrite filter_cons. do 2 f_equal.
  case_bool_decide as Hty.
  - subst t. rewrite decide_True by done. done.
  - rewrite decide_False; [done|]. congruence.
Qed.

Lemma sum_marks_run (columns : list string) (questions : list row)
    (acc : Z) (s : store) :
  "marks" ∈ columns →
  (∀ q, q ∈ questions → ∃ z, q !! "marks" = Some (VInt z)) →
  test_service.sum_marks acc (project columns <$> questions) s
  = (Ok (acc + marks_total questions), s).
Proof.
  intros Hcol. revert acc. induction questions as [|q l IH];
    intros acc Hmarks.
  { cbn. unfold ret. do 2 f_equal. lia. }
  cbn [fmap list_fmap test_service.sum_marks].
  unfold bind at 1, subscript. rewrite project_lookup by done.
  destruct (Hmarks q (list_elem_of_here _ _)) as [z Hz]. rewrite Hz.
  unfold ret at 1. unfold bind at 1. cbn [py_add]. unfold ret at 1.
  rewrite IH by (intros q' Hq'; apply Hmarks; by apply list_elem_of_further).
  cbn [marks_total foldr]. rewrite Hz. do 2 f_equal.
  fold (marks_total l). lia.
Qed.

(** Rows whose type is one of the three are split by the three counts. *)
Lemma of_type_split (questions : list row) :
  (∀ q, q ∈ questions →
        q !! "question_type" = Some (VStr "mcq")
        ∨ q !! "question_type" = Some (VStr "theory")
        ∨ q !! "question_type" = Some (VStr "coding")) →
  (length (of_type "mcq" questions) + length (of_type "theory" questions)
   + length (of_type "coding" questions))%nat = length questions.
Proof.
  induction questions as [|q l IH]; intros H; [done|].
  specialize (IH (λ q' Hq', H q' (list_elem_of_further _ _ _ Hq'))).
  unfold of_type in *. rewrite !filter_cons.
  destruct (H q (list_elem_of_here _ _)) as [E|[E|E]]; rewrite E;
    repeat (first [ rewrite decide_True by done
                  | rewrite decide_False by discriminate ]);
    cbn [length]; lia.
Qed.

Lemma active_questions_hit (s : store) (test_id : UUID) :
  filter (λ r, matches [("test_id", VStr test_id);
                        ("is_active", VBool true)] r = true)
    (table s "questions")
  = active_questions s test_id.
Proof.
  unfold active_questions, rows_with. rewrite list_filter_filter.
  apply list_filter_iff. intros r. unfold matches. cbn [forallb].
  rewrite !holds_str, !holds_bool, !andb_true_r, !andb_true_iff.
  rewrite !bool_decide_eq_true. tauto.
Qed.

Lemma get_test_stats_run (s : store) (test_id : UUID) :
  (∀ q, q ∈ active_questions s test_id →
        is_Some (q !! "question_type") ∧ ∃ z, q !! "marks" = Some (VInt z)) →
  test_service.get_test_stats test_id s =
  (Ok {[ "total_questions" :=
           VInt (Z.of_nat (length (active_questions s test_id)));
         "mcq_count" :=
           VInt (Z.of_nat (length (of_type "mcq"
                                     (active_questions s test_id))));
         "theory_count" :=
           VInt (Z.of_nat (length (of_type "theory"
                                     (active_questions s test_id))));
         "coding_count" :=
           VInt (Z.of_nat (length (of_type "coding"
                                     (active_questions s test_id))));
         "total_marks" := VInt (marks_total (active_questions s test_id));
         "total_attempts" :=
           VInt (Z.of_nat (length (rows_with "test_id" (VStr test_id)
                                     (table s "test_attempts")))) ]}, s).
Proof.
  intros Hrows. unfold test_service.get_test_stats.
  unfold bind at 1, execute at 1. query_norm. unfold ranged, ordered.
  rewrite active_questions_hit.
  assert ("question_type" ∈ ["id"; "question_type"; "marks"]) as Hcol1
    by (apply list_elem_of_further, list_elem_of_here).
  assert ("marks" ∈ ["id"; "question_type"; "marks"]) as Hcol2
    by (do 2 apply list_elem_of_further; apply list_elem_of_here).
  do 3 (unfold bind at 1;
        rewrite count_type_run by (try done; intros q Hq; by apply Hrows)).
  unfold bind at 1.
  rewrite sum_marks_run by (try done; intros q Hq; by apply Hrows).
  unfold bind, execute, ret. query_norm. unfold ranged, ordered.
  rewrite count_or_zero, length_fmap, Z.add_0_l.
  fold (rows_with "test_id" (VStr test_id) (table s "test_attempts")).
  reflexivity.
Qed.

Lemma active_inactive_length (s : store) (test_id : UUID) :
  length (rows_with "test_id" (VStr test_id) (table s "questions"))
  = (length (active_questions s test_id)
     + length (inactive_questions s test_id))%nat.
Proof.
  unfold active_questions, inactive_questions.
  induction (rows_with "test_id" (VStr test_id) (table s "questions"))
    as [|q l IH]; [done|].
  rewrite !filter_cons. repeat case_decide; cbn [length]; try lia; done.
Qed.

(** X9: when every active question of the test has a type and integer
    marks, the statistics count the active questions only: their number,
    the number of each of the three types, the sum of their marks, and the
    number of all attempt rows of the test; nothing is written.  When
    every type is one of the three, the three counts add up to the total.
    The question count that the lookup by id reports is larger than the
    total of the statistics by the number of questions that are not
    active. *)
Theorem test_stats_count_active_questions (s : store) (test_id : UUID) :
  (∀ q, q ∈ active_questions s test_id →
        is_Some (q !! "question_type") ∧ ∃ z, q !! "marks" = Some (VInt z)) →
  let active := active_questions s test_id in
  let stats : row :=
    {[ "total_questions" := VInt (Z.of_nat (length active));
       "mcq_count" := VInt (Z.of_nat (length (of_type "mcq" active)));
       "theory_count" := VInt (Z.of_nat (length (of_type "theory" active)));
       "coding_count" := VInt (Z.of_nat (length (of_type "coding" active)));
       "total_marks" := VInt (marks_total active);
       "total_attempts" :=
         VInt (Z.of_nat (length (rows_with "test_id" (VStr test_id)
                                   (table s "test_attempts")))) ]} in
  test_service.get_test_stats test_id s = (Ok stats, s)
  ∧ ((∀ q, q ∈ active →
           q !! "question_type" = Some (VStr "mcq")
           ∨ q !! "question_type" = Some (VStr "theory")
           ∨ q !! "question_type" = Some (VStr "coding")) →
     (length (of_type "mcq" active) + length (of_type "theory" active)
      + length (of_type "coding" active))%nat = length active)
  ∧ (∀ t, head (rows_with "id" (VStr test_id) (table s "tests")) = Some t →
          routes_test.get_test_stats test_id s
            = (Ok {| success := true; message := "Test statistics fetched!";
                     api_data := Some stats |}, s)
          ∧ test_service.get_test_by_id test_id s
            = (Ok (Some (<["question_count" :=
                             VInt (Z.of_nat
                                     (length active
                                      + length (inactive_questions s
                                                  test_id)))]> t)), s)).
Proof.
  intros Hrows active stats.
  pose proof (get_test_stats_run s test_id Hrows) as Hrun.
  fold active in Hrun. fold stats in Hrun.
  split; [done|]. split; [apply of_type_split|].
  intros t Ht. split.
  - unfold routes_test.get_test_stats, bind.
    rewrite get_test_by_id_run, Ht. cbn [fmap option_fmap option_map].
    rewrite truthy_dict_insert. cbn [negb]. by rewrite Hrun.
  - rewrite get_test_by_id_run, Ht. cbn [fmap option_fmap option_map].
    subst active. by rewrite <- active_inactive_length.
Qed.

Lemma test_stats_count_active_questions_witness :
  (∀ q, q ∈ active_questions sample_store "t1" →
        is_Some (q !! "question_type") ∧ ∃ z, q !! "marks" = Some (VInt z))
  ∧ test_service.get_test_stats "t1" sample_store
    = (Ok {[ "total_questions" := VInt 1; "mcq_count" := VInt 1;
             "theory_count" := VInt 0; "coding_count" := VInt 0;
             "total_marks" := VInt 1; "total_attempts" := VInt 0 ]},
       sample_store)
  ∧ test_service.get_test_by_id "t1" sample_store
    = (Ok (Some (<["question_count" := VInt 2]> test_t1)), sample_store).
Proof.
  assert (∀ q, q ∈ active_questions sample_store "t1" →
               is_Some (q !! "question_type")
               ∧ ∃ z, q !! "marks" = Some (VInt z)) as Hrows.
  { intros q Hq. change (q ∈ [question_q1]) in Hq.
    apply elem_of_cons in Hq as [->|Hq]; [|by apply not_elem_of_nil in Hq].
    split; [by eexists | by exists 1]. }
  split; [exact Hrows|].
  destruct (test_stats_count_active_questions sample_store "t1" Hrows)
    as (Hstats & _ & Hroute).
  split; [exact Hstats|].
  exact (proj2 (Hroute test_t1 eq_refl)).
Defined.

(** ** Unknown ids *)

Lemma get_test_by_id_unknown (s : store) (test_id : UUID) :
  (∀ r, r ∈ table s "tests" → r !! "id" ≠ Some (VStr test_id)) →
  test_service.get_test_by_id test_id s = (Ok None, s).
Proof.
  intros Hnone.
  by rewrite get_test_by_id_run, (rows_with_absent "id" test_id _ Hnone).
Qed.

Lemma get_question_by_id_unknown (s : store) (question_id : UUID) :
  (∀ r, r ∈ table s "questions" → r !! "id" ≠ Some (VStr question_id)) →
  question_service.get_question_by_id question_id s = (Ok None, s).
Proof.
  intros Hnone.
  by rewrite get_question_by_id_run,
       (rows_with_absent "id" question_id _ Hnone).
Qed.

(** X10: for an id that no test row has, every route that names a test
    answers 404 before anything is written: reading the test, its
    statistics and its questions, and, for an institution, updating,
    publishing, unpublishing, deleting it and adding an MCQ or a theory
    question to it. *)
Theorem unknown_test_is_not_found (s : store) (test_id : UUID)
    (current_user : principal) (test_update : TestUpdate)
    (question_type : option QuestionTypeEnum)
    (mcq : MCQQuestionCreate) (theory : TheoryQuestionCreate) :
  p_role current_user = "institution" →
  (∀ r, r ∈ table s "tests" → r !! "id" ≠ Some (VStr test_id)) →
  mq_test_id mcq = test_id →
  tq_test_id theory = test_id →
  let not_found {T} : outcome T * store :=
    (Raise (HTTPException 404 "Test not found!"), s) in
  routes_test.get_test test_id s = not_found
  ∧ routes_test.get_test_stats test_id s = not_found
  ∧ routes_question.get_questions_by_test test_id question_type s = not_found
  ∧ routes_test.update_test test_id test_update current_user s = not_found
  ∧ routes_test.publish_test test_id current_user s = not_found
  ∧ routes_test.unpublish_test test_id current_user s = not_found
  ∧ routes_test.delete_test test_id current_user s = not_found
  ∧ routes_question.create_mcq_question mcq current_user s = not_found
  ∧ routes_question.create_theory_question theory current_user s = not_found.
Proof.
  intros Hrole Hnone Hmcq Htheory not_found.
  pose proof (get_test_by_id_unknown s test_id Hnone) as Hget.
  repeat split.
  - unfold routes_test.get_test, bind. by rewrite Hget.
  - unfold routes_test.get_test_stats, bind. by rewrite Hget.
  - unfold routes_question.get_questions_by_test, bind. by rewrite Hget.
  - unfold routes_test.update_test, bind.
    by rewrite (require_role_ok _ _ _ Hrole), Hget.
  - unfold routes_test.publish_test, bind.
    by rewrite (require_role_ok _ _ _ Hrole), Hget.
  - unfold routes_test.unpublish_test, bind.
    by rewrite (require_role_ok _ _ _ Hrole), Hget.
  - unfold routes_test.delete_test, bind.
    by rewrite (require_role_ok _ _ _ Hrole), Hget.
  - unfold routes_question.create_mcq_question, bind.
    by rewrite (require_role_ok _ _ _ Hrole), Hmcq, Hget.
  - unfold routes_question.create_theory_question, bind.
    by rewrite (require_role_ok _ _ _ Hrole), Htheory, Hget.
Qed.

(** X11: for an id that no question row has, reading the question and, for
    an institution, each of its updates and its delete answer 404 before
    anything is written. *)
Theorem unknown_question_is_not_found (s : store) (question_id : UUID)
    (current_user : principal) (u : QuestionUpdate)
    (u_mcq : MCQOptionUpdate) (u_theory : TheoryDetailsUpdate) :
  p_role current_user = "institution" →
  (∀ r, r ∈ table s "questions" → r !! "id" ≠ Some (VStr question_id)) →
  let not_found {T} : outcome T * store :=
    (Raise (HTTPException 404 "Question not found!"), s) in
  routes_question.get_question question_id s = not_found
  ∧ routes_question.update_question question_id u current_user s = not_found
  ∧ routes_question.update_mcq_options question_id u_mcq current_user s
    = not_found
  ∧ routes_question.update_theory_details question_id u_theory current_user s
    = not_found
  ∧ routes_question.delete_question question_id current_user s = not_found.
Proof.
  intros Hrole Hnone not_found.
  pose proof (get_question_by_id_unknown s question_id Hnone) as Hget.
  repeat split.
  - unfold routes_question.get_question, bind. by rewrite Hget.
  - unfold routes_question.update_question, bind.
    by rewrite (require_role_ok _ _ _ Hrole), Hget.
  - unfold routes_question.update_mcq_options, bind.
    by rewrite (require_role_ok _ _ _ Hrole), Hget.
  - unfold routes_question.update_theory_details, bind.
    by rewrite (require_role_ok _ _ _ Hrole), Hget.
  - unfold routes_question.delete_question, bind.
    by rewrite (require_role_ok _ _ _ Hrole), Hget.
Qed.

Lemma unknown_test_is_not_found_witness :
  p_role institution_u2 = "institution"
  ∧ (∀ r, r ∈ table sample_store "tests" → r !! "id" ≠ Some (VStr "t9"))
  ∧ routes_test.get_test "t9" sample_store
    = (Raise (HTTPException 404 "Test not found!"), sample_store)
  ∧ routes_test.get_test_stats "t9" sample_store
    = (Raise (HTTPException 404 "Test not found!"), sample_store)
  ∧ routes_question.get_questions_by_test "t9" (Some MCQ) sample_store
    = (Raise (HTTPException 404 "Test not found!"), sample_store)
  ∧ routes_test.update_test "t9" (publish_update true) institution_u2
      sample_store
    = (Raise (HTTPException 404 "Test not found!"), sample_store)
  ∧ routes_test.publish_test "t9" institution_u2 sample_store
    = (Raise (HTTPException 404 "Test not found!"), sample_store)
  ∧ routes_test.unpublish_test "t9" institution_u2 sample_store
    = (Raise (HTTPException 404 "Test not found!"), sample_store)
  ∧ routes_test.delete_test "t9" institution_u2 sample_store
    = (Raise (HTTPException 404 "Test not found!"), sample_store)
  ∧ routes_question.create_mcq_question (mcq_for "t9") institution_u2
      sample_store
    = (Raise (HTTPException 404 "Test not found!"), sample_store)
  ∧ routes_question.create_theory_question (theory_for "t9") institution_u2
      sample_store
    = (Raise (HTTPException 404 "Test not found!"), sample_store).
Proof.
  assert (p_role institution_u2 = "institution") as Hrole by reflexivity.
  assert (∀ r, r ∈ table sample_store "tests" →
               r !! "id" ≠ Some (VStr "t9")) as Hnone.
  { intros r Hr. change (r ∈ [test_t1; test_t2]) in Hr.
    repeat (apply elem_of_cons in Hr as [->|Hr]);
      [discriminate.. | by apply not_elem_of_nil in Hr]. }
  exact (conj Hrole (conj Hnone
           (unknown_test_is_not_found sample_store "t9" institution_u2
              (publish_update true) (Some MCQ) (mcq_for "t9")
              (theory_for "t9") Hrole Hnone eq_refl eq_refl))).
Defined.

Lemma unknown_question_is_not_found_witness :
  p_role institution_u2 = "institution"
  ∧ (∀ r, r ∈ table sample_store "questions" →
          r !! "id" ≠ Some (VStr "q9"))
  ∧ routes_question.get_question "q9" sample_store
    = (Raise (HTTPException 404 "Question not found!"), sample_store)
  ∧ routes_question.update_question "q9" sample_QuestionUpdate
      institution_u2 sample_store
    = (Raise (HTTPException 404 "Question not found!"), sample_store)
  ∧ routes_question.update_mcq_options "q9" sample_MCQOptionUpdate
      institution_u2 sample_store
    = (Raise (HTTPException 404 "Question not found!"), sample_store)
  ∧ routes_question.update_theory_details "q9" sample_TheoryDetailsUpdate
      institution_u2 sample_store
    = (Raise (HTTPException 404 "Question not found!"), sample_store)
  ∧ routes_question.delete_question "q9" institution_u2 sample_store
    = (Raise (HTTPException 404 "Question not found!"), sample_store).
Proof.
  assert (p_role institution_u2 = "institution") as Hrole by reflexivity.
  assert (∀ r, r ∈ table sample_store "questions" →
               r !! "id" ≠ Some (VStr "q9")) as Hnone.
  { intros r Hr. change (r ∈ [question_q1; question_q2]) in Hr.
    repeat (apply elem_of_cons in Hr as [->|Hr]);
      [discriminate.. | by apply not_elem_of_nil in Hr]. }
  exact (conj Hrole (conj Hnone
           (unknown_question_is_not_found sample_store "q9" institution_u2
              sample_QuestionUpdate sample_MCQOptionUpdate
              sample_TheoryDetailsUpdate Hrole Hnone))).
Defined.

(** ** Questions: the listing of a test *)

Lemma value_leb_total (a b : value) :
  value_leb a b = true ∨ value_leb b a = true.
Proof.
  destruct a, b; cbn; auto.
  - destruct b, b0; auto.
  - destruct (Z.leb_spec z z0); [auto|]. right. apply Z.leb_le. lia.
  - apply String.leb_total.
Qed.

#[local] Instance row_le_total column desc : Total (row_le column desc).
Proof.
  intros r1 r2. unfold row_le. destruct desc.
  - destruct (value_leb_total (dict_get column r2) (dict_get column r1)); auto.
  - apply value_leb_total.
Qed.

Lemma with_details_listed (rows : list row) (s : store) :
  (∀ q, q ∈ rows →
        is_Some (q !! "question_type") ∧ ∃ i, q !! "id" = Some (VStr i)) →
  question_service.with_details rows s = (Ok (listed_question s <$> rows), s).
Proof.
  induction rows as [|q rows IH]; intros Hkeys; [done|].
  destruct (Hkeys q (list_elem_of_here _ _)) as [[ty Hty] [i Hi]].
  specialize (IH (λ q' Hq', Hkeys q' (list_elem_of_further _ _ _ Hq'))).
  cbn [question_service.with_details fmap list_fmap].
  unfold bind at 1, subscript at 1. rewrite Hty. unfold ret at 1.
  unfold listed_question at 1. rewrite Hty, Hi. unfold assembled.
  repeat case_bool_decide; unfold bind at 1;
    try (unfold bind at 1, subscript at 1; rewrite Hi; unfold ret at 1;
         unfold bind at 1, execute at 1; query_norm; unfold ranged, ordered;
         rewrite fmap_project_star; unfold ret at 1);
    try (unfold ret at 1);
    unfold bind; rewrite IH; reflexivity.
Qed.

(** X12: when every question row has a type and an id, the listing of a
    test's questions succeeds without writing and returns exactly the
    rows of [questions] that belong to the test, are active and, when a
    type is given, have that type; they come ordered by [order_no], and
    each carries its detail row as the lookup by its id nests it. *)
Theorem get_questions_by_test_listing (s : store) (test_id : UUID)
    (question_type : option string) :
  (∀ q, q ∈ table s "questions" →
        is_Some (q !! "question_type") ∧ ∃ i, q !! "id" = Some (VStr i)) →
  question_type ≠ Some "" →
  ∃ rows,
    question_service.get_questions_by_test test_id question_type s
      = (Ok (listed_question s <$> rows), s)
    ∧ Sorted (row_le "order_no" false) rows
    ∧ rows ≡ₚ filter (λ r, question_filter test_id question_type r = true)
                (table s "questions").
Proof.
  intros Hkeys Hty.
  set (hit := filter (λ r, question_filter test_id question_type r = true)
                (table s "questions")).
  exists (merge_sort (row_le "order_no" false) hit).
  split; [|split].
  - unfold question_service.get_questions_by_test.
    assert (∀ fs,
              (∀ r, matches fs r = question_filter test_id question_type r) →
              (response <- Query "questions" (Select ["*"] false) fs None None
                             |> order "order_no" false |> execute ;;
               question_service.with_details (data response)) s
              = (Ok (listed_question s
                       <$> merge_sort (row_le "order_no" false) hit), s))
      as Hrun.
    { intros fs Hfs. unfold bind, execute. query_norm.
      rewrite (filter_ext_bool _ _ _ Hfs). fold hit.
      rewrite fmap_project_star. unfold ranged, ordered.
      apply with_details_listed. intros q Hq. apply Hkeys.
      rewrite merge_sort_Permutation in Hq. subst hit.
      by apply list_elem_of_filter in Hq as [_ ?]. }
    destruct question_type as [x|];
      rewrite ?truthy_str_Some by done; cbn [truthy_str from_option id];
      query_norm; apply Hrun; intros r;
      unfold matches, question_filter; cbn [forallb from_option];
      rewrite ?holds_str, ?holds_bool;
      repeat (destruct (bool_decide _)); reflexivity.
  - apply Sorted_merge_sort. apply _.
  - apply merge_sort_Permutation.
Qed.

Lemma get_questions_by_test_listing_witness :
  (∀ q, q ∈ table sample_store "questions" →
        is_Some (q !! "question_type") ∧ ∃ i, q !! "id" = Some (VStr i))
  ∧ (None : option string) ≠ Some ""
  ∧ ∃ rows,
      question_service.get_questions_by_test "t1" None sample_store
        = (Ok (listed_question sample_store <$> rows), sample_store)
      ∧ Sorted (row_le "order_no" false) rows
      ∧ rows ≡ₚ filter (λ r, question_filter "t1" None r = true)
                  (table sample_store "questions").
Proof.
  assert (∀ q, q ∈ table sample_store "questions" →
               is_Some (q !! "question_type")
               ∧ ∃ i, q !! "id" = Some (VStr i)) as Hkeys.
  { intros q Hq. change (q ∈ [question_q1; question_q2]) in Hq.
    repeat (apply elem_of_cons in Hq as [->|Hq]);
      [split; by eexists.. | by apply not_elem_of_nil in Hq]. }
  assert ((None : option string) ≠ Some "") as Hty by discriminate.
  exact (conj Hkeys (conj Hty
           (get_questions_by_test_listing sample_store "t1" None
              Hkeys Hty))).
Defined.

(** ** Questions: the soft delete *)

Lemma rows_with_rewritten (body : row) (sel : row → bool) column (x : string)
    (rows : list row) :
  body !! column = None →
  rows_with column (VStr x)
    ((λ r : row, if sel r then body ∪ r else r) <$> rows)
  = (λ r : row, if sel r then body ∪ r else r)
      <$> rows_with column (VStr x) rows.
Proof.
  intros Hb. unfold rows_with. induction rows as [|r rows IH]; [done|].
  cbn [fmap list_fmap]. rewrite !filter_cons. cbn beta.
  assert (matches [(column, VStr x)] (if sel r then body ∪ r else r)
          = matches [(column, VStr x)] r) as ->.
  { destruct (sel r); [by apply matches_one_union | done]. }
  destruct (matches [(column, VStr x)] r) eqn:E.
  - rewrite !decide_True by done. cbn [fmap list_fmap]. f_equal. apply IH.
  - rewrite !decide_False by (by rewrite ?E). apply IH.
Qed.

Lemma delete_question_run (s : store) (question_id : UUID) :
  question_service.delete_question question_id s =
  (Ok (bool_decide
         (0 < length (rows_with "id" (VStr question_id)
                        (table s "questions")))%nat),
   set_table s "questions"
     ((λ r : row, if matches [("id", VStr question_id)] r
                  then {["is_active" := VBool false]} ∪ r else r)
        <$> table s "questions")).
Proof.
  unfold question_service.delete_question, bind. query_norm.
  rewrite execute_flag. cbn [data]. by rewrite length_fmap.
Qed.

Lemma get_questions_by_test_member (s : store) (test_id : UUID)
    (question_type : option string) (x : question) :
  x ∈ questions_of
        (question_service.get_questions_by_test test_id question_type s).1 →
  base x ∈ table s "questions".
Proof.
  unfold question_service.get_questions_by_test.
  set (q := if truthy_str question_type then _ else _).
  assert (q_table q = "questions" ∧ q_op q = Select ["*"] false)
    as (Ht & Hop).
  { subst q. by destruct (truthy_str question_type). }
  unfold bind, order.
  pose proof (select_matches "questions" false (q_filters q)
                (Some ("order_no", false)) (q_range q) s (base x)) as Hsel.
  unfold execute in Hsel |- *.
  cbn [q_op q_table q_filters q_order q_range fst data] in Hsel |- *.
  rewrite Ht, Hop. cbn [fst data] in Hsel |- *.
  match goal with
  | |- context [question_service.with_details ?l s] =>
      destruct (with_details_run l s) as (o & -> & Ho)
  end.
  cbn [fst]. destruct o as [qs|e]; cbn [questions_of];
    [|by intros H%not_elem_of_nil].
  intros Hx. assert (base x ∈ base <$> qs) as Hb
    by (apply list_elem_of_fmap; eauto).
  rewrite Ho in Hb. by apply Hsel in Hb as [H _].
Qed.

(** X13: deleting an existing question through the route writes nothing
    but [is_active = false] into the question's row: every row of
    [questions] stays in place and no other table changes, so the option
    and detail rows are kept.  Afterwards the lookup by id still returns
    the question, inactive, with the same detail row; the question count
    of every test is what it was; and no listing of a test's questions
    shows a row with that id. *)
Theorem delete_question_is_soft (s : store) (q : row) (question_id : UUID)
    (ty : value) (current_user : principal) :
  p_role current_user = "institution" →
  q ∈ table s "questions" →
  q !! "id" = Some (VStr question_id) →
  (∀ r, r ∈ table s "questions" → r !! "id" = Some (VStr question_id) →
        r = q) →
  q !! "question_type" = Some ty →
  ∃ s',
    routes_question.delete_question question_id current_user s
      = (Ok {| success := true; message := "Question deleted!";
               api_data := Some {["deleted_id" := VStr question_id]} |}, s')
    ∧ partial_write "id" question_id {["is_active" := VBool false]}
        (table s "questions") (table s' "questions")
    ∧ (∀ name, name ≠ "questions" → table s' name = table s name)
    ∧ question_service.get_question_by_id question_id s
      = (Ok (Some (assembled s question_id q ty)), s)
    ∧ question_service.get_question_by_id question_id s'
      = (Ok (Some (assembled s question_id
                     (<["is_active" := VBool false]> q) ty)), s')
    ∧ (∀ test_id, (test_service.get_test_by_id test_id s').1
                  = (test_service.get_test_by_id test_id s).1)
    ∧ (∀ test_id question_type x,
         x ∈ questions_of
               (question_service.get_questions_by_test test_id question_type
                  s').1 →
         base x !! "id" ≠ Some (VStr question_id)).
Proof.
  intros Hrole Hin Hid Huniq Hty.
  pose proof (head_rows_with_unique _ _ _ _ Hin Hid Huniq) as Hhead.
  destruct (rows_with "id" (VStr question_id) (table s "questions"))
    as [|q0 l] eqn:E; [done|].
  injection Hhead as ->.
  set (upd := λ r : row, if matches [("id", VStr question_id)] r
                         then {["is_active" := VBool false]} ∪ r else r).
  assert (head (rows_with "id" (VStr question_id) (table s "questions"))
          = Some q) as Hhead by (by rewrite E).
  assert (question_service.delete_question question_id s =
          (Ok true, set_table s "questions" (upd <$> table s "questions")))
    as Hrun.
  { by rewrite delete_question_run, E. }
  eexists. split; [|split; [|split; [|split; [|split; [|split]]]]].
  - unfold routes_question.delete_question, bind.
    rewrite (require_role_ok _ _ _ Hrole).
    rewrite (get_question_by_id_ok _ _ _ _ Hhead Hty).
    rewrite (truthy_assembled _ _ _ _ Hty). cbn [negb].
    by rewrite Hrun.
  - rewrite table_set_table_eq. apply partial_write_update.
    + intros k Hk. apply lookup_singleton_None.
      by apply lookup_singleton_None in Hk.
    + intros k v [-> <-]%lookup_singleton_Some. apply lookup_singleton_eq.
  - intros name Hname. by rewrite table_set_table_ne.
  - by apply get_question_by_id_ok.
  - rewrite get_question_by_id_run, table_set_table_eq. subst upd.
    rewrite rows_with_updated by (by apply lookup_singleton_ne).
    rewrite E. cbn [fmap list_fmap head].
    rewrite <- insert_union_singleton_l.
    rewrite lookup_insert_ne by (apply String.eqb_neq; reflexivity).
    rewrite Hty. unfold assembled.
    by rewrite !table_set_table_ne by (apply String.eqb_neq; reflexivity).
  - intros test_id. rewrite !get_test_by_id_run. cbn [fst].
    rewrite table_set_table_eq.
    rewrite table_set_table_ne by (apply String.eqb_neq; reflexivity).
    subst upd.
    rewrite (rows_with_rewritten _ (matches [("id", VStr question_id)]))
      by (by apply lookup_singleton_ne).
    by rewrite length_fmap.
  - intros test_id question_type x Hx Hxid.
    pose proof (get_questions_by_test_active _ _ _ _ Hx) as Hactive.
    apply get_questions_by_test_member in Hx.
    rewrite table_set_table_eq in Hx.
    apply list_elem_of_fmap in Hx as (r0 & Hr0 & _). subst upd.
    cbn beta in Hr0. rewrite Hr0 in Hactive, Hxid.
    destruct (matches [("id", VStr question_id)] r0) eqn:Hm.
    + rewrite lookup_union_Some_l with (x := VBool false) in Hactive;
        [done | apply lookup_singleton_eq].
    + apply matches_one_str in Hxid. congruence.
Qed.

Lemma delete_question_is_soft_witness :
  p_role institution_u3 = "institution"
  ∧ question_q1 ∈ table sample_store "questions"
  ∧ question_q1 !! "id" = Some (VStr "q1")
  ∧ (∀ r, r ∈ table sample_store "questions" →
          r !! "id" = Some (VStr "q1") → r = question_q1)
  ∧ question_q1 !! "question_type" = Some (VStr "mcq")
  ∧ ∃ s',
      routes_question.delete_question "q1" institution_u3 sample_store
        = (Ok {| success := true; message := "Question deleted!";
                 api_data := Some {["deleted_id" := VStr "q1"]} |}, s')
      ∧ partial_write "id" "q1" {["is_active" := VBool false]}
          (table sample_store "questions") (table s' "questions")
      ∧ (∀ name, name ≠ "questions" →
                 table s' name = table sample_store name)
      ∧ question_service.get_question_by_id "q1" sample_store
        = (Ok (Some (assembled sample_store "q1" question_q1 (VStr "mcq"))),
           sample_store)
      ∧ question_service.get_question_by_id "q1" s'
        = (Ok (Some (assembled sample_store "q1"
                       (<["is_active" := VBool false]> question_q1)
                       (VStr "mcq"))), s')
      ∧ (∀ test_id, (test_service.get_test_by_id test_id s').1
                    = (test_service.get_test_by_id test_id sample_store).1)
      ∧ (∀ test_id question_type x,
           x ∈ questions_of
                 (question_service.get_questions_by_test test_id
                    question_type s').1 →
           base x !! "id" ≠ Some (VStr "q1")).
Proof.
  assert (p_role institution_u3 = "institution") as Hrole by reflexivity.
  assert (question_q1 ∈ table sample_store "questions") as Hin.
  { change (question_q1 ∈ [question_q1; question_q2]).
    apply list_elem_of_here. }
  assert (question_q1 !! "id" = Some (VStr "q1")) as Hid by reflexivity.
  assert (∀ r, r ∈ table sample_store "questions" →
               r !! "id" = Some (VStr "q1") → r = question_q1) as Huniq.
  { intros r Hr Hk. change (r ∈ [question_q1; question_q2]) in Hr.
    repeat (apply elem_of_cons in Hr as [->|Hr]);
      [reflexivity | discriminate | by apply not_elem_of_nil in Hr]. }
  assert (question_q1 !! "question_type" = Some (VStr "mcq")) as Hty
    by reflexivity.
  exact (conj Hrole (conj Hin (conj Hid (conj Huniq (conj Hty
           (delete_question_is_soft sample_store question_q1 "q1"
              (VStr "mcq") institution_u3 Hrole Hin Hid Huniq Hty)))))).
Defined.

(** ** Questions: partial updates *)

Lemma partial_write_keeps column (x : string) (payload : row)
    (columns : list string) (before after : list row) :
  (∀ k, k ∈ columns → payload !! k = None) →
  partial_write column x payload before after →
  keeps_columns columns before after.
Proof.
  intros Hfree [_ H] i r Hi.
  destruct (H i r Hi) as (r' & Hr' & _ & Hkeep & _).
  exists r'. split; [done|]. intros k Hk. by apply Hkeep, Hfree.
Qed.

(** The body that reaches the store for a dictionary [d] made from the
    dumped [payload]. *)
Lemma body_of_dict (payload d : row) :
  (∀ k, payload !! k = None → d !! k = None) →
  (∀ k v, payload !! k = Some v →
          d !! k ≫= json_value = Some (stored_form v)) →
  ∃ body, json_encode d = Some body
          ∧ (∀ k, payload !! k = None → body !! k = None)
          ∧ (∀ k v, payload !! k = Some v →
                    body !! k = Some (stored_form v)).
Proof.
  intros Habsent Hpresent. eexists. split; [|split].
  - apply json_encode_Some. intros k v' Hk.
    destruct (payload !! k) as [v|] eqn:E.
    + specialize (Hpresent k v E). rewrite Hk in Hpresent. cbn in Hpresent.
      by rewrite Hpresent.
    + by rewrite (Habsent k E) in Hk.
  - intros k Hk. by rewrite lookup_omap, (Habsent k Hk).
  - intros k v Hk. rewrite lookup_omap. by apply Hpresent.
Qed.

Lemma get_question_by_id_store (question_id : UUID) (s : store) :
  (question_service.get_question_by_id question_id s).2 = s.
Proof. by rewrite get_question_by_id_run. Qed.

Lemma QuestionUpdate_item (u : QuestionUpdate) (k : string) (v : value) :
  (k, Some v) ∈ QuestionUpdate_fields u →
  json_value v = Some (stored_form v).
Proof.
  intros H. unfold QuestionUpdate_fields in H. field_cases H.
  - destruct (qu_question_text u); by simplify_eq/=.
  - destruct (qu_marks u); by simplify_eq/=.
  - destruct (qu_order_no u); by simplify_eq/=.
  - destruct (qu_is_active u); by simplify_eq/=.
Qed.

Lemma MCQOptionUpdate_item (u : MCQOptionUpdate) (k : string) (v : value) :
  (k, Some v) ∈ MCQOptionUpdate_fields u →
  json_value v = Some (stored_form v)
  ∧ (k = "correct_option" → ∃ n val, v = VEnum n val).
Proof.
  intros H. unfold MCQOptionUpdate_fields in H. field_cases H.
  - destruct (mu_option_a u); by simplify_eq/=.
  - destruct (mu_option_b u); by simplify_eq/=.
  - destruct (mu_option_c u); by simplify_eq/=.
  - destruct (mu_option_d u); by simplify_eq/=.
  - destruct (mu_correct_option u); simplify_eq/=. split; eauto.
  - destruct (mu_explanation u); by simplify_eq/=.
Qed.

Lemma TheoryDetailsUpdate_item (u : TheoryDetailsUpdate) (k : string)
    (v : value) :
  (k, Some v) ∈ TheoryDetailsUpdate_fields u →
  json_value v = Some (stored_form v) ∧ stored_form v = v.
Proof.
  intros H. unfold TheoryDetailsUpdate_fields in H. field_cases H.
  - destruct (td_word_limit u); by simplify_eq/=.
  - destruct (td_sample_answer u); by simplify_eq/=.
  - destruct (td_keywords u); by simplify_eq/=.
Qed.

Lemma update_question_store (s : store) (question_id : UUID)
    (u : QuestionUpdate) :
  let payload := model_dump (QuestionUpdate_fields u) in
  payload ≠ ∅ →
  ∃ body,
    (∀ k, payload !! k = None → body !! k = None)
    ∧ (∀ k v, payload !! k = Some v → body !! k = Some (stored_form v))
    ∧ (question_service.update_question question_id u s).2 =
      set_table s "questions"
        ((λ r : row, if matches [("id", VStr question_id)] r
                     then body ∪ r else r) <$> table s "questions").
Proof.
  intros payload Hne.
  destruct (body_of_dict payload payload) as (body & Hbody & Ha & Hp);
    [done | |].
  { intros k v Hk. rewrite Hk. cbn.
    eapply QuestionUpdate_item, model_dump_lookup_Some, Hk. }
  exists body. split; [done|]. split; [done|].
  unfold question_service.update_question. fold payload.
  rewrite bool_decide_eq_false_2 by done.
  unfold bind. query_norm. rewrite (execute_update _ _ _ _ _ Hbody).
  cbn [data].
  destruct (_ <$> filter _ (table s "questions")); [done|].
  apply get_question_by_id_store.
Qed.

Lemma update_mcq_options_store (s : store) (question_id : UUID)
    (u : MCQOptionUpdate) :
  let payload := model_dump (MCQOptionUpdate_fields u) in
  payload ≠ ∅ →
  ∃ body,
    (∀ k, payload !! k = None → body !! k = None)
    ∧ (∀ k v, payload !! k = Some v → body !! k = Some (stored_form v))
    ∧ (question_service.update_mcq_options question_id u s).2 =
      set_table s "mcq_options"
        ((λ r : row, if matches [("question_id", VStr question_id)] r
                     then body ∪ r else r) <$> table s "mcq_options").
Proof.
  intros payload Hne. unfold question_service.update_mcq_options.
  fold payload.
  set (d := match payload !! "correct_option" with
            | Some v => _
            | None => payload
            end).
  assert (∀ k, d !! k =
               if decide (k = "correct_option")
               then stored_form <$> payload !! k else payload !! k) as Hd.
  { intros k. subst d.
    destruct (payload !! "correct_option") as [v|] eqn:E.
    - rewrite lookup_insert. case_decide as Hk.
      + subst k. rewrite decide_True, E by done.
        apply model_dump_lookup_Some, MCQOptionUpdate_item in E
          as [_ (n & val & ->)]; done.
      + by rewrite decide_False by done.
    - case_decide as Hk; [subst k; by rewrite E | done]. }
  destruct (body_of_dict payload d) as (body & Hbody & Ha & Hp).
  { intros k Hk. rewrite Hd, Hk. by case_decide. }
  { intros k v Hk. rewrite Hd, Hk.
    apply model_dump_lookup_Some, MCQOptionUpdate_item in Hk
      as [Hv Henum].
    case_decide as Hc; [|done].
    destruct (Henum Hc) as (n & val & ->). done. }
  exists body. split; [done|]. split; [done|].
  assert (d ≠ ∅) as Hdne.
  { intros Hempty. apply Hne. apply map_eq. intros k.
    pose proof (Hd k) as Hk. rewrite Hempty, !lookup_empty in *.
    case_decide; [by destruct (payload !! k) | done]. }
  unfold bind at 1. rewrite bool_decide_eq_false_2 by done.
  unfold bind at 1. query_norm.
  rewrite (execute_update _ _ _ _ _ Hbody). unfold ret at 1.
  apply get_question_by_id_store.
Qed.

Lemma update_theory_details_run (s : store) (question_id : UUID)
    (u : TheoryDetailsUpdate) :
  let payload := model_dump (TheoryDetailsUpdate_fields u) in
  payload ≠ ∅ →
  ∃ body,
    (∀ k, payload !! k = None → body !! k = None)
    ∧ (∀ k v, payload !! k = Some v → body !! k = Some (stored_form v))
    ∧ question_service.update_theory_details question_id u s =
      question_service.get_question_by_id question_id
        (set_table s "theory_details"
           ((λ r : row, if matches [("question_id", VStr question_id)] r
                        then body ∪ r else r) <$> table s "theory_details")).
Proof.
  intros payload Hne.
  destruct (body_of_dict payload payload) as (body & Hbody & Ha & Hp);
    [done | |].
  { intros k v Hk. rewrite Hk. cbn.
    eapply TheoryDetailsUpdate_item, model_dump_lookup_Some, Hk. }
  exists body. split; [done|]. split; [done|].
  unfold question_service.update_theory_details. fold payload.
  unfold bind at 1. rewrite bool_decide_eq_false_2 by done.
  unfold bind at 1. query_norm.
  by rewrite (execute_update _ _ _ _ _ Hbody).
Qed.

(** X14: the three question updates are partial writes.  The base update
    writes the present fields of its payload into the [questions] row
    with the given id, the options update into the [mcq_options] row of
    the question (the correct option as its letter), the details update
    into the [theory_details] row of the question; each keeps every other
    row and every absent field, and changes no other table.  No base
    update changes the id, the test or the type of a question, and no
    detail update changes the question a detail row belongs to. *)
Theorem question_update_frame (s : store) (question_id : UUID)
    (qu : QuestionUpdate) (mu : MCQOptionUpdate) (tu : TheoryDetailsUpdate) :
  (let after := (question_service.update_question question_id qu s).2 in
   partial_write "id" question_id (model_dump (QuestionUpdate_fields qu))
     (table s "questions") (table after "questions")
   ∧ keeps_columns ["id"; "test_id"; "question_type"]
       (table s "questions") (table after "questions")
   ∧ ∀ name, name ≠ "questions" → table after name = table s name)
  ∧ (let after :=
       (question_service.update_mcq_options question_id mu s).2 in
     partial_write "question_id" question_id
       (model_dump (MCQOptionUpdate_fields mu))
       (table s "mcq_options") (table after "mcq_options")
     ∧ keeps_columns ["id"; "question_id"]
         (table s "mcq_options") (table after "mcq_options")
     ∧ ∀ name, name ≠ "mcq_options" → table after name = table s name)
  ∧ (let after :=
       (question_service.update_theory_details question_id tu s).2 in
     partial_write "question_id" question_id
       (model_dump (TheoryDetailsUpdate_fields tu))
       (table s "theory_details") (table after "theory_details")
     ∧ keeps_columns ["id"; "question_id"]
         (table s "theory_details") (table after "theory_details")
     ∧ ∀ name, name ≠ "theory_details" → table after name = table s name).
Proof.
  assert (∀ column payload name after fields (columns : list string),
            payload = model_dump fields →
            (∀ k, k ∈ columns → k ∉ fields.*1) →
            (payload = ∅ → after = s) →
            (payload ≠ ∅ →
             ∃ body,
               (∀ k, payload !! k = None → body !! k = None)
               ∧ (∀ k v, payload !! k = Some v →
                         body !! k = Some (stored_form v))
               ∧ after = set_table s name
                   ((λ r : row, if matches [(column, VStr question_id)] r
                                then body ∪ r else r) <$> table s name)) →
            partial_write column question_id payload
              (table s name) (table after name)
            ∧ keeps_columns columns (table s name) (table after name)
            ∧ ∀ name', name' ≠ name → table after name' = table s name')
    as Hframe.
  { intros column payload name after fields columns -> Hcols Hempty Hwrite.
    assert (partial_write column question_id (model_dump fields)
              (table s name) (table after name)
            ∧ ∀ name', name' ≠ name → table after name' = table s name')
      as [Hpw Hother].
    { destruct (decide (model_dump fields = ∅)) as [E|E].
      - rewrite (Hempty E), E. split; [apply partial_write_refl | done].
      - destruct (Hwrite E) as (body & Ha & Hp & ->). split.
        + rewrite table_set_table_eq. by apply partial_write_update.
        + intros name' Hname. by rewrite table_set_table_ne. }
    split; [done|]. split; [|done].
    eapply partial_write_keeps; [|exact Hpw].
    intros k Hk. by apply model_dump_lookup_None, Hcols. }
  split; [|split]; cbn zeta.
  - eapply Hframe; [reflexivity | | |].
    + intros k Hk.
      repeat (apply elem_of_cons in Hk as [->|Hk]);
        [not_a_field.. | by apply not_elem_of_nil in Hk].
    + intros E. unfold question_service.update_question.
      rewrite bool_decide_eq_true_2 by done. apply get_question_by_id_store.
    + apply update_question_store.
  - eapply Hframe; [reflexivity | | |].
    + intros k Hk.
      repeat (apply elem_of_cons in Hk as [->|Hk]);
        [not_a_field.. | by apply not_elem_of_nil in Hk].
    + intros E. unfold question_service.update_mcq_options. rewrite E.
      rewrite lookup_empty. unfold bind at 1.
      rewrite bool_decide_eq_true_2 by done. unfold ret at 1.
      apply get_question_by_id_store.
    + apply update_mcq_options_store.
  - eapply Hframe; [reflexivity | | |].
    + intros k Hk.
      repeat (apply elem_of_cons in Hk as [->|Hk]);
        [not_a_field.. | by apply not_elem_of_nil in Hk].
    + intros E. unfold question_service.update_theory_details.
      unfold bind at 1. rewrite bool_decide_eq_true_2 by done.
      unfold ret at 1. apply get_question_by_id_store.
    + intros E.
      destruct (update_theory_details_run s question_id tu E)
        as (body & Ha & Hp & Hrun).
      exists body. by rewrite Hrun, get_question_by_id_store.
Qed.

(** ** Questions: creation through the routes *)

Lemma rows_with_app column (v : value) (l1 l2 : list row) :
  rows_with column v (l1 ++ l2) = rows_with column v l1 ++ rows_with column v l2.
Proof. unfold rows_with. apply filter_app. Qed.

Lemma rows_with_hit column (x : string) (r : row) :
  r !! column = Some (VStr x) → rows_with column (VStr x) [r] = [r].
Proof.
  intros H. unfold rows_with. rewrite filter_cons, decide_True; [done|].
  by apply matches_one_str.
Qed.

(** X15: when the owner of an existing test creates a theory question for
    it and the store generates a fresh id, the route answers with the
    question under that id, of type [theory] and of that test, with its
    detail row holding the word limit, the sample answer and the keywords
    as submitted (null where none was given).  The lookup by the new id
    returns the very same question, and the question count of the test is
    one more than before. *)
Theorem create_theory_question_by_owner (s : store)
    (question_data : TheoryQuestionCreate) (question_id : UUID) (t : row)
    (current_user : principal) :
  p_role current_user = "institution" →
  head (rows_with "id" (VStr (tq_test_id question_data)) (table s "tests"))
    = Some t →
  t !! "created_by" = Some (VStr (p_id current_user)) →
  generated s "questions" (table s "questions") !! "id"
    = Some (VStr question_id) →
  (∀ r, r ∈ table s "questions" → r !! "id" ≠ Some (VStr question_id)) →
  (∀ r, r ∈ table s "theory_details" →
        r !! "question_id" ≠ Some (VStr question_id)) →
  let submitted := tq_details question_data in
  ∃ created det s' (n : nat),
    routes_question.create_theory_question question_data current_user s
      = (Ok {| success := true; message := "Theory question created!";
               api_data := Some created |}, s')
    ∧ base created !! "id" = Some (VStr question_id)
    ∧ base created !! "test_id" = Some (VStr (tq_test_id question_data))
    ∧ base created !! "question_type" = Some (VStr "theory")
    ∧ options created = None
    ∧ details created = Some det
    ∧ det !! "question_id" = Some (VStr question_id)
    ∧ det !! "word_limit" = Some (VInt (word_limit submitted))
    ∧ det !! "sample_answer"
      = Some (from_option VStr VNull (sample_answer submitted))
    ∧ det !! "keywords" = Some (from_option VStrs VNull (keywords submitted))
    ∧ question_service.get_question_by_id question_id s'
      = (Ok (Some created), s')
    ∧ test_service.get_test_by_id (tq_test_id question_data) s
      = (Ok (Some (<["question_count" := VInt (Z.of_nat n)]> t)), s)
    ∧ test_service.get_test_by_id (tq_test_id question_data) s'
      = (Ok (Some (<["question_count" := VInt (Z.of_nat (S n))]> t)), s').
Proof.
  intros Hrole Ht Hby Hid Hfresh Hfresh_det submitted.
  set (test_id := tq_test_id question_data) in *.
  set (q_data := ({[ "test_id" := VStr test_id;
                     "question_type" := VStr "theory";
                     "question_text" := VStr (tq_question_text question_data);
                     "marks" := VInt (tq_marks question_data);
                     "order_no" := VInt (tq_order_no question_data) ]} : row)).
  assert (json_encode q_data = Some q_data) as Hq.
  { apply json_encode_plain. subst q_data.
    repeat (apply map_Forall_insert_2; [reflexivity|]).
    apply map_Forall_empty. }
  set (new := q_data ∪ generated s "questions" (table s "questions")).
  set (s1 := set_table s "questions" (table s "questions" ++ [new])).
  assert (new !! "id" = Some (VStr question_id)) as Hnew_id.
  { subst new. rewrite lookup_union_r; [done|]. subst q_data.
    lookup_display. }
  assert (new !! "question_type" = Some (VStr "theory")) as Hnew_ty.
  { subst new. apply lookup_union_Some_l. subst q_data. lookup_display. }
  assert (new !! "test_id" = Some (VStr test_id)) as Hnew_test.
  { subst new. apply lookup_union_Some_l. subst q_data. lookup_display. }
  set (detail_data :=
         ({[ "question_id" := VStr question_id;
             "word_limit" := VInt (word_limit submitted);
             "sample_answer" := from_option VStr VNull
                                  (sample_answer submitted);
             "keywords" := from_option VStrs VNull (keywords submitted) ]}
          : row)).
  assert (json_encode detail_data = Some detail_data) as Hd.
  { apply json_encode_plain. subst detail_data.
    apply map_Forall_insert_2; [reflexivity|].
    apply map_Forall_insert_2; [reflexivity|].
    apply map_Forall_insert_2; [by destruct (sample_answer submitted)|].
    apply map_Forall_singleton. by destruct (keywords submitted). }
  set (new_det := detail_data ∪ generated s1 "theory_details"
                                  (table s1 "theory_details")).
  set (s2 := set_table s1 "theory_details"
               (table s1 "theory_details" ++ [new_det])).
  assert (∀ k v, detail_data !! k = Some v → new_det !! k = Some v) as Hdet.
  { intros k v Hk. subst new_det. by apply lookup_union_Some_l. }
  assert (question_service.create_theory_question question_data s
          = (Ok (Some (Question new None (Some new_det))), s2)) as Hcreate.
  { unfold question_service.create_theory_question.
    fold submitted test_id q_data.
    unfold bind at 1. query_norm. rewrite (execute_insert _ _ _ _ Hq).
    cbn [data]. fold new s1.
    unfold bind at 1, subscript. rewrite Hnew_id. unfold ret at 1.
    fold detail_data.
    unfold bind at 1. query_norm. rewrite (execute_insert _ _ _ _ Hd).
    reflexivity. }
  assert (head (rows_with "id" (VStr question_id) (table s2 "questions"))
          = Some new) as Hhead.
  { subst s2 s1. rewrite table_set_table_ne, table_set_table_eq by done.
    by rewrite rows_with_fresh. }
  assert (head (rows_with "question_id" (VStr question_id)
                  (table s2 "theory_details")) = Some new_det) as Hhead_det.
  { subst s2. rewrite table_set_table_eq. subst s1.
    rewrite table_set_table_ne by done. rewrite rows_with_fresh; [done..|].
    apply Hdet. subst detail_data. lookup_display. }
  exists (Question new None (Some new_det)), new_det, s2,
         (length (rows_with "test_id" (VStr test_id) (table s "questions"))).
  split.
  { unfold routes_question.create_theory_question, bind.
    rewrite (require_role_ok _ _ _ Hrole). fold test_id.
    rewrite get_test_by_id_run, Ht. cbn [fmap option_fmap option_map].
    rewrite truthy_dict_insert, (not_owner_self _ _ _ Hby). cbn [negb].
    rewrite Hcreate. cbn [truthy_question base negb].
    rewrite bool_decide_eq_false_2; [done|].
    intros Hempty.
    pose proof (f_equal (λ m : row, m !! "id") Hempty) as Hlook.
    cbn beta in Hlook. rewrite Hnew_id, lookup_empty in Hlook.
    discriminate Hlook. }
  do 5 (split; [done|]).
  split; [apply Hdet; subst detail_data; lookup_display|].
  split; [apply Hdet; subst detail_data; lookup_display|].
  split; [apply Hdet; subst detail_data; lookup_display|].
  split; [apply Hdet; subst detail_data; lookup_display|].
  split; [|split].
  - rewrite (get_question_by_id_ok _ _ _ _ Hhead Hnew_ty).
    unfold assembled. rewrite bool_decide_eq_false_2 by done.
    rewrite bool_decide_eq_true_2 by done. by rewrite Hhead_det.
  - by rewrite get_test_by_id_run, Ht.
  - rewrite get_test_by_id_run. subst s2 s1.
    rewrite !(table_set_table_ne _ "theory_details")
      by (apply String.eqb_neq; reflexivity).
    rewrite table_set_table_eq.
    rewrite table_set_table_ne by (apply String.eqb_neq; reflexivity).
    rewrite Ht, rows_with_app, (rows_with_hit _ _ _ Hnew_test).
    rewrite length_app. cbn [length fmap option_fmap option_map].
    by rewrite Nat.add_1_r.
Qed.

Lemma create_theory_question_by_owner_witness :
  p_role institution_u2 = "institution"
  ∧ head (rows_with "id" (VStr (tq_test_id (theory_for "t1")))
            (table sample_store "tests")) = Some test_t1
  ∧ test_t1 !! "created_by" = Some (VStr (p_id institution_u2))
  ∧ generated sample_store "questions" (table sample_store "questions")
      !! "id" = Some (VStr "questions-2")
  ∧ (∀ r, r ∈ table sample_store "questions" →
          r !! "id" ≠ Some (VStr "questions-2"))
  ∧ (∀ r, r ∈ table sample_store "theory_details" →
          r !! "question_id" ≠ Some (VStr "questions-2"))
  ∧ ∃ created det s' (n : nat),
      routes_question.create_theory_question (theory_for "t1")
        institution_u2 sample_store
        = (Ok {| success := true; message := "Theory question created!";
                 api_data := Some created |}, s')
      ∧ base created !! "id" = Some (VStr "questions-2")
      ∧ base created !! "test_id" = Some (VStr "t1")
      ∧ base created !! "question_type" = Some (VStr "theory")
      ∧ options created = None
      ∧ details created = Some det
      ∧ det !! "question_id" = Some (VStr "questions-2")
      ∧ det !! "word_limit" = Some (VInt 300)
      ∧ det !! "sample_answer" = Some VNull
      ∧ det !! "keywords" = Some (VStrs ["sine"; "triangle"])
      ∧ question_service.get_question_by_id "questions-2" s'
        = (Ok (Some created), s')
      ∧ test_service.get_test_by_id "t1" sample_store
        = (Ok (Some (<["question_count" := VInt (Z.of_nat n)]> test_t1)),
           sample_store)
      ∧ test_service.get_test_by_id "t1" s'
        = (Ok (Some (<["question_count" := VInt (Z.of_nat (S n))]> test_t1)),
           s').
Proof.
  assert (p_role institution_u2 = "institution") as Hrole by reflexivity.
  assert (head (rows_with "id" (VStr (tq_test_id (theory_for "t1")))
                  (table sample_store "tests")) = Some test_t1) as Ht
    by reflexivity.
  assert (test_t1 !! "created_by" = Some (VStr (p_id institution_u2)))
    as Hby by reflexivity.
  assert (generated sample_store "questions"
            (table sample_store "questions") !! "id"
          = Some (VStr "questions-2")) as Hid by reflexivity.
  assert (∀ r, r ∈ table sample_store "questions" →
               r !! "id" ≠ Some (VStr "questions-2")) as Hfresh.
  { intros r Hr. change (r ∈ [question_q1; question_q2]) in Hr.
    repeat (apply elem_of_cons in Hr as [->|Hr]);
      [discriminate.. | by apply not_elem_of_nil in Hr]. }
  assert (∀ r, r ∈ table sample_store "theory_details" →
               r !! "question_id" ≠ Some (VStr "questions-2")) as Hfresh_det.
  { intros r Hr. change (r ∈ [details_q2]) in Hr.
    repeat (apply elem_of_cons in Hr as [->|Hr]);
      [discriminate.. | by apply not_elem_of_nil in Hr]. }
  exact (conj Hrole (conj Ht (conj Hby (conj Hid (conj Hfresh
           (conj Hfresh_det
              (create_theory_question_by_owner sample_store (theory_for "t1")
                 "questions-2" test_t1 institution_u2
                 Hrole Ht Hby Hid Hfresh Hfresh_det))))))).
Defined.

(** X16: for a test whose row records the creator [owner], an institution
    principal with another id gets 403 from both question creation
    routes, and nothing is stored: no question row and no detail row. *)
Theorem question_creation_forbidden_for_other_institution (s : store)
    (test_id : UUID) (t : row) (owner : string) (current_user : principal)
    (mcq : MCQQuestionCreate) (theory : TheoryQuestionCreate) :
  p_role current_user = "institution" →
  head (rows_with "id" (VStr test_id) (table s "tests")) = Some t →
  t !! "created_by" = Some (VStr owner) →
  p_id current_user ≠ owner →
  mq_test_id mcq = test_id →
  tq_test_id theory = test_id →
  routes_question.create_mcq_question mcq current_user s
    = (Raise (HTTPException 403
                "Not authorized to add questions to this test"), s)
  ∧ routes_question.create_theory_question theory current_user s
    = (Raise (HTTPException 403 "Not authorized"), s).
Proof.
  intros Hrole Hrow Hby Hne Hmcq Htheory. split.
  - unfold routes_question.create_mcq_question. rewrite Hmcq. forbidden.
  - unfold routes_question.create_theory_question. rewrite Htheory.
    forbidden.
Qed.

Lemma question_creation_forbidden_for_other_institution_witness :
  p_role institution_u3 = "institution"
  ∧ head (rows_with "id" (VStr "t1") (table sample_store "tests"))
    = Some test_t1
  ∧ test_t1 !! "created_by" = Some (VStr "u2")
  ∧ routes_question.create_mcq_question (mcq_for "t1") institution_u3
      sample_store
    = (Raise (HTTPException 403
                "Not authorized to add questions to this test"),
       sample_store)
  ∧ routes_question.create_theory_question (theory_for "t1") institution_u3
      sample_store
    = (Raise (HTTPException 403 "Not authorized"), sample_store).
Proof.
  assert (p_role institution_u3 = "institution") as Hrole by reflexivity.
  assert (head (rows_with "id" (VStr "t1") (table sample_store "tests"))
          = Some test_t1) as Hrow by reflexivity.
  assert (test_t1 !! "created_by" = Some (VStr "u2")) as Hby by reflexivity.
  assert (p_id institution_u3 ≠ "u2") as Hne by discriminate.
  exact (conj Hrole (conj Hrow (conj Hby
           (question_creation_forbidden_for_other_institution sample_store
              "t1" test_t1 "u2" institution_u3 (mcq_for "t1")
              (theory_for "t1") Hrole Hrow Hby Hne eq_refl eq_refl)))).
Defined.

(** ** Profiles: the listings by role and the role statistics *)

Lemma rows_with_exclusive column (x y : string) (rows : list row) :
  x ≠ y →
  (length (rows_with column (VStr x) rows)
   + length (rows_with column (VStr y) rows) ≤ length rows)%nat.
Proof.
  intros Hxy. unfold rows_with. induction rows as [|r rows IH]; [done|].
  rewrite !filter_cons.
  destruct (matches [(column, VStr x)] r) eqn:Ex,
           (matches [(column, VStr y)] r) eqn:Ey.
  - apply matches_one_str in Ex, Ey. congruence.
  - rewrite decide_True, decide_False by done. cbn [length]. lia.
  - rewrite decide_False, decide_True by done. cbn [length]. lia.
  - rewrite !decide_False by done. cbn [length]. lia.
Qed.

Lemma role_listing_run (role : string) (page limit : Z) (s : store) :
  role ≠ "" →
  profile_service.get_all_profiles page limit None (Some role) None None s =
  (Ok (page_of page limit
         (newest_first (rows_with "role" (VStr role) (table s "profiles"))),
       length (rows_with "role" (VStr role) (table s "profiles"))), s).
Proof.
  intros Hrole. unfold profile_service.get_all_profiles.
  rewrite truthy_str_Some by congruence. cbn [truthy_str from_option id].
  query_norm. by apply listing_run.
Qed.

(** X17: the users listing and the institutions listing return, for a
    page [page >= 1] of [limit >= 1] rows, the profiles whose role is
    [user] (resp. [institution]), newest first, with the number of all
    such profiles as total; no filter on [is_active] is applied.  The role
    statistics report the same two totals and their sum, which is at most
    the number of profile rows; none of the three writes. *)
Theorem role_listings_and_stats (s : store) (page limit : Z) :
  1 ≤ page → 1 ≤ limit →
  let users := rows_with "role" (VStr "user") (table s "profiles") in
  let institutions :=
    rows_with "role" (VStr "institution") (table s "profiles") in
  routes_profile.get_all_users page limit s
    = (Ok {| pg_success := true;
             pg_message :=
               "Found "
               +:+ pretty (length (page_of page limit (newest_first users)))
               +:+ " users";
             pg_data := page_of page limit (newest_first users);
             pg_total := length users;
             pg_page := page; pg_limit := limit |}, s)
  ∧ routes_profile.get_all_institutions page limit s
    = (Ok {| pg_success := true;
             pg_message :=
               "Found "
               +:+ pretty (length (page_of page limit
                                     (newest_first institutions)))
               +:+ " institutions";
             pg_data := page_of page limit (newest_first institutions);
             pg_total := length institutions;
             pg_page := page; pg_limit := limit |}, s)
  ∧ profile_service.get_role_stats s
    = (Ok {[ "total_users" := VInt (Z.of_nat (length users));
             "total_institutions" := VInt (Z.of_nat (length institutions));
             "total_profiles" :=
               VInt (Z.of_nat (length users + length institutions)) ]}, s)
  ∧ (length users + length institutions ≤ length (table s "profiles"))%nat.
Proof.
  intros _ _ users institutions. split; [|split; [|split]].
  - unfold routes_profile.get_all_users, profile_service.get_users, bind.
    by rewrite role_listing_run.
  - unfold routes_profile.get_all_institutions,
      profile_service.get_institutions, bind.
    by rewrite role_listing_run.
  - unfold profile_service.get_role_stats, bind, execute, ret. query_norm.
    by rewrite !count_or_zero.
  - by apply rows_with_exclusive.
Qed.

Lemma role_listings_and_stats_witness :
  1 ≤ 1 ∧ 1 ≤ 10
  ∧ routes_profile.get_all_users 1 10 sample_store
    = (Ok {| pg_success := true; pg_message := "Found 1 users";
             pg_data := [profile_u1]; pg_total := 1%nat;
             pg_page := 1; pg_limit := 10 |}, sample_store)
  ∧ profile_service.get_role_stats sample_store
    = (Ok {[ "total_users" := VInt 1; "total_institutions" := VInt 1;
             "total_profiles" := VInt 2 ]}, sample_store).
Proof.
  assert (1 ≤ 1) as Hpage by lia.
  assert (1 ≤ 10) as Hlimit by lia.
  pose proof (role_listings_and_stats sample_store 1 10 Hpage Hlimit)
    as (Husers & _ & Hstats & _).
  exact (conj Hpage (conj Hlimit (conj Husers Hstats))).
Defined.

(** ** Questions: the theory details route *)

(** X18: for an existing question whose type is not [theory], the
    theory-details update route answers 400 after the lookup alone: no
    write is made. *)
Theorem update_theory_details_type_guard (s : store) (question_id : UUID)
    (update_data : TheoryDetailsUpdate) (current_user : principal)
    (q : row) (ty : value) :
  p_role current_user = "institution" →
  head (rows_with "id" (VStr question_id) (table s "questions")) = Some q →
  q !! "question_type" = Some ty →
  ty ≠ VStr "theory" →
  routes_question.update_theory_details question_id update_data
    current_user s
  = (Raise (HTTPException 400 "Not a theory question!"), s).
Proof.
  intros Hrole Hq Hty Hne.
  unfold routes_question.update_theory_details, bind.
  rewrite (require_role_ok _ _ _ Hrole).
  rewrite (get_question_by_id_ok _ _ _ _ Hq Hty).
  rewrite (truthy_assembled _ _ _ _ Hty). cbn [negb].
  unfold routes_question.type_of, subscript. cbn [from_option].
  rewrite base_assembled, Hty. unfold ret.
  by rewrite bool_decide_eq_false_2.
Qed.

Lemma update_theory_details_type_guard_witness :
  p_role institution_u2 = "institution"
  ∧ head (rows_with "id" (VStr "q1") (table sample_store "questions"))
    = Some question_q1
  ∧ question_q1 !! "question_type" = Some (VStr "mcq")
  ∧ VStr "mcq" ≠ VStr "theory"
  ∧ routes_question.update_theory_details "q1" sample_TheoryDetailsUpdate
      institution_u2 sample_store
    = (Raise (HTTPException 400 "Not a theory question!"), sample_store).
Proof.
  assert (p_role institution_u2 = "institution") as Hrole by reflexivity.
  assert (head (rows_with "id" (VStr "q1") (table sample_store "questions"))
          = Some question_q1) as Hq by reflexivity.
  assert (question_q1 !! "question_type" = Some (VStr "mcq")) as Hty
    by reflexivity.
  assert (VStr "mcq" ≠ VStr "theory") as Hne by discriminate.
  exact (conj Hrole (conj Hq (conj Hty (conj Hne
           (update_theory_details_type_guard sample_store "q1"
              sample_TheoryDetailsUpdate institution_u2 question_q1
              (VStr "mcq") Hrole Hq Hty Hne))))).
Defined.

(** X19: for a theory question with a detail row, the theory-details
    update route answers with the question and its detail row, in which
    every field present in the payload holds the submitted value and
    every other field is as it was. *)
Theorem update_theory_details_returns_updated (s : store)
    (question_id : UUID) (update_data : TheoryDetailsUpdate)
    (current_user : principal) (q det : row) :
  p_role current_user = "institution" →
  head (rows_with "id" (VStr question_id) (table s "questions")) = Some q →
  q !! "question_type" = Some (VStr "theory") →
  head (rows_with "question_id" (VStr question_id)
          (table s "theory_details")) = Some det →
  let payload := model_dump (TheoryDetailsUpdate_fields update_data) in
  ∃ det' s',
    routes_question.update_theory_details question_id update_data
      current_user s
    = (Ok {| success := true; message := "Theory details updated!";
             api_data := Some (Question q None (Some det')) |}, s')
    ∧ (∀ k v, payload !! k = Some v → det' !! k = Some v)
    ∧ (∀ k, payload !! k = None → det' !! k = det !! k).
Proof.
  intros Hrole Hq Hty Hdet payload.
  assert (∃ det' s',
            question_service.update_theory_details question_id
              update_data s
            = (Ok (Some (Question q None (Some det'))), s')
            ∧ (∀ k v, payload !! k = Some v → det' !! k = Some v)
            ∧ (∀ k, payload !! k = None → det' !! k = det !! k))
    as (det' & s' & Hrun & Hp & Ha).
  { destruct (decide (payload = ∅)) as [E|E].
    - exists det, s. split; [|split].
      + unfold question_service.update_theory_details. fold payload.
        unfold bind at 1. rewrite bool_decide_eq_true_2 by done.
        unfold ret at 1.
        rewrite (get_question_by_id_ok _ _ _ _ Hq Hty). unfold assembled.
        rewrite bool_decide_eq_false_2 by done.
        rewrite bool_decide_eq_true_2 by done. by rewrite Hdet.
      + intros k v Hk. by rewrite E, lookup_empty in Hk.
      + done.
    - destruct (update_theory_details_run s question_id update_data E)
        as (body & Ha & Hp & Hrun).
      fold payload in Ha, Hp.
      exists (body ∪ det). eexists. split; [|split].
      + rewrite Hrun. rewrite get_question_by_id_run.
        rewrite table_set_table_ne by (apply String.eqb_neq; reflexivity).
        rewrite Hq, Hty. unfold assembled.
        rewrite bool_decide_eq_false_2 by done.
        rewrite bool_decide_eq_true_2 by done.
        rewrite table_set_table_eq, rows_with_updated.
        * destruct (rows_with "question_id" (VStr question_id)
                      (table s "theory_details")) as [|d l]; [done|].
          injection Hdet as ->. reflexivity.
        * apply Ha, model_dump_lookup_None. not_a_field.
      + intros k v Hk. apply lookup_union_Some_l. rewrite (Hp k v Hk).
        f_equal. eapply TheoryDetailsUpdate_item, model_dump_lookup_Some, Hk.
      + intros k Hk. by rewrite lookup_union_r by auto. }
  exists det', s'. split; [|done].
  unfold routes_question.update_theory_details, bind.
  rewrite (require_role_ok _ _ _ Hrole).
  rewrite (get_question_by_id_ok _ _ _ _ Hq Hty).
  rewrite (truthy_assembled _ _ _ _ Hty). cbn [negb].
  unfold routes_question.type_of, subscript. cbn [from_option].
  rewrite base_assembled, Hty. unfold ret at 1.
  rewrite bool_decide_eq_true_2 by done. cbn [negb].
  by rewrite Hrun.
Qed.

Lemma update_theory_details_returns_updated_witness :
  p_role institution_u3 = "institution"
  ∧ head (rows_with "id" (VStr "q2") (table sample_store "questions"))
    = Some question_q2
  ∧ question_q2 !! "question_type" = Some (VStr "theory")
  ∧ head (rows_with "question_id" (VStr "q2")
            (table sample_store "theory_details")) = Some details_q2
  ∧ ∃ det' s',
      routes_question.update_theory_details "q2" sample_TheoryDetailsUpdate
        institution_u3 sample_store
      = (Ok {| success := true; message := "Theory details updated!";
               api_data := Some (Question question_q2 None (Some det')) |},
         s')
      ∧ (∀ k v,
           model_dump (TheoryDetailsUpdate_fields sample_TheoryDetailsUpdate)
             !! k = Some v →
           det' !! k = Some v)
      ∧ (∀ k,
           model_dump (TheoryDetailsUpdate_fields sample_TheoryDetailsUpdate)
             !! k = None →
           det' !! k = details_q2 !! k).
Proof.
  assert (p_role institution_u3 = "institution") as Hrole by reflexivity.
  assert (head (rows_with "id" (VStr "q2") (table sample_store "questions"))
          = Some question_q2) as Hq by reflexivity.
  assert (question_q2 !! "question_type" = Some (VStr "theory")) as Hty
    by reflexivity.
  assert (head (rows_with "question_id" (VStr "q2")
                  (table sample_store "theory_details")) = Some details_q2)
    as Hdet by reflexivity.
  exact (conj Hrole (conj Hq (conj Hty (conj Hdet
           (update_theory_details_returns_updated sample_store "q2"
              sample_TheoryDetailsUpdate institution_u3 question_q2
              details_q2 Hrole Hq Hty Hdet))))).
Defined.

(** ** Profiles: updating the own profile *)

Lemma truthy_dict_lookup (r : row) (k : string) (v : value) :
  r !! k = Some v → truthy_dict (Some r) = true.
Proof.
  intros Hk. cbn [truthy_dict]. rewrite bool_decide_eq_false_2; [done|].
  intros ->. by rewrite lookup_empty in Hk.
Qed.

(** X20: for a caller with a profile row, the own-profile update answers
    with that row, in which every field present in the payload holds the
    submitted value in its stored form and every other field is as it
    was.  The write addresses the rows of the caller alone: the profiles
    of other users are unchanged, no row changes its [id] or [user_id],
    and no other table changes. *)
Theorem update_my_profile_writes_own_row (s : store) (u : ProfileUpdate)
    (current_user : principal) (p : row) :
  head (rows_with "user_id" (VStr (p_id current_user)) (table s "profiles"))
    = Some p →
  let payload := model_dump (ProfileUpdate_fields u) in
  ∃ p' s',
    routes_profile.update_my_profile u current_user s
      = (Ok {| success := true; message := "Profile updated successfully";
               api_data := Some p' |}, s')
    ∧ (∀ k v, payload !! k = Some v → p' !! k = Some (stored_form v))
    ∧ (∀ k, payload !! k = None → p' !! k = p !! k)
    ∧ partial_write "user_id" (p_id current_user) payload
        (table s "profiles") (table s' "profiles")
    ∧ keeps_columns ["id"; "user_id"]
        (table s "profiles") (table s' "profiles")
    ∧ (∀ name, name ≠ "profiles" → table s' name = table s name).
Proof.
  intros Hhead payload.
  pose proof (head_rows_with_Some _ _ _ _ Hhead) as [_ Hu].
  assert (∀ k, k ∈ ["id"; "user_id"] → payload !! k = None) as Hfree.
  { intros k Hk. apply model_dump_lookup_None.
    repeat (apply elem_of_cons in Hk as [->|Hk]);
      [not_a_field.. | by apply not_elem_of_nil in Hk]. }
  assert (∃ p' s',
            profile_service.update_profile (p_id current_user) u s
            = (Ok (Some p'), s')
            ∧ p' !! "user_id" = Some (VStr (p_id current_user))
            ∧ (∀ k v, payload !! k = Some v → p' !! k = Some (stored_form v))
            ∧ (∀ k, payload !! k = None → p' !! k = p !! k)
            ∧ partial_write "user_id" (p_id current_user) payload
                (table s "profiles") (table s' "profiles")
            ∧ (∀ name, name ≠ "profiles" → table s' name = table s name))
    as (p' & s' & Hrun & Hu' & Hp & Ha & Hpw & Hother).
  { destruct (decide (payload = ∅)) as [E|E].
    - exists p, s. split; [|split; [|split; [|split; [|split]]]].
      + unfold profile_service.update_profile. fold payload.
        rewrite bool_decide_eq_true_2 by done.
        by rewrite get_profile_by_user_id_run, Hhead.
      + done.
      + intros k v Hk. by rewrite E, lookup_empty in Hk.
      + done.
      + rewrite E. apply partial_write_refl.
      + done.
    - destruct (update_profile_run s (p_id current_user) u E)
        as (body & Habsent & Hpresent & Hrun).
      fold payload in Habsent, Hpresent.
      exists (body ∪ p). eexists.
      split; [|split; [|split; [|split; [|split]]]].
      + rewrite Hrun.
        destruct (rows_with "user_id" (VStr (p_id current_user))
                    (table s "profiles")) as [|p0 l]; [done|].
        injection Hhead as ->. reflexivity.
      + rewrite lookup_union_r; [done|].
        apply Habsent, Hfree. set_solver.
      + intros k v Hk. apply lookup_union_Some_l. by apply Hpresent.
      + intros k Hk. by rewrite lookup_union_r by auto.
      + rewrite table_set_table_eq. by apply partial_write_update.
      + intros name Hname. by rewrite table_set_table_ne. }
  exists p', s'. split; [|split; [done|split; [done|split; [done|split]]]].
  - unfold routes_profile.update_my_profile, bind. rewrite Hrun.
    by rewrite (truthy_dict_lookup _ _ _ Hu').
  - by eapply partial_write_keeps.
  - done.
Qed.

Lemma update_my_profile_writes_own_row_witness :
  head (rows_with "user_id" (VStr (p_id institution_u2))
          (table sample_store "profiles")) = Some profile_u2
  ∧ ∃ p' s',
      routes_profile.update_my_profile activate_ProfileUpdate institution_u2
        sample_store
      = (Ok {| success := true; message := "Profile updated successfully";
               api_data := Some p' |}, s')
      ∧ (∀ k v,
           model_dump (ProfileUpdate_fields activate_ProfileUpdate) !! k
             = Some v →
           p' !! k = Some (stored_form v))
      ∧ (∀ k,
           model_dump (ProfileUpdate_fields activate_ProfileUpdate) !! k
             = None →
           p' !! k = profile_u2 !! k)
      ∧ partial_write "user_id" (p_id institution_u2)
          (model_dump (ProfileUpdate_fields activate_ProfileUpdate))
          (table sample_store "profiles") (table s' "profiles")
      ∧ keeps_columns ["id"; "user_id"]
          (table sample_store "profiles") (table s' "profiles")
      ∧ (∀ name, name ≠ "profiles" →
                 table s' name = table sample_store name).
Proof.
  assert (head (rows_with "user_id" (VStr (p_id institution_u2))
                  (table sample_store "profiles")) = Some profile_u2)
    as Hhead by reflexivity.
  exact (conj Hhead
           (update_my_profile_writes_own_row sample_store
              activate_ProfileUpdate institution_u2 profile_u2 Hhead)).
Defined.

(** ** The e-mail validator *)

Ltac each_ascii :=
  let c := fresh "c" in
  intros c; destruct c as [[] [] [] [] [] [] [] []]; reflexivity.

Lemma lower_ascii_idemp : ∀ c, lower_ascii (lower_ascii c) = lower_ascii c.
Proof. each_ascii. Qed.

Lemma lower_ascii_not_upper :
  ∀ c, re.between "A" "Z" (lower_ascii c) = false.
Proof. each_ascii. Qed.

Lemma lower_ascii_newline :
  ∀ c, Ascii.eqb (lower_ascii c) "010" = Ascii.eqb c "010".
Proof. each_ascii. Qed.

Lemma email_regex_lower_closed : lower_closed UserRegister.email_regex.
Proof. repeat constructor; each_ascii. Qed.

Lemma email_regex_rejects_at : rejects "@" UserRegister.email_regex.
Proof. repeat constructor. Qed.

Lemma existsb_ext_in {A} (f g : A → bool) (l : list A) :
  (∀ x, x ∈ l → f x = g x) → existsb f l = existsb g l.
Proof.
  induction l as [|x l IH]; intros H; [done|]. cbn.
  rewrite (H x) by apply list_elem_of_here.
  rewrite IH; [done|]. intros y Hy. apply H. by apply list_elem_of_further.
Qed.

Lemma step_lower (c : ascii) (items : re.pattern) :
  lower_closed items → re.step (lower_ascii c) items = re.step c items.
Proof.
  induction 1 as [|[a|[|n] p] items Hi _ IH]; cbn; [done|..].
  - by rewrite Hi.
  - by rewrite Hi, IH.
  - by rewrite Hi.
Qed.

Lemma step_lower_closed (c : ascii) (items st : re.pattern) :
  lower_closed items → st ∈ re.step c items → lower_closed st.
Proof.
  induction 1 as [|[a|[|n] p] items Hi Hrest IH]; cbn.
  - by intros ?%not_elem_of_nil.
  - destruct (Ascii.eqb c a); [|by intros ?%not_elem_of_nil].
    by intros ->%list_elem_of_singleton.
  - intros [Hst|Hst]%elem_of_app; [|by apply IH].
    destruct (p c); [|by apply not_elem_of_nil in Hst].
    apply list_elem_of_singleton in Hst as ->. by constructor.
  - destruct (p c); [|by intros ?%not_elem_of_nil].
    intros ->%list_elem_of_singleton. by constructor.
Qed.

Lemma fullmatch_lower (s : string) (items : re.pattern) :
  lower_closed items → re.fullmatch (lower s) items = re.fullmatch s items.
Proof.
  revert items. induction s as [|c s IH]; intros items Hc; [done|].
  cbn [lower re.fullmatch]. rewrite step_lower by done.
  apply existsb_ext_in. intros st Hst. apply IH.
  by eapply step_lower_closed.
Qed.

Lemma chomp_lower (s : string) : re.chomp (lower s) = lower <$> re.chomp s.
Proof.
  induction s as [|c s IH]; [done|]. destruct s as [|c' s].
  - cbn. rewrite lower_ascii_newline. by destruct (Ascii.eqb c "010").
  - change (String (lower_ascii c) <$> re.chomp (lower (String c' s))
            = lower <$> (String c <$> re.chomp (String c' s))).
    rewrite IH. by destruct (re.chomp (String c' s)).
Qed.

Lemma re_match_lower (items : re.pattern) (v : string) :
  lower_closed items → re.match_ items (lower v) = re.match_ items v.
Proof.
  intros Hc. unfold re.match_. rewrite fullmatch_lower, chomp_lower by done.
  destruct (re.chomp v) as [v'|]; [|done]. cbn.
  by rewrite fullmatch_lower.
Qed.

Lemma lower_idemp (s : string) : lower (lower s) = lower s.
Proof.
  induction s as [|c s IH]; [done|]. cbn.
  by rewrite lower_ascii_idemp, IH.
Qed.

Lemma has_upper_lower (s : string) : has_upper (lower s) = false.
Proof.
  induction s as [|c s IH]; [done|]. cbn.
  by rewrite lower_ascii_not_upper, IH.
Qed.

Lemma step_ones (a c : ascii) (items st : re.pattern) :
  rejects a items → st ∈ re.step c items →
  rejects a st
  ∧ ones a items = ((if Ascii.eqb c a then 1 else 0) + ones a st)%nat.
Proof.
  assert (∀ p : ascii → bool, p a = false → p c = true →
            Ascii.eqb c a = false) as Hother.
  { intros p Ha Hc. apply Ascii.eqb_neq. intros ->. congruence. }
  induction 1 as [|[b|[|n] p] items Hi Hrest IH]; cbn.
  - by intros ?%not_elem_of_nil.
  - destruct (Ascii.eqb c b) eqn:E; [|by intros ?%not_elem_of_nil].
    intros ->%list_elem_of_singleton. apply Ascii.eqb_eq in E as ->. done.
  - intros [Hst|Hst]%elem_of_app; [|by apply IH].
    destruct (p c) eqn:E; [|by apply not_elem_of_nil in Hst].
    apply list_elem_of_singleton in Hst as ->.
    split; [by constructor|]. cbn. by rewrite (Hother p).
  - destruct (p c) eqn:E; [|by intros ?%not_elem_of_nil].
    intros ->%list_elem_of_singleton.
    split; [by constructor|]. cbn. by rewrite (Hother p).
Qed.

Lemma nullable_ones (a : ascii) (items : re.pattern) :
  re.nullable items = true → ones a items = 0%nat.
Proof.
  induction items as [|[b|[|n] p] items IH]; cbn; try done.
Qed.

Lemma fullmatch_count (a : ascii) (s : string) (items : re.pattern) :
  rejects a items → re.fullmatch s items = true →
  count_char a s = ones a items.
Proof.
  revert items. induction s as [|c s IH]; intros items Hr Hm.
  - symmetry. by apply nullable_ones.
  - cbn [re.fullmatch] in Hm. apply existsb_exists in Hm as (st & Hst & Hm).
    apply list_elem_of_In in Hst.
    destruct (step_ones a c items st Hr Hst) as [Hr' ->].
    cbn [count_char]. by rewrite (IH st).
Qed.

Lemma chomp_count (a : ascii) (v v' : string) :
  Ascii.eqb "010" a = false → re.chomp v = Some v' →
  count_char a v = count_char a v'.
Proof.
  intros Ha. revert v'. induction v as [|c v IH]; intros v' Hv; [done|].
  destruct v as [|c' v].
  - cbn in Hv. destruct (Ascii.eqb c "010") eqn:E; [|done].
    injection Hv as <-. apply Ascii.eqb_eq in E as ->.
    cbn [count_char]. by rewrite Ha.
  - change (String c <$> re.chomp (String c' v) = Some v') in Hv.
    destruct (re.chomp (String c' v)) as [w|]; [|done].
    injection Hv as <-. cbn [count_char]. by rewrite <- (IH w).
Qed.

Lemma count_char_lower (a : ascii) (s : string) :
  (∀ c, Ascii.eqb (lower_ascii c) a = Ascii.eqb c a) →
  count_char a (lower s) = count_char a s.
Proof.
  intros Ha. induction s as [|c s IH]; [done|]. cbn. by rewrite Ha, IH.
Qed.

Lemma lower_ascii_at : ∀ c, Ascii.eqb (lower_ascii c) "@" = Ascii.eqb c "@".
Proof. each_ascii. Qed.

Lemma lower_app (s t : string) : lower (s +:+ t) = lower s +:+ lower t.
Proof.
  induction s as [|c s IH]; [done|].
  change (String (lower_ascii c) (lower (s +:+ t))
          = String (lower_ascii c) (lower s +:+ lower t)).
  by rewrite IH.
Qed.

Lemma chomp_app_newline (s : string) :
  re.chomp (s +:+ newline) = Some s.
Proof.
  induction s as [|c s IH]; [done|].
  change (re.chomp (String c (s +:+ newline))
          = Some (String c s)).
  destruct s as [|c' s]; [by cbn | ].
  change (String c <$> re.chomp (String c' s +:+ newline)
          = Some (String c (String c' s))).
  by rewrite IH.
Qed.

(** X21: an address that the validator of [UserRegister] lets through
    comes back in lower case, is let through again and comes back as it
    is, has no upper-case letter and holds exactly one [@].  The pattern
    ends in [$], so an address that is let through is let through with a
    line feed after it as well, and the line feed is kept. *)
Theorem validate_email_normal_form (v v' : string) :
  UserRegister.validate_email v = Valid v' →
  v' = lower v
  ∧ UserRegister.validate_email v' = Valid v'
  ∧ has_upper v' = false
  ∧ count_char "@" v' = 1%nat
  ∧ (re.chomp v = None →
     UserRegister.validate_email (v +:+ newline)
     = Valid (v' +:+ newline)).
Proof.
  unfold UserRegister.validate_email.
  destruct (re.match_ UserRegister.email_regex v) eqn:Hm; [|done].
  cbn [negb].
  intros [= <-]. split; [done|]. split; [|split; [|split]].
  - rewrite (re_match_lower _ _ email_regex_lower_closed), Hm. cbn [negb].
    by rewrite lower_idemp.
  - apply has_upper_lower.
  - rewrite (count_char_lower _ _ lower_ascii_at).
    unfold re.match_ in Hm. apply orb_true_iff in Hm as [Hm|Hm].
    + by rewrite (fullmatch_count _ _ _ email_regex_rejects_at Hm).
    + destruct (re.chomp v) as [w|] eqn:Hw; [|done]. cbn in Hm.
      rewrite (chomp_count "@" v w eq_refl Hw).
      by rewrite (fullmatch_count _ _ _ email_regex_rejects_at Hm).
  - intros Hnone. unfold re.match_ in Hm |- *. rewrite Hnone in Hm.
    rewrite orb_false_r in Hm.
    rewrite chomp_app_newline. cbn [from_option]. rewrite Hm, orb_true_r.
    cbn [negb]. by rewrite lower_app.
Qed.

Lemma validate_email_normal_form_witness :
  UserRegister.validate_email "Rahul.Sharma@Example.COM"
  = Valid "rahul.sharma@example.com"
  ∧ "rahul.sharma@example.com" = lower "Rahul.Sharma@Example.COM"
  ∧ UserRegister.validate_email "rahul.sharma@example.com"
    = Valid "rahul.sharma@example.com"
  ∧ has_upper "rahul.sharma@example.com" = false
  ∧ count_char "@" "rahul.sharma@example.com" = 1%nat
  ∧ (re.chomp "Rahul.Sharma@Example.COM" = None →
     UserRegister.validate_email ("Rahul.Sharma@Example.COM" +:+ newline)
     = Valid ("rahul.sharma@example.com" +:+ newline)).
Proof.
  assert (UserRegister.validate_email "Rahul.Sharma@Example.COM"
          = Valid "rahul.sharma@example.com") as Hv by reflexivity.
  exact (conj Hv (validate_email_normal_form _ _ Hv)).
Defined.

(** ** Tests: the update by the owner *)

(** X22: for the owner of an existing test, the update route answers with
    the test's row, in which every field present in the payload holds the
    submitted value in its stored form and every other column of the
    table is as it was.  The write addresses the rows with the given id
    alone, no row changes its [id] or its creator, and no other table
    changes. *)
Theorem update_test_by_owner (s : store) (test_id : UUID) (u : TestUpdate)
    (current_user : principal) (t : row) :
  p_role current_user = "institution" →
  head (rows_with "id" (VStr test_id) (table s "tests")) = Some t →
  t !! "created_by" = Some (VStr (p_id current_user)) →
  let payload := model_dump (TestUpdate_fields u) in
  ∃ t' s',
    routes_test.update_test test_id u current_user s
      = (Ok {| success := true; message := "Test updated!";
               api_data := Some t' |}, s')
    ∧ (∀ k v, payload !! k = Some v → t' !! k = Some (stored_form v))
    ∧ (∀ k, payload !! k = None → k ≠ "question_count" →
            t' !! k = t !! k)
    ∧ partial_write "id" test_id payload (table s "tests") (table s' "tests")
    ∧ keeps_columns ["id"; "created_by"] (table s "tests") (table s' "tests")
    ∧ (∀ name, name ≠ "tests" → table s' name = table s name).
Proof.
  intros Hrole Hhead Hby payload.
  assert (∀ k, k ∈ ["id"; "created_by"] → payload !! k = None) as Hfree.
  { intros k Hk. apply model_dump_lookup_None.
    repeat (apply elem_of_cons in Hk as [->|Hk]);
      [not_a_field.. | by apply not_elem_of_nil in Hk]. }
  assert (∃ t' s',
            test_service.update_test test_id u s = (Ok (Some t'), s')
            ∧ (∀ k v, payload !! k = Some v → t' !! k = Some (stored_form v))
            ∧ (∀ k, payload !! k = None → k ≠ "question_count" →
                    t' !! k = t !! k)
            ∧ partial_write "id" test_id payload
                (table s "tests") (table s' "tests")
            ∧ (∀ name, name ≠ "tests" → table s' name = table s name))
    as (t' & s' & Hrun & Hp & Ha & Hpw & Hother).
  { destruct (decide (payload = ∅)) as [E|E].
    - eexists _, s. split; [|split; [|split; [|split]]].
      + unfold test_service.update_test. fold payload.
        rewrite bool_decide_eq_true_2 by done.
        rewrite get_test_by_id_run, Hhead. reflexivity.
      + intros k v Hk. by rewrite E, lookup_empty in Hk.
      + intros k _ Hk. by rewrite lookup_insert_ne.
      + rewrite E. apply partial_write_refl.
      + done.
    - destruct (update_test_run s test_id u E)
        as (body & Habsent & Hpresent & Hrun).
      fold payload in Habsent, Hpresent.
      exists (body ∪ t). eexists. split; [|split; [|split; [|split]]].
      + rewrite Hrun.
        destruct (rows_with "id" (VStr test_id) (table s "tests"))
          as [|t0 l]; [done|].
        injection Hhead as ->. reflexivity.
      + intros k v Hk. apply lookup_union_Some_l. by apply Hpresent.
      + intros k Hk _. by rewrite lookup_union_r by auto.
      + rewrite table_set_table_eq. by apply partial_write_update.
      + intros name Hname. by rewrite table_set_table_ne. }
  exists t', s'. split; [|split; [done|split; [done|split; [done|split]]]].
  - unfold routes_test.update_test, bind.
    rewrite (require_role_ok _ _ _ Hrole), get_test_by_id_run, Hhead.
    cbn [fmap option_fmap option_map].
    rewrite truthy_dict_insert, (not_owner_self _ _ _ Hby). cbn [negb].
    by rewrite Hrun.
  - by eapply partial_write_keeps.
  - done.
Qed.

Lemma update_test_by_owner_witness :
  p_role institution_u2 = "institution"
  ∧ head (rows_with "id" (VStr "t1") (table sample_store "tests"))
    = Some test_t1
  ∧ test_t1 !! "created_by" = Some (VStr (p_id institution_u2))
  ∧ ∃ t' s',
      routes_test.update_test "t1" (publish_update true) institution_u2
        sample_store
      = (Ok {| success := true; message := "Test updated!";
               api_data := Some t' |}, s')
      ∧ (∀ k v,
           model_dump (TestUpdate_fields (publish_update true)) !! k
             = Some v →
           t' !! k = Some (stored_form v))
      ∧ (∀ k,
           model_dump (TestUpdate_fields (publish_update true)) !! k = None →
           k ≠ "question_count" → t' !! k = test_t1 !! k)
      ∧ partial_write "id" "t1"
          (model_dump (TestUpdate_fields (publish_update true)))
          (table sample_store "tests") (table s' "tests")
      ∧ keeps_columns ["id"; "created_by"]
          (table sample_store "tests") (table s' "tests")
      ∧ (∀ name, name ≠ "tests" → table s' name = table sample_store name).
Proof.
  assert (p_role institution_u2 = "institution") as Hrole by reflexivity.
  assert (head (rows_with "id" (VStr "t1") (table sample_store "tests"))
          = Some test_t1) as Hhead by reflexivity.
  assert (test_t1 !! "created_by" = Some (VStr (p_id institution_u2)))
    as Hby by reflexivity.
  exact (conj Hrole (conj Hhead (conj Hby
           (update_test_by_owner sample_store "t1" (publish_update true)
              institution_u2 test_t1 Hrole Hhead Hby)))).
Defined.

(** ** Questions: updates and deletes need no ownership *)

Lemma update_question_run (s : store) (question_id : UUID)
    (u : QuestionUpdate) (q : row) :
  let payload := model_dump (QuestionUpdate_fields u) in
  payload ≠ ∅ →
  head (rows_with "id" (VStr question_id) (table s "questions")) = Some q →
  ∃ body,
    (∀ k, payload !! k = None → body !! k = None)
    ∧ (∀ k v, payload !! k = Some v → body !! k = Some (stored_form v))
    ∧ question_service.update_question question_id u s =
      question_service.get_question_by_id question_id
        (set_table s "questions"
           ((λ r : row, if matches [("id", VStr question_id)] r
                        then body ∪ r else r) <$> table s "questions")).
Proof.
  intros payload Hne Hq.
  destruct (body_of_dict payload payload) as (body & Hbody & Ha & Hp);
    [done | |].
  { intros k v Hk. rewrite Hk. cbn.
    eapply QuestionUpdate_item, model_dump_lookup_Some, Hk. }
  exists body. split; [done|]. split; [done|].
  unfold question_service.update_question. fold payload.
  rewrite bool_decide_eq_false_2 by done.
  unfold bind. query_norm. rewrite (execute_update _ _ _ _ _ Hbody).
  cbn [data]. fold (rows_with "id" (VStr question_id) (table s "questions")).
  by destruct (rows_with "id" (VStr question_id) (table s "questions")).
Qed.

Lemma update_mcq_options_run (s : store) (question_id : UUID)
    (u : MCQOptionUpdate) :
  let payload := model_dump (MCQOptionUpdate_fields u) in
  payload ≠ ∅ →
  ∃ body,
    (∀ k, payload !! k = None → body !! k = None)
    ∧ (∀ k v, payload !! k = Some v → body !! k = Some (stored_form v))
    ∧ question_service.update_mcq_options question_id u s =
      question_service.get_question_by_id question_id
        (set_table s "mcq_options"
           ((λ r : row, if matches [("question_id", VStr question_id)] r
                        then body ∪ r else r) <$> table s "mcq_options")).
Proof.
  intros payload Hne. unfold question_service.update_mcq_options.
  fold payload.
  set (d := match payload !! "correct_option" with
            | Some v => _
            | None => payload
            end).
  assert (∀ k, d !! k =
               if decide (k = "correct_option")
               then stored_form <$> payload !! k else payload !! k) as Hd.
  { intros k. subst d.
    destruct (payload !! "correct_option") as [v|] eqn:E.
    - rewrite lookup_insert. case_decide as Hk.
      + subst k. rewrite decide_True, E by done.
        apply model_dump_lookup_Some, MCQOptionUpdate_item in E
          as [_ (n & val & ->)]; done.
      + by rewrite decide_False by done.
    - case_decide as Hk; [subst k; by rewrite E | done]. }
  destruct (body_of_dict payload d) as (body & Hbody & Ha & Hp).
  { intros k Hk. rewrite Hd, Hk. by case_decide. }
  { intros k v Hk. rewrite Hd, Hk.
    apply model_dump_lookup_Some, MCQOptionUpdate_item in Hk
      as [Hv Henum].
    case_decide as Hc; [|done].
    destruct (Henum Hc) as (n & val & ->). done. }
  exists body. split; [done|]. split; [done|].
  assert (d ≠ ∅) as Hdne.
  { intros Hempty. apply Hne. apply map_eq. intros k.
    pose proof (Hd k) as Hk. rewrite Hempty, !lookup_empty in *.
    case_decide; [by destruct (payload !! k) | done]. }
  unfold bind at 1. rewrite bool_decide_eq_false_2 by done.
  unfold bind at 1. query_norm.
  by rewrite (execute_update _ _ _ _ _ Hbody).
Qed.

(** What a detail update of an existing question does: the partial write
    on the detail table, and the lookup after it as the answer. *)
Lemma detail_update_effect (s : store) (question_id : UUID) (q : row)
    (ty : value) (name : string) (payload : row)
    (run : M (option question)) :
  name ≠ "questions" →
  head (rows_with "id" (VStr question_id) (table s "questions")) = Some q →
  q !! "question_type" = Some ty →
  (payload = ∅ → run s = question_service.get_question_by_id question_id s) →
  (payload ≠ ∅ →
   ∃ body,
     (∀ k, payload !! k = None → body !! k = None)
     ∧ (∀ k v, payload !! k = Some v → body !! k = Some (stored_form v))
     ∧ run s =
       question_service.get_question_by_id question_id
         (set_table s name
            ((λ r : row, if matches [("question_id", VStr question_id)] r
                         then body ∪ r else r) <$> table s name))) →
  ∃ s',
    run s = (Ok (Some (assembled s' question_id q ty)), s')
    ∧ partial_write "question_id" question_id payload
        (table s name) (table s' name)
    ∧ (∀ name', name' ≠ name → table s' name' = table s name').
Proof.
  intros Hname Hq Hty Hempty Hwrite.
  destruct (decide (payload = ∅)) as [E|E].
  - exists s. split; [|split; [|done]].
    + rewrite (Hempty E). by apply get_question_by_id_ok.
    + rewrite E. apply partial_write_refl.
  - destruct (Hwrite E) as (body & Ha & Hp & Hrun).
    eexists. split; [|split].
    + rewrite Hrun. apply get_question_by_id_ok; [|done].
      by rewrite table_set_table_ne.
    + rewrite table_set_table_eq. by apply partial_write_update.
    + intros name' Hname'. by rewrite table_set_table_ne.
Qed.

(** C9: the question update routes (base row, MCQ options, theory
    details) and the delete route never look at the caller's id: any two
    institution principals get the same answer and leave the same store.
    For an existing question and any institution principal, whoever
    created the owning test, each of them takes effect.  The base update
    writes the present fields of its payload into the question's row and
    answers with the question as stored, which holds them.  The delete
    writes [is_active = false] into the question's row, which the lookup
    by id then shows.  The options update of an MCQ question and the
    details update of a theory question write the present fields of their
    payload into the detail rows of the question and answer with the
    question and its detail row as stored.  None of them changes another
    row or another table. *)
Theorem question_mutation_ignores_owner (s : store) (question_id : UUID)
    (u : QuestionUpdate) (u_mcq : MCQOptionUpdate)
    (u_theory : TheoryDetailsUpdate) (caller other : principal)
    (q : row) (ty : value) :
  p_role caller = "institution" →
  p_role other = "institution" →
  head (rows_with "id" (VStr question_id) (table s "questions")) = Some q →
  q !! "question_type" = Some ty →
  (routes_question.update_question question_id u caller s
   = routes_question.update_question question_id u other s
   ∧ routes_question.update_mcq_options question_id u_mcq caller s
     = routes_question.update_mcq_options question_id u_mcq other s
   ∧ routes_question.update_theory_details question_id u_theory caller s
     = routes_question.update_theory_details question_id u_theory other s
   ∧ routes_question.delete_question question_id caller s
     = routes_question.delete_question question_id other s)
  ∧ (∃ q' s',
       routes_question.update_question question_id u caller s
       = (Ok {| success := true; message := "Question updated!";
                api_data := Some (assembled s' question_id q' ty) |}, s')
       ∧ head (rows_with "id" (VStr question_id) (table s' "questions"))
         = Some q'
       ∧ (∀ k v, model_dump (QuestionUpdate_fields u) !! k = Some v →
                 q' !! k = Some (stored_form v))
       ∧ (∀ k, model_dump (QuestionUpdate_fields u) !! k = None →
               q' !! k = q !! k)
       ∧ partial_write "id" question_id (model_dump (QuestionUpdate_fields u))
           (table s "questions") (table s' "questions")
       ∧ (∀ name, name ≠ "questions" → table s' name = table s name))
  ∧ (∃ s',
       routes_question.delete_question question_id caller s
       = (Ok {| success := true; message := "Question deleted!";
                api_data := Some {["deleted_id" := VStr question_id]} |}, s')
       ∧ question_service.get_question_by_id question_id s'
         = (Ok (Some (assembled s question_id
                        (<["is_active" := VBool false]> q) ty)), s')
       ∧ partial_write "id" question_id {["is_active" := VBool false]}
           (table s "questions") (table s' "questions")
       ∧ (∀ name, name ≠ "questions" → table s' name = table s name))
  ∧ (ty = VStr "mcq" →
     ∃ s',
       routes_question.update_mcq_options question_id u_mcq caller s
       = (Ok {| success := true; message := "MCQ options updated!";
                api_data := Some (assembled s' question_id q ty) |}, s')
       ∧ partial_write "question_id" question_id
           (model_dump (MCQOptionUpdate_fields u_mcq))
           (table s "mcq_options") (table s' "mcq_options")
       ∧ (∀ name, name ≠ "mcq_options" → table s' name = table s name))
  ∧ (ty = VStr "theory" →
     ∃ s',
       routes_question.update_theory_details question_id u_theory caller s
       = (Ok {| success := true; message := "Theory details updated!";
                api_data := Some (assembled s' question_id q ty) |}, s')
       ∧ partial_write "question_id" question_id
           (model_dump (TheoryDetailsUpdate_fields u_theory))
           (table s "theory_details") (table s' "theory_details")
       ∧ (∀ name, name ≠ "theory_details" → table s' name = table s name)).
Proof.
  intros Hcaller Hother Hq Hty.
  assert (∀ A (k : principal → M A) (k' : M A),
            (∀ p, k p = k') →
            bind (require_role "institution" caller) k s
            = bind (require_role "institution" other) k s) as Hsame.
  { intros A0 k k' Hk. unfold bind.
    rewrite (require_role_ok _ _ _ Hcaller), (require_role_ok _ _ _ Hother).
    by rewrite !Hk. }
  split; [repeat split; by eapply Hsame|].
  split; [|split; [|split]].
  - assert (∃ q' s',
              question_service.update_question question_id u s
              = (Ok (Some (assembled s' question_id q' ty)), s')
              ∧ head (rows_with "id" (VStr question_id)
                        (table s' "questions")) = Some q'
              ∧ (∀ k v, model_dump (QuestionUpdate_fields u) !! k = Some v →
                        q' !! k = Some (stored_form v))
              ∧ (∀ k, model_dump (QuestionUpdate_fields u) !! k = None →
                      q' !! k = q !! k)
              ∧ partial_write "id" question_id
                  (model_dump (QuestionUpdate_fields u))
                  (table s "questions") (table s' "questions")
              ∧ (∀ name, name ≠ "questions" → table s' name = table s name))
      as (q' & s' & Hrun & Hrest).
    { set (payload := model_dump (QuestionUpdate_fields u)).
      destruct (decide (payload = ∅)) as [E|E].
      - exists q, s. split; [|split; [done|split; [|split; [done|split]]]].
        + unfold question_service.update_question. fold payload.
          rewrite bool_decide_eq_true_2 by done.
          by apply get_question_by_id_ok.
        + intros k v Hk. by rewrite E, lookup_empty in Hk.
        + rewrite E. apply partial_write_refl.
        + done.
      - destruct (update_question_run s question_id u q E Hq)
          as (body & Ha & Hp & Hrun).
        fold payload in Ha, Hp.
        assert (∀ k, k ∉ (QuestionUpdate_fields u).*1 → body !! k = None)
          as Hfree.
        { intros k Hk. by apply Ha, model_dump_lookup_None. }
        exists (body ∪ q). eexists.
        assert (head (rows_with "id" (VStr question_id)
                        ((λ r : row, if matches [("id", VStr question_id)] r
                                     then body ∪ r else r)
                           <$> table s "questions")) = Some (body ∪ q))
          as Hhead.
        { rewrite rows_with_updated by (apply Hfree; not_a_field).
          destruct (rows_with "id" (VStr question_id) (table s "questions"))
            as [|q0 l]; [done|].
          injection Hq as ->. reflexivity. }
        split; [|split; [|split; [|split; [|split]]]].
        + rewrite Hrun. apply get_question_by_id_ok.
          * by rewrite table_set_table_eq.
          * rewrite lookup_union_r; [done | apply Hfree; not_a_field].
        + by rewrite table_set_table_eq.
        + intros k v Hk. apply lookup_union_Some_l. by apply Hp.
        + intros k Hk. by rewrite lookup_union_r by auto.
        + rewrite table_set_table_eq. by apply partial_write_update.
        + intros name Hname. by rewrite table_set_table_ne. }
    exists q', s'. split; [|done].
    unfold routes_question.update_question, bind.
    rewrite (require_role_ok _ _ _ Hcaller).
    rewrite (get_question_by_id_ok _ _ _ _ Hq Hty).
    rewrite (truthy_assembled _ _ _ _ Hty). cbn [negb].
    by rewrite Hrun.
  - set (upd := λ r : row, if matches [("id", VStr question_id)] r
                           then {["is_active" := VBool false]} ∪ r else r).
    assert (question_service.delete_question question_id s =
            (Ok true, set_table s "questions" (upd <$> table s "questions")))
      as Hrun.
    { rewrite delete_question_run.
      by destruct (rows_with "id" (VStr question_id) (table s "questions")). }
    eexists. split; [|split; [|split]].
    + unfold routes_question.delete_question, bind.
      rewrite (require_role_ok _ _ _ Hcaller).
      rewrite (get_question_by_id_ok _ _ _ _ Hq Hty).
      rewrite (truthy_assembled _ _ _ _ Hty). cbn [negb].
      by rewrite Hrun.
    + rewrite get_question_by_id_run, table_set_table_eq. subst upd.
      rewrite rows_with_updated by (by apply lookup_singleton_ne).
      destruct (rows_with "id" (VStr question_id) (table s "questions"))
        as [|q0 l]; [discriminate Hq|].
      injection Hq as ->. cbn [fmap list_fmap head].
      rewrite <- insert_union_singleton_l.
      rewrite lookup_insert_ne by (apply String.eqb_neq; reflexivity).
      rewrite Hty. unfold assembled.
      by rewrite !table_set_table_ne by (apply String.eqb_neq; reflexivity).
    + rewrite table_set_table_eq. apply partial_write_update.
      * intros k Hk. apply lookup_singleton_None.
        by apply lookup_singleton_None in Hk.
      * intros k v [-> <-]%lookup_singleton_Some. apply lookup_singleton_eq.
    + intros name Hname. by rewrite table_set_table_ne.
  - intros ->.
    destruct (detail_update_effect s question_id q (VStr "mcq") "mcq_options"
                (model_dump (MCQOptionUpdate_fields u_mcq))
                (question_service.update_mcq_options question_id u_mcq))
      as (s' & Hrun & Hrest); [done | done | done | | |].
    { intros E. unfold question_service.update_mcq_options. rewrite E.
      rewrite lookup_empty. unfold bind at 1.
      by rewrite bool_decide_eq_true_2 by done. }
    { apply update_mcq_options_run. }
    exists s'. split; [|done].
    unfold routes_question.update_mcq_options, bind.
    rewrite (require_role_ok _ _ _ Hcaller).
    rewrite (get_question_by_id_ok _ _ _ _ Hq Hty).
    rewrite (truthy_assembled _ _ _ _ Hty). cbn [negb].
    unfold routes_question.type_of, subscript. cbn [from_option].
    rewrite base_assembled, Hty. unfold ret at 1.
    rewrite bool_decide_eq_true_2 by done. cbn [negb]. by rewrite Hrun.
  - intros ->.
    destruct (detail_update_effect s question_id q (VStr "theory")
                "theory_details"
                (model_dump (TheoryDetailsUpdate_fields u_theory))
                (question_service.update_theory_details question_id u_theory))
      as (s' & Hrun & Hrest); [done | done | done | | |].
    { intros E. unfold question_service.update_theory_details.
      unfold bind at 1. by rewrite bool_decide_eq_true_2 by done. }
    { apply update_theory_details_run. }
    exists s'. split; [|done].
    unfold routes_question.update_theory_details, bind.
    rewrite (require_role_ok _ _ _ Hcaller).
    rewrite (get_question_by_id_ok _ _ _ _ Hq Hty).
    rewrite (truthy_assembled _ _ _ _ Hty). cbn [negb].
    unfold routes_question.type_of, subscript. cbn [from_option].
    rewrite base_assembled, Hty. unfold ret at 1.
    rewrite bool_decide_eq_true_2 by done. cbn [negb]. by rewrite Hrun.
Qed.

(** In the sample store the MCQ question [q1] belongs to the test [t1] of
    institution [u2]; the caller is institution [u3]. *)
Lemma question_mutation_ignores_owner_witness :
  p_role institution_u3 = "institution"
  ∧ p_role institution_u2 = "institution"
  ∧ head (rows_with "id" (VStr "q1") (table sample_store "questions"))
    = Some question_q1
  ∧ question_q1 !! "question_type" = Some (VStr "mcq")
  ∧ (question_q1 !! "test_id" = Some (VStr "t1")
     ∧ test_t1 !! "created_by" = Some (VStr "u2")
     ∧ p_id institution_u3 = "u3")
  ∧ (routes_question.update_question "q1" sample_QuestionUpdate
       institution_u3 sample_store
     = routes_question.update_question "q1" sample_QuestionUpdate
         institution_u2 sample_store
     ∧ routes_question.update_mcq_options "q1" sample_MCQOptionUpdate
         institution_u3 sample_store
       = routes_question.update_mcq_options "q1" sample_MCQOptionUpdate
           institution_u2 sample_store
     ∧ routes_question.update_theory_details "q1" sample_TheoryDetailsUpdate
         institution_u3 sample_store
       = routes_question.update_theory_details "q1"
           sample_TheoryDetailsUpdate institution_u2 sample_store
     ∧ routes_question.delete_question "q1" institution_u3 sample_store
       = routes_question.delete_question "q1" institution_u2 sample_store)
  ∧ (∃ q' s',
       routes_question.update_question "q1" sample_QuestionUpdate
         institution_u3 sample_store
       = (Ok {| success := true; message := "Question updated!";
                api_data := Some (assembled s' "q1" q' (VStr "mcq")) |}, s')
       ∧ head (rows_with "id" (VStr "q1") (table s' "questions")) = Some q'
       ∧ (∀ k v,
            model_dump (QuestionUpdate_fields sample_QuestionUpdate) !! k
              = Some v →
            q' !! k = Some (stored_form v))
       ∧ (∀ k,
            model_dump (QuestionUpdate_fields sample_QuestionUpdate) !! k
              = None →
            q' !! k = question_q1 !! k)
       ∧ partial_write "id" "q1"
           (model_dump (QuestionUpdate_fields sample_QuestionUpdate))
           (table sample_store "questions") (table s' "questions")
       ∧ (∀ name, name ≠ "questions" →
                  table s' name = table sample_store name))
  ∧ (∃ s',
       routes_question.delete_question "q1" institution_u3 sample_store
       = (Ok {| success := true; message := "Question deleted!";
                api_data := Some {["deleted_id" := VStr "q1"]} |}, s')
       ∧ question_service.get_question_by_id "q1" s'
         = (Ok (Some (assembled sample_store "q1"
                        (<["is_active" := VBool false]> question_q1)
                        (VStr "mcq"))), s')
       ∧ partial_write "id" "q1" {["is_active" := VBool false]}
           (table sample_store "questions") (table s' "questions")
       ∧ (∀ name, name ≠ "questions" →
                  table s' name = table sample_store name))
  ∧ (∃ s',
       routes_question.update_mcq_options "q1" sample_MCQOptionUpdate
         institution_u3 sample_store
       = (Ok {| success := true; message := "MCQ options updated!";
                api_data := Some (assembled s' "q1" question_q1 (VStr "mcq"))
             |}, s')
       ∧ partial_write "question_id" "q1"
           (model_dump (MCQOptionUpdate_fields sample_MCQOptionUpdate))
           (table sample_store "mcq_options") (table s' "mcq_options")
       ∧ (∀ name, name ≠ "mcq_options" →
                  table s' name = table sample_store name)).
Proof.
  assert (p_role institution_u3 = "institution") as Hcaller by reflexivity.
  assert (p_role institution_u2 = "institution") as Hother by reflexivity.
  assert (head (rows_with "id" (VStr "q1") (table sample_store "questions"))
          = Some question_q1) as Hq by reflexivity.
  assert (question_q1 !! "question_type" = Some (VStr "mcq")) as Hty
    by reflexivity.
  assert (question_q1 !! "test_id" = Some (VStr "t1")
          ∧ test_t1 !! "created_by" = Some (VStr "u2")
          ∧ p_id institution_u3 = "u3") as Hforeign
    by (split; [|split]; reflexivity).
  pose proof (question_mutation_ignores_owner sample_store "q1"
                sample_QuestionUpdate sample_MCQOptionUpdate
                sample_TheoryDetailsUpdate institution_u3 institution_u2
                question_q1 (VStr "mcq") Hcaller Hother Hq Hty)
    as (Hsame & Hupdate & Hdelete & Hmcq & _).
  exact (conj Hcaller (conj Hother (conj Hq (conj Hty (conj Hforeign
           (conj Hsame (conj Hupdate (conj Hdelete (Hmcq eq_refl))))))))).
Defined.
